(** * Transaction controller of the Cryptum SDK: a shallow embedding

    The controller (features/transaction/controller) is a set of [async]
    methods.  Each one validates its input, talks to the remote API, calls
    a local builder that signs, and wraps the result in a
    [SignedTransaction].  The embedding keeps that shape:

    - JavaScript values that reach a truthiness test, a [+] or a [===] are
      kept as [JsVal];
    - every remote request and every call of a local builder is an [Event]
      of a log, in program order, and a method is a computation in the
      monad [M] (log + exception);
    - what the remote API answers, what the builders and the helpers that
      live in other modules of the SDK return, is the environment [Env]. *)

From stdpp Require Import base strings list gmap pretty.
From Stdlib Require Import ZArith Lia.

Open Scope string_scope.
Open Scope list_scope.
Open Scope Z_scope.

(** ** JavaScript values *)

(** Numbers are the integer-valued doubles the API exchanges (gas amounts,
    ledger indexes, output values, all far below 2^53, where double
    arithmetic is exact); [JNaN] is the one non-integer that the code can
    produce from them.  [JObject] is an object or array the controller
    only passes along, kept as its JSON text. *)
Inductive JsVal : Type :=
| JUndefined
| JNull
| JBool (b : bool)
| JNum (n : Z)
| JNaN
| JStr (s : string)
| JObject (json : string).

#[global] Instance JsVal_eq_dec : EqDecision JsVal.
Proof. solve_decision. Defined.

(** ToBoolean: what [if (v)], [!v], [v ? a : b] and [v && w] test. *)
Definition truthy (v : JsVal) : bool :=
  match v with
  | JUndefined | JNull | JNaN => false
  | JBool b => b
  | JNum n => negb (n =? 0)
  | JStr s => negb (String.eqb s "")
  | JObject _ => true
  end.

Definition js_to_string (v : JsVal) : string :=
  match v with
  | JUndefined => "undefined"
  | JNull => "null"
  | JBool true => "true"
  | JBool false => "false"
  | JNum n => pretty n
  | JNaN => "NaN"
  | JStr s => s
  | JObject _ => "[object Object]"
  end.

Definition js_to_number (v : JsVal) : option Z :=
  match v with
  | JNull => Some 0
  | JBool b => Some (if b then 1 else 0)
  | JNum n => Some n
  | _ => None
  end.

(** The binary [+]: concatenation as soon as one side is a string (or an
    object, whose primitive is a string), addition of numbers otherwise. *)
Definition is_stringish (v : JsVal) : bool :=
  match v with JStr _ | JObject _ => true | _ => false end.

Definition js_add (a b : JsVal) : JsVal :=
  if is_stringish a || is_stringish b
  then JStr (js_to_string a +:+ js_to_string b)
  else match js_to_number a, js_to_number b with
       | Some x, Some y => JNum (x + y)
       | _, _ => JNaN
       end.

(** ** Constants of services/blockchain/constants and of the entity module *)

(** The protocol tags the controllers name.  Their string values are
    declared outside the controller; only their being distinct matters. *)
Inductive Protocol : Type :=
| BITCOIN | ETHEREUM | BSC | CELO | STELLAR | RIPPLE | HATHOR | CARDANO
| AVAXCCHAIN | SOLANA | POLYGON.

#[global] Instance Protocol_eq_dec : EqDecision Protocol.
Proof. solve_decision. Defined.

(** [TransactionType]: the tags the controller names; [TypeTag] is any
    other tag by its string value: a kind the caller passes in [type], or
    the template [`DEPLOY_${tokenType}`]. *)
Inductive TransactionType : Type :=
| TRANSFER
| CALL_CONTRACT_METHOD
| DEPLOY_CONTRACT
| CHANGE_TRUST
| HATHOR_TOKEN_MELT
| SOLANA_TOKEN_BURN
| TypeTag (name : string).

#[global] Instance TransactionType_eq_dec : EqDecision TransactionType.
Proof. solve_decision. Defined.

(** ** Exceptions *)

Inductive Exn : Type :=
| GenericException (message : string) (code : option string)
| HathorException (message : string)
| TypeError (message : string)
| Error (message : string)
| RequestFailed (status : Z) (body : string).

#[global] Instance Exn_eq_dec : EqDecision Exn.
Proof. solve_decision. Defined.

Inductive result (A : Type) : Type :=
| Ok (a : A)
| Throw (e : Exn).
Arguments Ok {A} a.
Arguments Throw {A} e.


(** ** Entities and the arguments of the local builders *)

Record Config : Type := { environment : string; apiKey : string }.

(** [testnet !== undefined ? testnet : this.config.environment === 'development'] *)
Definition testnet_or_env (config : Config) (testnet : option bool) : bool :=
  match testnet with
  | Some b => b
  | None => String.eqb (environment config) "development"
  end.

Record Wallet : Type :=
  { w_address : string; w_publicKey : string; w_privateKey : string }.

(** Modelled from the spec: the answer of the address-info request, which
    the wallet controller (not in this module) returns from [getWalletInfo]:
    nonce on account chains, sequence and ledger-current-index on
    ledger-sequence chains. *)
Record WalletInfo : Type :=
  { nonce : JsVal; sequence : JsVal; ledgerCurrentIndex : JsVal }.

(** Modelled from the spec: the entity [FeeResponse] is declared outside
    the controller; the fee quotation is gas + gasPrice + chainId on account
    chains and a flat estimate value elsewhere. *)
Record FeeResponse : Type :=
  { gas : JsVal; gasPrice : JsVal; chainId : JsVal; estimateValue : JsVal }.

(** The caller's fee override on account chains, [{ gas, gasPrice }]; a key
    that is not there reads as [JUndefined]. *)
Record Fee : Type := { fee_gas : JsVal; fee_gasPrice : JsVal }.

(** The argument of [getFee] (every key but [protocol] defaults to null)
    and, after the truthiness filter, the [data] it posts. *)
Record FeeData : Type :=
  { fd_type : option TransactionType;
    fd_from : JsVal;
    fd_amount : JsVal;
    fd_destination : JsVal;
    fd_contractAddress : JsVal;
    fd_contractAbi : JsVal;
    fd_method : JsVal;
    fd_params : option (list JsVal);
    fd_contractName : JsVal;
    fd_source : JsVal;
    fd_feeCurrency : JsVal;
    fd_tokenType : JsVal }.

(** Modelled from the spec: the entity [UTXO] is declared outside the
    controller; an unspent output is a source transaction hash and an
    output index, a value and a token identifier. *)
Record UTXO : Type :=
  { txHash : string; index : Z; value : Z; token : JsVal }.

(** What [getUTXOs] resolves to: an array of [UTXO], or [false]. *)
Inductive UTXOs : Type :=
| UtxoArray (items : list UTXO)
| UtxoFalse.

(** The body of a remote answer that should be an array of outputs. *)
Inductive UTXOBody : Type :=
| BodyArray (items : list UTXO)
| BodyOther (v : JsVal).

(** A transaction as [getTransactionByHash] returns it.  The Bitcoin flows
    read [hex], [blockhash] and [vout]; the Hathor flows read
    [tx.outputs] and [tx.tokens].  A key the answer lacks is [None]. *)
Record HathorOutput : Type := { token_data : Z; ho_value : Z }.

Record HathorTx : Type :=
  { outputs : list HathorOutput; tokens : list string }.

Record TransactionData : Type :=
  { hex : JsVal; blockhash : JsVal;
    vout : option (list JsVal);
    tx : option HathorTx }.

(** [SignedTransaction]: the envelope every construction returns. *)
Record SignedTransaction : Type :=
  { signedTx : JsVal; protocol : Protocol; type : TransactionType }.

(** Ripple *)
Record RippleTransferOptions : Type :=
  { rt_fromAddress : string; rt_fromPrivateKey : string;
    rt_assetSymbol : JsVal; rt_issuer : JsVal; rt_amount : JsVal;
    rt_destination : JsVal; rt_memo : JsVal; rt_fee : JsVal;
    rt_sequence : JsVal; rt_maxLedgerVersion : JsVal; rt_testnet : bool }.

Record RippleTrustlineOptions : Type :=
  { rl_fromAddress : string; rl_fromPrivateKey : string;
    rl_assetSymbol : JsVal; rl_issuer : JsVal; rl_limit : JsVal;
    rl_memo : JsVal; rl_fee : JsVal;
    rl_sequence : JsVal; rl_maxLedgerVersion : JsVal; rl_testnet : bool }.

(** Celo and the Ethereum family *)
Record CeloTransferOptions : Type :=
  { ct_fromPrivateKey : string; ct_tokenSymbol : JsVal; ct_amount : JsVal;
    ct_destination : JsVal; ct_memo : JsVal; ct_fee : FeeResponse;
    ct_nonce : JsVal; ct_testnet : bool; ct_contractAddress : JsVal;
    ct_feeCurrency : JsVal }.

Record EthereumTransferOptions : Type :=
  { et_fromPrivateKey : string; et_tokenSymbol : JsVal; et_amount : JsVal;
    et_destination : JsVal; et_fee : FeeResponse; et_nonce : JsVal;
    et_testnet : bool; et_contractAddress : JsVal }.

Record ContractCallOptions : Type :=
  { cc_fromPrivateKey : string; cc_nonce : JsVal; cc_value : JsVal;
    cc_contractAddress : JsVal; cc_contractAbi : JsVal; cc_method : JsVal;
    cc_params : option (list JsVal); cc_fee : FeeResponse;
    cc_feeCurrency : JsVal; cc_testnet : bool }.

(** One shape for the two deploy flows: the contract deploy leaves
    [tokenType] undefined, the token deploy leaves [source] and
    [contractName] undefined. *)
Record DeployOptions : Type :=
  { dp_source : JsVal; dp_contractName : JsVal; dp_fromPrivateKey : string;
    dp_nonce : JsVal; dp_params : option (list JsVal); dp_fee : FeeResponse;
    dp_feeCurrency : JsVal; dp_testnet : bool; dp_config : Config;
    dp_tokenType : JsVal }.

(** Bitcoin *)
Record Input : Type :=
  { in_txHash : string; in_index : Z; in_value : JsVal;
    in_privateKey : string; in_hex : JsVal; in_blockhash : JsVal }.

Record BitcoinTransferOptions : Type :=
  { bt_wallet : option Wallet; bt_inputs : option (list Input);
    bt_outputs : JsVal; bt_fee : JsVal; bt_testnet : bool }.

(** Hathor *)
Record HathorOutputSpec : Type :=
  { os_address : JsVal; os_amount : JsVal; os_token : JsVal }.

Record HathorInput : Type :=
  { hi_txHash : string; hi_index : Z; hi_value : JsVal; hi_token : JsVal;
    hi_privateKey : string }.

Record HathorTransferOptions : Type :=
  { ht_inputs : list HathorInput; ht_outputs : list HathorOutputSpec;
    ht_tokens : list JsVal; ht_changeAddress : JsVal; ht_testnet : bool }.

Record HathorTokenInput : Type :=
  { ti_txHash : string; ti_index : Z; ti_privateKey : string }.

Record HathorTokenOptions : Type :=
  { hk_type : TransactionType; hk_inputs : list HathorTokenInput;
    hk_tokenUid : JsVal; hk_tokenName : JsVal; hk_tokenSymbol : JsVal;
    hk_address : JsVal; hk_changeAddress : JsVal;
    hk_mintAuthorityAddress : JsVal; hk_meltAuthorityAddress : JsVal;
    hk_amount : JsVal; hk_testnet : bool; hk_inputSum : Z }.

(** Solana *)
Record SolanaBurnOptions : Type :=
  { sb_from : Wallet; sb_token : JsVal; sb_amount : JsVal;
    sb_latestBlock : JsVal }.

Record SolanaMintOptions : Type :=
  { sm_from : Wallet; sm_token : JsVal; sm_to : JsVal; sm_amount : JsVal;
    sm_latestBlock : JsVal }.

(** Cardano (Rosetta construction API) *)
Record SigningPayload : Type :=
  { account_identifier_address : string; sp_hex_bytes : string }.

Record PublicKey : Type := { pk_hex_bytes : string; curve_type : string }.

Record Signature : Type :=
  { signing_payload : SigningPayload; public_key : PublicKey;
    signature_type : string; hex_bytes : string }.

Record MetadataResponse : Type :=
  { md_metadata : string; suggested_fee : list JsVal }.

Record PayloadsResponse : Type :=
  { unsigned_transaction : string; payloads : list SigningPayload }.

(** ** The log: remote requests and calls of the local builders *)

(** A local builder of services/blockchain: it builds the unsigned
    transaction and signs it with the private key in its options. *)
Inductive BuildCall : Type :=
| buildRippleTransferTransaction (o : RippleTransferOptions)
| buildRippleTrustlineTransaction (o : RippleTrustlineOptions)
| buildCeloTransferTransaction (o : CeloTransferOptions)
| buildEthereumTransferTransaction (o : EthereumTransferOptions)
| buildBscTransferTransaction (o : EthereumTransferOptions)
| buildAvaxCChainTransferTransaction (o : EthereumTransferOptions)
| buildCeloSmartContractTransaction (o : ContractCallOptions)
| buildEthereumSmartContractTransaction (o : ContractCallOptions) (p : Protocol)
| buildCeloSmartContractDeployTransaction (o : DeployOptions)
| buildEthereumSmartContractDeployTransaction (o : DeployOptions) (p : Protocol)
| buildBitcoinTransferTransaction (o : BitcoinTransferOptions)
| buildHathorTransferTransaction (o : HathorTransferOptions)
| buildHathorTokenTransaction (o : HathorTokenOptions)
| buildSolanaTokenBurnTransaction (o : SolanaBurnOptions)
| mintSolanaToken (o : SolanaMintOptions).

Inductive Event : Type :=
| ReqWalletInfo (address : string) (p : Protocol)
| ReqFee (data : FeeData) (p : Protocol)
| ReqUTXOs (address : string) (p : Protocol)
| ReqTransactionByHash (hash : string) (p : Protocol)
| ReqLatestBlock (p : Protocol)
| ReqPreprocess (operations : string)
| ReqMetadata (options : string)
| ReqPayloads (operations : string) (metadata : string)
| ReqCombine (unsigned : string) (signatures : list Signature)
| Build (call : BuildCall).

(** The events that sign with a caller's key (Cardano signs inside the
    controller, between [ReqPayloads] and [ReqCombine]). *)
Definition is_build (ev : Event) : bool :=
  match ev with Build _ => true | _ => false end.

Definition is_request (ev : Event) : bool := negb (is_build ev).

(** ** The monad of the controller: a log and an exception *)

Definition M (A : Type) : Type := (list Event * result A)%type.

Definition trace {A} (m : M A) : list Event := m.1.
Definition outcome {A} (m : M A) : result A := m.2.

#[global] Instance M_ret : MRet M := λ A a, ([], Ok a).

#[global] Instance M_bind : MBind M := λ A B f m,
  match m.2 with
  | Ok a => (m.1 ++ (f a).1, (f a).2)
  | Throw e => (m.1, Throw e)
  end.

Definition throw {A} (e : Exn) : M A := ([], Throw e).
Definition emit (ev : Event) : M unit := ([ev], Ok tt).
Definition lift {A} (r : result A) : M A := ([], r).

(** [try { m } catch (error) { h(error) }] where [h] always throws: the
    handler of the methods is [handleRequestError], a service which
    re-raises the error it is given in the form of the SDK. *)
Definition try_catch {A} (m : M A) (h : Exn → Exn) : M A :=
  match m.2 with
  | Ok a => m
  | Throw e => (m.1, Throw (h e))
  end.

(** [Promise.all]: every computation has been started, in order, before
    anything is awaited, so the requests of all of them are in the log
    whatever their outcome.  It rejects with the rejection that settles
    first; [race] picks it among the rejections. *)
Definition settles_first (race : nat) (rejections : list Exn) (e : Exn) : Exn :=
  nth (race mod length rejections)%nat rejections e.

Definition promise_all2 {A B} (race : nat) (a : M A) (b : M B) : M (A * B) :=
  (a.1 ++ b.1,
   match a.2, b.2 with
   | Ok x, Ok y => Ok (x, y)
   | Throw e, Ok _ => Throw e
   | Ok _, Throw e => Throw e
   | Throw ea, Throw eb => Throw (settles_first race [ea; eb] ea)
   end).

Fixpoint rejections {A} (ms : list (M A)) : list Exn :=
  match ms with
  | [] => []
  | m :: ms => match m.2 with
               | Ok _ => rejections ms
               | Throw e => e :: rejections ms
               end
  end.

Fixpoint fulfilled {A} (ms : list (M A)) : list A :=
  match ms with
  | [] => []
  | m :: ms => match m.2 with
               | Ok a => a :: fulfilled ms
               | Throw _ => fulfilled ms
               end
  end.

Definition promise_all {A} (race : nat) (ms : list (M A)) : M (list A) :=
  (concat (map fst ms),
   match rejections ms with
   | [] => Ok (fulfilled ms)
   | e :: es => Throw (settles_first race (e :: es) e)
   end).

(** A [for] loop whose body awaits: one element after the other, stopping
    at the first exception. *)
Fixpoint for_each {A B} (f : A → M B) (l : list A) : M (list B) :=
  match l with
  | [] => mret []
  | x :: l => y ← f x; ys ← for_each f l; mret (y :: ys)
  end.

(** The same loop threading the variables it assigns. *)
Fixpoint for_fold {A S} (f : S → A → M S) (s : S) (l : list A) : M S :=
  match l with
  | [] => mret s
  | x :: l => s' ← f s x; for_fold f s' l
  end.

(** [a === b] on primitives; two objects met here are never the same
    reference. *)
Definition strict_eq (a b : JsVal) : bool :=
  match a with
  | JNaN | JObject _ => false
  | _ => bool_decide (a = b)
  end.

(** [l.includes(v)] (SameValueZero). *)
Definition same_value_zero (a b : JsVal) : bool :=
  match a with
  | JObject _ => false
  | _ => bool_decide (a = b)
  end.

Definition includes (l : list JsVal) (v : JsVal) : bool :=
  existsb (λ x, same_value_zero x v) l.

(** [l[i]] on an array: undefined outside of it. *)
Definition js_nth {A} (l : list A) (i : Z) : option A :=
  if 0 <=? i then l !! Z.to_nat i else None.

(** [new Set()] filled by [add]: first insertion order, no duplicates. *)
Definition set_add (s : list JsVal) (v : JsVal) : list JsVal :=
  if includes s v then s else s ++ [v].

(** ** What the callers pass in *)

Record RippleTransferTransactionInput : Type :=
  { rti_wallet : Wallet; rti_assetSymbol : JsVal; rti_issuer : JsVal;
    rti_amount : JsVal; rti_destination : JsVal; rti_memo : JsVal;
    rti_fee : JsVal; rti_testnet : option bool }.

Record RippleTrustlineTransactionInput : Type :=
  { rli_wallet : Wallet; rli_assetSymbol : JsVal; rli_issuer : JsVal;
    rli_fee : JsVal; rli_limit : JsVal; rli_memo : JsVal;
    rli_testnet : option bool }.

Record CeloTransferTransactionInput : Type :=
  { cti_wallet : Wallet; cti_tokenSymbol : JsVal; cti_amount : JsVal;
    cti_destination : JsVal; cti_memo : JsVal; cti_fee : option Fee;
    cti_testnet : option bool; cti_contractAddress : JsVal;
    cti_feeCurrency : JsVal }.

Record EthereumTransferTransactionInput : Type :=
  { eti_wallet : Wallet; eti_tokenSymbol : JsVal; eti_amount : JsVal;
    eti_destination : JsVal; eti_fee : option Fee;
    eti_testnet : option bool; eti_contractAddress : JsVal }.

Record SmartContractCallTransactionInput : Type :=
  { sci_wallet : Wallet; sci_fee : option Fee; sci_testnet : option bool;
    sci_value : JsVal; sci_contractAddress : JsVal; sci_contractAbi : JsVal;
    sci_method : JsVal; sci_params : option (list JsVal);
    sci_protocol : Protocol; sci_feeCurrency : JsVal }.

Record SmartContractDeployTransactionInput : Type :=
  { sdi_wallet : Wallet; sdi_fee : option Fee; sdi_testnet : option bool;
    sdi_params : option (list JsVal); sdi_protocol : Protocol;
    sdi_feeCurrency : JsVal; sdi_source : JsVal; sdi_contractName : JsVal }.

Record TokenDeployTransactionInput : Type :=
  { tdi_wallet : Wallet; tdi_fee : option Fee; tdi_testnet : option bool;
    tdi_params : option (list JsVal); tdi_protocol : Protocol;
    tdi_feeCurrency : JsVal; tdi_tokenType : JsVal }.

Record BitcoinTransferTransactionInput : Type :=
  { bti_wallet : option Wallet; bti_inputs : option (list Input);
    bti_outputs : JsVal; bti_fee : JsVal; bti_testnet : option bool }.

Record HathorTransferTransactionInput : Type :=
  { hti_wallet : Wallet; hti_outputs : list HathorOutputSpec;
    hti_testnet : option bool }.

Record HathorTokenTransactionFromWalletInput : Type :=
  { hki_wallet : Wallet; hki_tokenName : JsVal; hki_tokenSymbol : JsVal;
    hki_type : TransactionType; hki_tokenUid : JsVal;
    hki_mintAuthorityAddress : JsVal; hki_meltAuthorityAddress : JsVal;
    hki_amount : JsVal; hki_address : JsVal; hki_changeAddress : JsVal;
    hki_testnet : option bool }.

Record SolanaTransferTransactionInput : Type :=
  { sti_wallet : Wallet; sti_destination : JsVal; sti_token : JsVal;
    sti_amount : JsVal }.

Record CardanoWallet : Type :=
  { cw_address : string; spendingPrivateKey : string }.

Record CardanoInput : Type :=
  { ci_address : string; ci_privateKey : string; ci_txHash : string;
    ci_index : string }.

Record CardanoFromWalletInput : Type :=
  { cwi_wallet : CardanoWallet; cwi_outputs : JsVal }.

Record CardanoFromUTXOInput : Type :=
  { cui_outputs : JsVal; cui_inputs : list CardanoInput }.

(** The argument object of [_getFeeInfo]. *)
Record FeeInfoArgs : Type :=
  { fi_wallet : Wallet; fi_type : option TransactionType;
    fi_destination : JsVal; fi_amount : JsVal; fi_contractAddress : JsVal;
    fi_contractAbi : JsVal; fi_method : JsVal;
    fi_params : option (list JsVal); fi_fee : option Fee;
    fi_feeCurrency : JsVal; fi_protocol : Protocol;
    fi_contractName : JsVal; fi_source : JsVal; fi_tokenType : JsVal }.

(** ** The environment

    The remote API and the modules of the SDK the controller requires
    (validations, blockchain utils and constants, the builders, the Cardano
    serialization library).  An answer is a value or the rejection of the
    request; a helper returns or throws. *)

(** A [Bip32PrivateKey] handle, as parsed from the hex text of a key. *)
Record Bip32PrivateKey : Type := { xprv : string }.

#[global] Instance Bip32PrivateKey_eq_dec : EqDecision Bip32PrivateKey.
Proof. solve_decision. Defined.

Record Env : Type :=
  { (* remote API *)
    wallet_info_api : string → Protocol → result WalletInfo;
    fee_api : FeeData → Protocol → result FeeResponse;
    utxos_api : string → Protocol → result UTXOBody;
    transaction_api : string → Protocol → result TransactionData;
    latest_block_api : Protocol → result JsVal;
    preprocess_api : string → result string;
    metadata_api : string → result MetadataResponse;
    payloads_api : string → string → result PayloadsResponse;
    combine_api : string → list Signature → result JsVal;
    (* which of several concurrent rejections settles first *)
    race : nat;
    (* services *)
    handleRequestError : Exn → Exn;
    builder : BuildCall → result JsVal;
    toWei : JsVal → string;
    toHTRUnit : JsVal → Z;
    getTokenAddress : Protocol → JsVal → bool → JsVal;
    TRANSFER_METHOD_ABI : JsVal;
    TRANSFER_COMMENT_METHOD_ABI : JsVal;
    CUSD_CONTRACT_ADDRESS : string → JsVal;
    CEUR_CONTRACT_ADDRESS : string → JsVal;
    (* validations: [None] when the input passes *)
    validateRippleTransferTransactionParams :
      RippleTransferTransactionInput → option Exn;
    validateRippleTrustlineTransactionParams :
      RippleTrustlineTransactionInput → option Exn;
    validateCeloTransferTransactionParams :
      CeloTransferTransactionInput → option Exn;
    validateEthereumTransferTransactionParams :
      EthereumTransferTransactionInput → option Exn;
    validateSmartContractTransactionParams :
      SmartContractCallTransactionInput → option Exn;
    validateSmartContractDeployTransactionParams :
      SmartContractDeployTransactionInput → option Exn;
    validateTokenDeployTransactionParams :
      TokenDeployTransactionInput → option Exn;
    validateBitcoinTransferTransactionParams :
      BitcoinTransferTransactionInput → option Exn;
    validateHathorTransferTransactionFromWallet :
      HathorTransferTransactionInput → option Exn;
    validateHathorTokenTransactionFromWallet :
      HathorTokenTransactionFromWalletInput → option Exn;
    validateSolanaTransferTransaction :
      SolanaTransferTransactionInput → option Exn;
    (* Cardano: the operations built from unspent outputs, an address,
       outputs and a fee, or from resolved inputs and outputs; the key
       parsed from the bytes of its hex text; the signature, as hex text,
       of the witness made of a payload and the raw key *)
    buildOperation : UTXOs → string → JsVal → option JsVal → result string;
    buildOperationFromInputs : list (UTXO * string) → JsVal → result string;
    from_128_xprv : string → result Bip32PrivateKey;
    make_vkey_witness : Bip32PrivateKey → string → result string }.

(** A validator throws or returns nothing. *)
Definition validated (v : option Exn) : M unit :=
  match v with
  | Some e => throw e
  | None => mret tt
  end.

(** [await apiRequest(...)]: the request goes out, then its answer. *)
Definition request {A} (ev : Event) (answer : result A) : M A :=
  emit ev ;; lift answer.

Section Controller.
Context (env : Env) (config : Config).

(** Modelled from the spec: [getWalletInfo] of the wallet controller, which
    is not in this module, fetches the address info of a protocol from the
    remote API:
    [new WalletController(this.config).getWalletInfo({ address, protocol })]. *)
Definition getWalletInfo (address : string) (p : Protocol) : M WalletInfo :=
  request (ReqWalletInfo address p) (wallet_info_api env address p).

(** [if (x) data.x = x]: a falsy argument is not transmitted. *)
Definition transmitted (v : JsVal) : JsVal :=
  if truthy v then v else JUndefined.

Definition fee_data (a : FeeData) : FeeData :=
  {| fd_type := fd_type a;
     fd_from := transmitted (fd_from a);
     fd_amount := transmitted (fd_amount a);
     fd_destination := transmitted (fd_destination a);
     fd_contractAddress := transmitted (fd_contractAddress a);
     fd_contractAbi := transmitted (fd_contractAbi a);
     fd_method := transmitted (fd_method a);
     fd_params := fd_params a;
     fd_contractName := transmitted (fd_contractName a);
     fd_source := transmitted (fd_source a);
     fd_feeCurrency := transmitted (fd_feeCurrency a);
     fd_tokenType := transmitted (fd_tokenType a) |}.

Definition getFee (a : FeeData) (p : Protocol) : M FeeResponse :=
  try_catch
    (request (ReqFee (fee_data a) p) (fee_api env (fee_data a) p))
    (handleRequestError env).

Definition getUTXOs (address : string) (p : Protocol) : M UTXOs :=
  try_catch
    (body ← request (ReqUTXOs address p) (utxos_api env address p);
     mret (match body with
           | BodyArray items => UtxoArray items
           | BodyOther _ => UtxoFalse
           end))
    (handleRequestError env).

Definition getTransactionByHash (hash : string) (p : Protocol)
  : M TransactionData :=
  try_catch
    (request (ReqTransactionByHash hash p) (transaction_api env hash p))
    (handleRequestError env).

(** The builders are [async]: a call is logged, then it returns the
    signed payload or throws. *)
Definition build (call : BuildCall) : M JsVal :=
  request (Build call) (builder env call).

(** *** Fee orchestration of the account chains *)

Definition set_gas (f : FeeResponse) (v : JsVal) : FeeResponse :=
  {| gas := v; gasPrice := gasPrice f; chainId := chainId f;
     estimateValue := estimateValue f |}.

Definition set_gasPrice (f : FeeResponse) (v : JsVal) : FeeResponse :=
  {| gas := gas f; gasPrice := v; chainId := chainId f;
     estimateValue := estimateValue f |}.

(** [fee && fee.gas], [fee && fee.gasPrice]: undefined without a fee. *)
Definition fee_and_gas (fee : option Fee) : JsVal :=
  match fee with Some f => fee_gas f | None => JUndefined end.

Definition fee_and_gasPrice (fee : option Fee) : JsVal :=
  match fee with Some f => fee_gasPrice f | None => JUndefined end.

(** The object [_getFeeInfo] hands to [getFee]. *)
Definition fee_info_request (a : FeeInfoArgs) : FeeData :=
  {| fd_type := fi_type a;
     fd_from := JStr (w_address (fi_wallet a));
     fd_amount := fi_amount a;
     fd_destination := fi_destination a;
     fd_contractAddress := fi_contractAddress a;
     fd_contractAbi := fi_contractAbi a;
     fd_method := fi_method a;
     fd_params := fi_params a;
     fd_contractName := fi_contractName a;
     fd_source := fi_source a;
     fd_feeCurrency := fi_feeCurrency a;
     fd_tokenType := fi_tokenType a |}.

Definition _getFeeInfo (a : FeeInfoArgs) : M (WalletInfo * FeeResponse) :=
  '(info, networkFee) ←
    promise_all2 (race env)
      (getWalletInfo (w_address (fi_wallet a)) (fi_protocol a))
      (getFee (fee_info_request a) (fi_protocol a));
  let networkFee :=
    if truthy (fee_and_gas (fi_fee a))
    then set_gas networkFee (fee_and_gas (fi_fee a)) else networkFee in
  let networkFee :=
    if truthy (fee_and_gasPrice (fi_fee a))
    then set_gasPrice networkFee (fee_and_gasPrice (fi_fee a))
    else networkFee in
  mret (info, networkFee).

(** *** Transfers on the account chains *)

Definition is_str (v : JsVal) (s : string) : bool := bool_decide (v = JStr s).

Definition createCeloTransferTransaction (input : CeloTransferTransactionInput)
  : M SignedTransaction :=
  validated (validateCeloTransferTransactionParams env input) ;;
  let wallet := cti_wallet input in
  let tokenSymbol := cti_tokenSymbol input in
  let amount := cti_amount input in
  let destination := cti_destination input in
  let memo := cti_memo input in
  let testnet := testnet_or_env config (cti_testnet input) in
  let protocol := CELO in
  let amountWei := JStr (toWei env amount) in
  let celo := is_str tokenSymbol "CELO" in
  let type :=
    if celo
    then (if truthy memo then CALL_CONTRACT_METHOD else TRANSFER)
    else CALL_CONTRACT_METHOD in
  let method :=
    if celo
    then (if truthy memo then JStr "transferWithComment" else JNull)
    else (if truthy memo then JStr "transferWithComment" else JStr "transfer") in
  let params :=
    if celo
    then (if truthy memo then Some [destination; amountWei; memo] else None)
    else (if truthy memo then Some [destination; amountWei; memo]
          else Some [destination; amountWei]) in
  let value :=
    if celo then (if truthy memo then JNull else amount) else JUndefined in
  let contractAddress :=
    if celo
    then (if truthy memo then getTokenAddress env CELO tokenSymbol testnet
          else JNull)
    else if is_str tokenSymbol "cUSD" || is_str tokenSymbol "cEUR"
         then getTokenAddress env CELO tokenSymbol testnet
         else cti_contractAddress input in
  let contractAbi :=
    if celo
    then (if truthy memo then TRANSFER_COMMENT_METHOD_ABI env else JNull)
    else (if truthy memo then TRANSFER_COMMENT_METHOD_ABI env
          else TRANSFER_METHOD_ABI env) in
  let feeCurrency :=
    if truthy (cti_feeCurrency input)
    then let network := if testnet then "testnet" else "mainnet" in
         if is_str (cti_feeCurrency input) "cUSD"
         then CUSD_CONTRACT_ADDRESS env network
         else if is_str (cti_feeCurrency input) "cEUR"
              then CEUR_CONTRACT_ADDRESS env network
              else cti_feeCurrency input
    else cti_feeCurrency input in
  '(info, networkFee) ←
    _getFeeInfo {| fi_wallet := wallet; fi_type := Some type;
                   fi_destination := destination; fi_amount := value;
                   fi_contractAddress := contractAddress;
                   fi_contractAbi := contractAbi; fi_method := method;
                   fi_params := params; fi_fee := cti_fee input;
                   fi_feeCurrency := feeCurrency; fi_protocol := protocol;
                   fi_contractName := JUndefined; fi_source := JUndefined;
                   fi_tokenType := JUndefined |};
  signedTx ←
    build (buildCeloTransferTransaction
             {| ct_fromPrivateKey := w_privateKey wallet;
                ct_tokenSymbol := tokenSymbol; ct_amount := amount;
                ct_destination := destination; ct_memo := memo;
                ct_fee := networkFee; ct_nonce := nonce info;
                ct_testnet := testnet;
                ct_contractAddress := contractAddress;
                ct_feeCurrency := feeCurrency |});
  mret {| signedTx := signedTx; protocol := protocol; type := TRANSFER |}.

(** The three transfers of the Ethereum family differ by the protocol,
    the native symbol and the builder.  ([createEthereumTransferTransaction]
    does not pass [testnet] on to [_getFeeInfo], which does not read it.) *)
Definition ethereum_family_transfer (protocol : Protocol) (native : string)
    (builder_of : EthereumTransferOptions → BuildCall)
    (input : EthereumTransferTransactionInput) : M SignedTransaction :=
  validated (validateEthereumTransferTransactionParams env input) ;;
  let wallet := eti_wallet input in
  let tokenSymbol := eti_tokenSymbol input in
  let amount := eti_amount input in
  let destination := eti_destination input in
  let contractAddress := eti_contractAddress input in
  let is_native := is_str tokenSymbol native in
  '(info, networkFee) ←
    _getFeeInfo
      {| fi_wallet := wallet;
         fi_type :=
           Some (if is_native then TRANSFER else CALL_CONTRACT_METHOD);
         fi_destination := destination;
         fi_amount := if is_native then amount else JNull;
         fi_contractAddress := contractAddress;
         fi_contractAbi :=
           if is_native then JNull else TRANSFER_METHOD_ABI env;
         fi_method := if is_native then JNull else JStr "transfer";
         fi_params :=
           if is_native then None
           else Some [destination; JStr (toWei env amount)];
         fi_fee := eti_fee input; fi_feeCurrency := JUndefined;
         fi_protocol := protocol; fi_contractName := JUndefined;
         fi_source := JUndefined; fi_tokenType := JUndefined |};
  signedTx ←
    build (builder_of
             {| et_fromPrivateKey := w_privateKey wallet;
                et_tokenSymbol := tokenSymbol; et_amount := amount;
                et_destination := destination; et_fee := networkFee;
                et_nonce := nonce info;
                et_testnet := testnet_or_env config (eti_testnet input);
                et_contractAddress := contractAddress |});
  mret {| signedTx := signedTx; protocol := protocol; type := TRANSFER |}.

Definition createEthereumTransferTransaction :=
  ethereum_family_transfer ETHEREUM "ETH" buildEthereumTransferTransaction.

Definition createBscTransferTransaction :=
  ethereum_family_transfer BSC "BNB" buildBscTransferTransaction.

Definition createAvaxCChainTransferTransaction :=
  ethereum_family_transfer AVAXCCHAIN "AVAX" buildAvaxCChainTransferTransaction.

(** *** Smart contracts and tokens on the account chains *)

(** [[Protocol.ETHEREUM, Protocol.BSC, Protocol.AVAXCCHAIN].includes(protocol)] *)
Definition ethereum_family (p : Protocol) : bool :=
  bool_decide (p ∈ [ETHEREUM; BSC; AVAXCCHAIN]).

Definition invalid_protocol : Exn :=
  GenericException "Invalid protocol" (Some "InvalidTypeException").

Definition createSmartContractTransaction
    (input : SmartContractCallTransactionInput) : M SignedTransaction :=
  validated (validateSmartContractTransactionParams env input) ;;
  let wallet := sci_wallet input in
  let protocol := sci_protocol input in
  '(info, networkFee) ←
    _getFeeInfo
      {| fi_wallet := wallet; fi_type := Some CALL_CONTRACT_METHOD;
         fi_destination := JUndefined; fi_amount := JUndefined;
         fi_contractAddress := sci_contractAddress input;
         fi_contractAbi := sci_contractAbi input;
         fi_method := sci_method input; fi_params := sci_params input;
         fi_fee := sci_fee input; fi_feeCurrency := JUndefined;
         fi_protocol := protocol; fi_contractName := JUndefined;
         fi_source := JUndefined; fi_tokenType := JUndefined |};
  let transactionOptions :=
    {| cc_fromPrivateKey := w_privateKey wallet; cc_nonce := nonce info;
       cc_value := sci_value input;
       cc_contractAddress := sci_contractAddress input;
       cc_contractAbi := sci_contractAbi input;
       cc_method := sci_method input; cc_params := sci_params input;
       cc_fee := networkFee; cc_feeCurrency := sci_feeCurrency input;
       cc_testnet := testnet_or_env config (sci_testnet input) |} in
  signedTx ←
    (if bool_decide (protocol = CELO)
     then build (buildCeloSmartContractTransaction transactionOptions)
     else if ethereum_family protocol
          then build (buildEthereumSmartContractTransaction
                        transactionOptions protocol)
          else throw invalid_protocol);
  mret {| signedTx := signedTx; protocol := protocol;
          type := CALL_CONTRACT_METHOD |}.

Definition createSmartContractDeployTransaction
    (input : SmartContractDeployTransactionInput) : M SignedTransaction :=
  validated (validateSmartContractDeployTransactionParams env input) ;;
  let wallet := sdi_wallet input in
  let protocol := sdi_protocol input in
  '(info, networkFee) ←
    _getFeeInfo
      {| fi_wallet := wallet; fi_type := Some DEPLOY_CONTRACT;
         fi_destination := JUndefined; fi_amount := JUndefined;
         fi_contractAddress := JUndefined; fi_contractAbi := JUndefined;
         fi_method := JUndefined; fi_params := sdi_params input;
         fi_fee := sdi_fee input; fi_feeCurrency := JUndefined;
         fi_protocol := protocol;
         fi_contractName := sdi_contractName input;
         fi_source := sdi_source input; fi_tokenType := JUndefined |};
  let transactionOptions :=
    {| dp_source := sdi_source input;
       dp_contractName := sdi_contractName input;
       dp_fromPrivateKey := w_privateKey wallet; dp_nonce := nonce info;
       dp_params := sdi_params input; dp_fee := networkFee;
       dp_feeCurrency := sdi_feeCurrency input;
       dp_testnet := testnet_or_env config (sdi_testnet input);
       dp_config := config; dp_tokenType := JUndefined |} in
  signedTx ←
    (if bool_decide (protocol = CELO)
     then build (buildCeloSmartContractDeployTransaction transactionOptions)
     else if ethereum_family protocol
          then build (buildEthereumSmartContractDeployTransaction
                        transactionOptions protocol)
          else throw invalid_protocol);
  mret {| signedTx := signedTx; protocol := protocol;
          type := DEPLOY_CONTRACT |}.

Definition createTokenDeployTransaction
    (input : TokenDeployTransactionInput) : M SignedTransaction :=
  validated (validateTokenDeployTransactionParams env input) ;;
  let wallet := tdi_wallet input in
  let protocol := tdi_protocol input in
  let tokenType := tdi_tokenType input in
  '(info, networkFee) ←
    _getFeeInfo
      {| fi_wallet := wallet;
         fi_type := Some (TypeTag ("DEPLOY_" +:+ js_to_string tokenType));
         fi_destination := JUndefined; fi_amount := JUndefined;
         fi_contractAddress := JUndefined; fi_contractAbi := JUndefined;
         fi_method := JUndefined; fi_params := tdi_params input;
         fi_fee := tdi_fee input; fi_feeCurrency := JUndefined;
         fi_protocol := protocol; fi_contractName := JUndefined;
         fi_source := JUndefined; fi_tokenType := tokenType |};
  let transactionOptions :=
    {| dp_source := JUndefined; dp_contractName := JUndefined;
       dp_fromPrivateKey := w_privateKey wallet; dp_nonce := nonce info;
       dp_params := tdi_params input; dp_fee := networkFee;
       dp_feeCurrency := tdi_feeCurrency input;
       dp_testnet := testnet_or_env config (tdi_testnet input);
       dp_config := config; dp_tokenType := tokenType |} in
  signedTx ←
    (if bool_decide (protocol = CELO)
     then build (buildCeloSmartContractDeployTransaction transactionOptions)
     else if ethereum_family protocol
          then build (buildEthereumSmartContractDeployTransaction
                        transactionOptions protocol)
          else throw invalid_protocol);
  mret {| signedTx := signedTx; protocol := protocol;
          type := DEPLOY_CONTRACT |}.

(** *** Ledger-sequence chain: Ripple *)

(** [getFee({ type, protocol })]: every other key is null. *)
Definition fee_of_type (t : TransactionType) : FeeData :=
  {| fd_type := Some t; fd_from := JNull; fd_amount := JNull;
     fd_destination := JNull; fd_contractAddress := JNull;
     fd_contractAbi := JNull; fd_method := JNull; fd_params := None;
     fd_contractName := JNull; fd_source := JNull; fd_feeCurrency := JNull;
     fd_tokenType := JNull |}.

(** [let networkFee = fee; if (!networkFee) { ... estimateValue ... }] *)
Definition flat_fee (fee : JsVal) (t : TransactionType) (p : Protocol)
  : M JsVal :=
  if negb (truthy fee)
  then r ← getFee (fee_of_type t) p; mret (estimateValue r)
  else mret fee.

Definition createRippleTrustlineTransaction
    (input : RippleTrustlineTransactionInput) : M SignedTransaction :=
  validated (validateRippleTrustlineTransactionParams env input) ;;
  let wallet := rli_wallet input in
  let protocol := RIPPLE in
  info ← getWalletInfo (w_address wallet) protocol;
  networkFee ← flat_fee (rli_fee input) CHANGE_TRUST protocol;
  signedTx ←
    build (buildRippleTrustlineTransaction
             {| rl_fromAddress := w_address wallet;
                rl_fromPrivateKey := w_privateKey wallet;
                rl_assetSymbol := rli_assetSymbol input;
                rl_issuer := rli_issuer input;
                rl_limit := rli_limit input;
                rl_memo := rli_memo input;
                rl_fee := networkFee;
                rl_sequence := sequence info;
                rl_maxLedgerVersion :=
                  js_add (ledgerCurrentIndex info) (JNum 10);
                rl_testnet := testnet_or_env config (rli_testnet input) |});
  mret {| signedTx := signedTx; protocol := protocol; type := CHANGE_TRUST |}.

Definition createRippleTransferTransaction
    (input : RippleTransferTransactionInput) : M SignedTransaction :=
  validated (validateRippleTransferTransactionParams env input) ;;
  let wallet := rti_wallet input in
  let protocol := RIPPLE in
  info ← getWalletInfo (w_address wallet) protocol;
  networkFee ← flat_fee (rti_fee input) TRANSFER protocol;
  signedTx ←
    build (buildRippleTransferTransaction
             {| rt_fromAddress := w_address wallet;
                rt_fromPrivateKey := w_privateKey wallet;
                rt_assetSymbol := rti_assetSymbol input;
                rt_issuer := rti_issuer input;
                rt_amount := rti_amount input;
                rt_destination := rti_destination input;
                rt_memo := rti_memo input;
                rt_fee := networkFee;
                rt_sequence := sequence info;
                rt_maxLedgerVersion :=
                  js_add (ledgerCurrentIndex info) (JNum 10);
                rt_testnet := testnet_or_env config (rti_testnet input) |});
  mret {| signedTx := signedTx; protocol := protocol; type := TRANSFER |}.

(** *** Output chains: Bitcoin *)

(** What a [for (i = 0; i < utxos.length; ++i)] loop runs over: the array,
    or nothing when [utxos] is [false], whose [length] is undefined. *)
Definition loop_items (utxos : UTXOs) : list UTXO :=
  match utxos with
  | UtxoArray items => items
  | UtxoFalse => []
  end.

Definition undefined_property (name : string) : Exn :=
  TypeError ("Cannot read properties of undefined (reading '" +:+ name +:+ "')").

Definition invalid_utxo_hash (hash : string) : Exn :=
  GenericException ("Invalid UTXO hash " +:+ hash) (Some "InvalidParams").

Definition input_of_utxo (wallet : Wallet) (u : UTXO) : M Input :=
  t ← getTransactionByHash (txHash u) BITCOIN;
  mret {| in_txHash := txHash u; in_index := index u;
          in_value := JNum (value u);
          in_privateKey := w_privateKey wallet;
          in_hex := hex t; in_blockhash := blockhash t |}.

Definition resolve_input (i : Input) : M Input :=
  t ← getTransactionByHash (in_txHash i) BITCOIN;
  match vout t with
  | None => throw (undefined_property (pretty (in_index i)))
  | Some outs =>
      if negb (truthy (default JUndefined (js_nth outs (in_index i))))
      then throw (invalid_utxo_hash (in_txHash i))
      else mret {| in_txHash := in_txHash i; in_index := in_index i;
                   in_value := in_value i;
                   in_privateKey := in_privateKey i;
                   in_hex := hex t; in_blockhash := blockhash t |}
  end.

Definition createBitcoinTransferTransaction
    (input : BitcoinTransferTransactionInput) : M SignedTransaction :=
  validated (validateBitcoinTransferTransactionParams env input) ;;
  let wallet := bti_wallet input in
  let protocol := BITCOIN in
  inputs ←
    match wallet with
    | Some w =>
        utxos ← getUTXOs (w_address w) protocol;
        l ← for_each (input_of_utxo w) (loop_items utxos);
        mret (Some l)
    | None =>
        match bti_inputs input with
        | Some l => l' ← for_each resolve_input l; mret (Some l')
        | None => mret None
        end
    end;
  networkFee ← flat_fee (bti_fee input) TRANSFER protocol;
  signedTx ←
    build (buildBitcoinTransferTransaction
             {| bt_wallet := wallet; bt_inputs := inputs;
                bt_outputs := bti_outputs input; bt_fee := networkFee;
                bt_testnet := testnet_or_env config (bti_testnet input) |});
  mret {| signedTx := signedTx; protocol := protocol; type := TRANSFER |}.

(** *** Output chains: Hathor *)

Definition no_available_utxos_generic : Exn :=
  GenericException "No available UTXOs" None.

Definition no_available_utxos_hathor : Exn :=
  HathorException "No available UTXOs".

(** [utxos.length === 0] *)
Definition length_is_zero (utxos : UTXOs) : bool :=
  match utxos with
  | UtxoArray [] => true
  | _ => false
  end.

(** [if (token === 'HTR' || token == null) token = '00'] *)
Definition normalize_token (o : HathorOutputSpec) : HathorOutputSpec :=
  if strict_eq (os_token o) (JStr "HTR")
     || bool_decide (os_token o = JNull)
     || bool_decide (os_token o = JUndefined)
  then {| os_address := os_address o; os_amount := os_amount o;
          os_token := JStr "00" |}
  else o.

(** [tx.tx.outputs[index]]: reading a key of undefined throws. *)
Definition hathor_output (t : TransactionData) (i : Z) : M HathorOutput :=
  match tx t with
  | None => throw (undefined_property "outputs")
  | Some body =>
      match js_nth (outputs body) i with
      | None => throw (undefined_property "token_data")
      | Some o => mret o
      end
  end.

(** [[0, 129].includes(token_data)] *)
Definition native_or_authority (o : HathorOutput) : bool :=
  (token_data o =? 0) || (token_data o =? 129).

Definition transfer_input (wallet : Wallet) (tokens : list JsVal)
    (inputs : list HathorInput) (u : UTXO) : M (list HathorInput) :=
  if includes tokens (token u)
  then
    t ← getTransactionByHash (txHash u) HATHOR;
    let picked :=
      inputs ++ [{| hi_txHash := txHash u; hi_index := index u;
                    hi_value := JNum (value u); hi_token := token u;
                    hi_privateKey := w_privateKey wallet |}] in
    if strict_eq (token u) (JStr "00")
    then mret picked
    else o ← hathor_output t (index u);
         mret (if negb (native_or_authority o) then picked else inputs)
  else mret inputs.

(** The tokens of the requested outputs, once normalized: the members of
    [tokenSet] that are truthy. *)
Definition transfer_tokens (outputs : list HathorOutputSpec) : list JsVal :=
  List.filter truthy (foldl set_add [] (map os_token outputs)).

Definition createHathorTransferTransactionFromWallet
    (input : HathorTransferTransactionInput) : M SignedTransaction :=
  validated (validateHathorTransferTransactionFromWallet env input) ;;
  let wallet := hti_wallet input in
  let protocol := HATHOR in
  utxos ← getUTXOs (w_address wallet) protocol;
  (if length_is_zero utxos then throw no_available_utxos_generic
   else mret tt) ;;
  let outputs := map normalize_token (hti_outputs input) in
  let tokens := transfer_tokens outputs in
  inputs ← for_fold (transfer_input wallet tokens) [] (loop_items utxos);
  signedTx ←
    build (buildHathorTransferTransaction
             {| ht_inputs := inputs; ht_outputs := outputs;
                ht_tokens := tokens;
                ht_changeAddress := JStr (w_address wallet);
                ht_testnet := testnet_or_env config (hti_testnet input) |});
  mret {| signedTx := signedTx; protocol := protocol; type := TRANSFER |}.

(** The variables the selection loop of the token flow assigns. *)
Record Selection : Type :=
  { inputSum : Z; inputs : list HathorTokenInput }.

(** [{ txHash: utxos[i].txHash, index: utxos[i].index, privateKey: wallet.privateKey }] *)
Definition token_input_of (wallet : Wallet) (u : UTXO) : HathorTokenInput :=
  {| ti_txHash := txHash u; ti_index := index u;
     ti_privateKey := w_privateKey wallet |}.

(** [inputSum += output.value] and [inputs.push({ ... })] *)
Definition add_value (v : Z) (s : Selection) : Selection :=
  {| inputSum := inputSum s + v; inputs := inputs s |}.

Definition push (wallet : Wallet) (u : UTXO) (s : Selection) : Selection :=
  {| inputSum := inputSum s;
     inputs := inputs s ++ [token_input_of wallet u] |}.

(** One turn of the loop, once the output of the UTXO is known. *)
Definition select_output (melt : bool) (amountHTRUnit : Z) (wallet : Wallet)
    (s : Selection) (u : UTXO) (o : HathorOutput) : Selection :=
  if melt
  then
    if negb (native_or_authority o)
    then (if inputSum s <? amountHTRUnit
          then push wallet u (add_value (ho_value o) s)
          else s)
    else if (token_data o =? 129) && (ho_value o =? 2)
         then push wallet u s
         else s
  else
    if token_data o =? 0
    then (if inputSum s <? amountHTRUnit
          then push wallet u (add_value (ho_value o) s)
          else s)
    else if (token_data o =? 129) && (ho_value o =? 1)
         then push wallet u s
         else s.

Definition token_input (melt : bool) (amountHTRUnit : Z) (wallet : Wallet)
    (s : Selection) (u : UTXO) : M Selection :=
  t ← getTransactionByHash (txHash u) HATHOR;
  o ← hathor_output t (index u);
  mret (select_output melt amountHTRUnit wallet s u o).

(** [address || wallet.address] *)
Definition js_or (a b : JsVal) : JsVal := if truthy a then a else b.

(** The outputs the token flow keeps before it looks any of them up:
    those of the token when melting, those of the token or of the native
    asset otherwise. *)
Definition token_filter (melt : bool) (tokenUid : JsVal) (items : list UTXO)
  : list UTXO :=
  if melt
  then List.filter (λ u, strict_eq (token u) tokenUid) items
  else List.filter (λ u, strict_eq (token u) (JStr "00")
                         || strict_eq (token u) tokenUid) items.

Definition createHathorTokenTransactionFromWallet
    (input : HathorTokenTransactionFromWalletInput) : M SignedTransaction :=
  validated (validateHathorTokenTransactionFromWallet env input) ;;
  let wallet := hki_wallet input in
  let type := hki_type input in
  let tokenUid := hki_tokenUid input in
  let melt := bool_decide (type = HATHOR_TOKEN_MELT) in
  let amountHTRUnit := toHTRUnit env (hki_amount input) in
  let protocol := HATHOR in
  utxos ← getUTXOs (w_address wallet) protocol;
  utxos ←
    match utxos with
    | UtxoFalse => throw (TypeError "utxos.filter is not a function")
    | UtxoArray items => mret (token_filter melt tokenUid items)
    end;
  (if bool_decide (utxos = []) then throw no_available_utxos_hathor
   else mret tt) ;;
  s ← for_fold (token_input melt amountHTRUnit wallet)
        {| inputSum := 0; inputs := [] |} utxos;
  signedTx ←
    build (buildHathorTokenTransaction
             {| hk_type := type; hk_inputs := inputs s;
                hk_tokenUid := tokenUid;
                hk_tokenName := hki_tokenName input;
                hk_tokenSymbol := hki_tokenSymbol input;
                hk_address :=
                  js_or (hki_address input) (JStr (w_address wallet));
                hk_changeAddress :=
                  js_or (hki_changeAddress input) (JStr (w_address wallet));
                hk_mintAuthorityAddress := hki_mintAuthorityAddress input;
                hk_meltAuthorityAddress := hki_meltAuthorityAddress input;
                hk_amount := hki_amount input;
                hk_testnet := testnet_or_env config (hki_testnet input);
                hk_inputSum := inputSum s |});
  mret {| signedTx := signedTx; protocol := protocol; type := type |}.

(** *** Solana tokens *)

(** [(await apiRequest(`${url}/latest?protocol=${protocol}`)).data.blockhash] *)
Definition latest_blockhash (p : Protocol) : M JsVal :=
  request (ReqLatestBlock p) (latest_block_api env p).

Definition createSolanaTokenBurnTransaction
    (input : SolanaTransferTransactionInput) : M SignedTransaction :=
  validated (validateSolanaTransferTransaction env input) ;;
  let protocol := SOLANA in
  latestBlock ← latest_blockhash protocol;
  signedTx ←
    build (buildSolanaTokenBurnTransaction
             {| sb_from := sti_wallet input; sb_token := sti_token input;
                sb_amount := sti_amount input;
                sb_latestBlock := latestBlock |});
  mret {| signedTx := signedTx; protocol := protocol;
          type := SOLANA_TOKEN_BURN |}.

Definition createSolanaTokenMintTransaction
    (input : SolanaTransferTransactionInput) : M SignedTransaction :=
  validated (validateSolanaTransferTransaction env input) ;;
  let protocol := SOLANA in
  latestBlock ← latest_blockhash protocol;
  signedTx ←
    build (mintSolanaToken
             {| sm_from := sti_wallet input; sm_token := sti_token input;
                sm_to := sti_destination input;
                sm_amount := sti_amount input;
                sm_latestBlock := latestBlock |});
  mret {| signedTx := signedTx; protocol := protocol;
          type := SOLANA_TOKEN_BURN |}.

(** *** Cardano: signing in several phases *)

(** The entries of [keyAddressMapper].  The wallet flow keeps two slices
    of the key text, the UTXO flow a parsed key and a slice. *)
Record WalletKey : Type := { wk_secretKey : string; wk_publicKey : string }.
Record InputKey : Type :=
  { ik_secretKey : Bip32PrivateKey; ik_publicKey : string }.

(** [s.slice(128, 192)] and [s.slice(0, 128)] *)
Definition public_slice (s : string) : string :=
  String.substring 128%nat 64%nat s.
Definition secret_slice (s : string) : string :=
  String.substring 0%nat 128%nat s.

(** [l.map(f)] where [f] may throw: the first exception ends the map. *)
Fixpoint try_map {A B} (f : A → result B) (l : list A) : result (list B) :=
  match l with
  | [] => Ok []
  | x :: l =>
      match f x with
      | Throw e => Throw e
      | Ok y => match try_map f l with
                | Throw e => Throw e
                | Ok ys => Ok (y :: ys)
                end
      end
  end.

(** The object a payload is mapped to, once its key entry is read:
    [make_vkey_witness(TransactionHash.from_bytes(payload), key.to_raw_key())]
    as hex text, with the public key of the entry. *)
Definition signature_of (key : Bip32PrivateKey) (publicKey : string)
    (p : SigningPayload) : result Signature :=
  match make_vkey_witness env key (sp_hex_bytes p) with
  | Throw e => Throw e
  | Ok s =>
      Ok {| signing_payload := p;
            public_key := {| pk_hex_bytes := publicKey;
                             curve_type := "edwards25519" |};
            signature_type := "ed25519";
            hex_bytes := s |}
  end.

(** [keyAddressMapper[address].publicKey] throws when the mapper has no
    entry for the address of the payload.  (The mapper is an object
    literal indexed by Cardano addresses; a finite map is that object on
    such keys.) *)
Definition wallet_signature (keyAddressMapper : gmap string WalletKey)
    (privateKey : Bip32PrivateKey) (p : SigningPayload) : result Signature :=
  match keyAddressMapper !! account_identifier_address p with
  | None => Throw (undefined_property "publicKey")
  | Some entry => signature_of privateKey (wk_publicKey entry) p
  end.

Definition input_signature (keyAddressMapper : gmap string InputKey)
    (p : SigningPayload) : result Signature :=
  match keyAddressMapper !! account_identifier_address p with
  | None => Throw (undefined_property "publicKey")
  | Some entry => signature_of (ik_secretKey entry) (ik_publicKey entry) p
  end.

(** [metadata.data.suggested_fee[0].value] *)
Definition suggested_fee_value (m : MetadataResponse) : M JsVal :=
  match suggested_fee m with
  | [] => throw (undefined_property "value")
  | v :: _ => mret v
  end.

Definition createCardanoTransferTransactionFromWallet
    (input : CardanoFromWalletInput) : M SignedTransaction :=
  try_catch
    (let wallet := cwi_wallet input in
     let outputs := cwi_outputs input in
     let protocol := CARDANO in
     let keyAddressMapper : gmap string WalletKey :=
       {[ cw_address wallet :=
            {| wk_secretKey := secret_slice (spendingPrivateKey wallet);
               wk_publicKey := public_slice (spendingPrivateKey wallet) |} ]} in
     privateKey ← lift (from_128_xprv env (spendingPrivateKey wallet));
     utxo ← getUTXOs (cw_address wallet) protocol;
     feelessTx ← lift (buildOperation env utxo (cw_address wallet) outputs None);
     options ← request (ReqPreprocess feelessTx) (preprocess_api env feelessTx);
     metadata ← request (ReqMetadata options) (metadata_api env options);
     fee ← suggested_fee_value metadata;
     builtTx ←
       lift (buildOperation env utxo (cw_address wallet) outputs (Some fee));
     payload ←
       request (ReqPayloads builtTx (md_metadata metadata))
         (payloads_api env builtTx (md_metadata metadata));
     signatures ←
       lift (try_map (wallet_signature keyAddressMapper privateKey)
               (payloads payload));
     signedTx ←
       request (ReqCombine (unsigned_transaction payload) signatures)
         (combine_api env (unsigned_transaction payload) signatures);
     mret {| signedTx := signedTx; protocol := protocol; type := TRANSFER |})
    (handleRequestError env).

(** The callback mapped over [inputs]: it parses the key and writes the
    mapper entry before its first [await], then looks its output up among
    the unspent outputs of its address. *)
Definition input_callback (i : CardanoInput)
  : M (InputKey * list (UTXO * string)) :=
  secretKey ← lift (from_128_xprv env (ci_privateKey i));
  utxo ← getUTXOs (ci_address i) CARDANO;
  match utxo with
  | UtxoFalse => throw (TypeError "utxo.map is not a function")
  | UtxoArray items =>
      mret ({| ik_secretKey := secretKey;
               ik_publicKey := public_slice (ci_privateKey i) |},
            map (λ u, (u, ci_address i))
              (List.filter
                 (λ u, String.eqb (txHash u) (ci_txHash i)
                       && String.eqb (pretty (index u)) (ci_index i))
                 items))
  end.

(** The mapper after every callback wrote its entry, in the order of
    [inputs]: the last entry of an address stays. *)
Definition mapper_of (entries : list (string * InputKey))
  : gmap string InputKey :=
  foldl (λ m e, <[e.1 := e.2]> m) ∅ entries.

Definition createCardanoTransferTransactionFromUTXO
    (input : CardanoFromUTXOInput) : M SignedTransaction :=
  try_catch
    (let outputs := cui_outputs input in
     let inputs := cui_inputs input in
     let protocol := CARDANO in
     found ← promise_all (race env) (map input_callback inputs);
     let keyAddressMapper :=
       mapper_of (zip (map ci_address inputs) (map fst found)) in
     let inputList := concat (map snd found) in
     (if negb (length inputList =? length inputs)%nat
      then throw (Error "One or more inputs are invalid")
      else mret tt) ;;
     builtTx ← lift (buildOperationFromInputs env inputList outputs);
     options ← request (ReqPreprocess builtTx) (preprocess_api env builtTx);
     metadata ← request (ReqMetadata options) (metadata_api env options);
     payload ←
       request (ReqPayloads builtTx (md_metadata metadata))
         (payloads_api env builtTx (md_metadata metadata));
     signatures ←
       lift (try_map (input_signature keyAddressMapper) (payloads payload));
     signedTx ←
       request (ReqCombine (unsigned_transaction payload) signatures)
         (combine_api env (unsigned_transaction payload) signatures);
     mret {| signedTx := signedTx; protocol := protocol; type := TRANSFER |})
    (handleRequestError env).

End Controller.

(** ** The account-chain constructions as one family *)

Inductive AccountChainIntent : Type :=
| CeloTransfer (i : CeloTransferTransactionInput)
| EthereumTransfer (i : EthereumTransferTransactionInput)
| BscTransfer (i : EthereumTransferTransactionInput)
| AvaxCChainTransfer (i : EthereumTransferTransactionInput)
| SmartContractCall (i : SmartContractCallTransactionInput)
| SmartContractDeploy (i : SmartContractDeployTransactionInput)
| TokenDeploy (i : TokenDeployTransactionInput).

Definition construct (env : Env) (config : Config) (x : AccountChainIntent)
  : M SignedTransaction :=
  match x with
  | CeloTransfer i => createCeloTransferTransaction env config i
  | EthereumTransfer i => createEthereumTransferTransaction env config i
  | BscTransfer i => createBscTransferTransaction env config i
  | AvaxCChainTransfer i => createAvaxCChainTransferTransaction env config i
  | SmartContractCall i => createSmartContractTransaction env config i
  | SmartContractDeploy i => createSmartContractDeployTransaction env config i
  | TokenDeploy i => createTokenDeployTransaction env config i
  end.

(** The caller's fee override of an intent. *)
Definition fee_override (x : AccountChainIntent) : option Fee :=
  match x with
  | CeloTransfer i => cti_fee i
  | EthereumTransfer i | BscTransfer i | AvaxCChainTransfer i => eti_fee i
  | SmartContractCall i => sci_fee i
  | SmartContractDeploy i => sdi_fee i
  | TokenDeploy i => tdi_fee i
  end.

(** The [fee] a builder of an account chain is called with. *)
Definition built_fee (call : BuildCall) : option FeeResponse :=
  match call with
  | buildCeloTransferTransaction o => Some (ct_fee o)
  | buildEthereumTransferTransaction o
  | buildBscTransferTransaction o
  | buildAvaxCChainTransferTransaction o => Some (et_fee o)
  | buildCeloSmartContractTransaction o
  | buildEthereumSmartContractTransaction o _ => Some (cc_fee o)
  | buildCeloSmartContractDeployTransaction o
  | buildEthereumSmartContractDeployTransaction o _ => Some (dp_fee o)
  | _ => None
  end.

(** ** An environment for the examples

    Validators accept, the builders return a signed payload, the helpers
    are simple stand-ins; the answers of the remote API are the arguments. *)
Definition unavailable {A} : result A := Throw (RequestFailed 503 "").

Definition example_env (wallet_info : result WalletInfo)
    (fee : result FeeResponse) (utxos : result UTXOBody)
    (transaction : string → result TransactionData)
    (signing_payloads : result PayloadsResponse) : Env :=
  {| wallet_info_api := λ _ _, wallet_info;
     fee_api := λ _ _, fee;
     utxos_api := λ _ _, utxos;
     transaction_api := λ hash _, transaction hash;
     latest_block_api := λ _, Ok (JStr "blockhash");
     preprocess_api := λ _, Ok "options";
     metadata_api := λ _,
       Ok {| md_metadata := "metadata"; suggested_fee := [JStr "170000"] |};
     payloads_api := λ _ _, signing_payloads;
     combine_api := λ _ _, Ok (JStr "signed");
     race := 0%nat;
     handleRequestError := λ e, e;
     builder := λ _, Ok (JStr "0xf86b");
     toWei := λ v, js_to_string v +:+ "e18";
     toHTRUnit := λ v, match v with JNum n => n * 100 | _ => 0 end;
     getTokenAddress := λ _ _ _, JStr "0xF194afDf50B03e69Bd7D057c1Aa9e10c9954E4C9";
     TRANSFER_METHOD_ABI := JObject "transfer(address,uint256)";
     TRANSFER_COMMENT_METHOD_ABI :=
       JObject "transferWithComment(address,uint256,string)";
     CUSD_CONTRACT_ADDRESS := λ _, JStr "0x874069Fa1Eb16D44d622F2e0Ca25eeA172369bC1";
     CEUR_CONTRACT_ADDRESS := λ _, JStr "0x10c892A6EC43a53E45D0B916B4b7D383B1b78C0F";
     validateRippleTransferTransactionParams := λ _, None;
     validateRippleTrustlineTransactionParams := λ _, None;
     validateCeloTransferTransactionParams := λ _, None;
     validateEthereumTransferTransactionParams := λ _, None;
     validateSmartContractTransactionParams := λ _, None;
     validateSmartContractDeployTransactionParams := λ _, None;
     validateTokenDeployTransactionParams := λ _, None;
     validateBitcoinTransferTransactionParams := λ _, None;
     validateHathorTransferTransactionFromWallet := λ _, None;
     validateHathorTokenTransactionFromWallet := λ _, None;
     validateSolanaTransferTransaction := λ _, None;
     buildOperation := λ _ _ _ _, Ok "operations";
     buildOperationFromInputs := λ _ _, Ok "operations";
     from_128_xprv := λ s, Ok {| xprv := s |};
     make_vkey_witness := λ k h, Ok ("sig:" +:+ xprv k +:+ ":" +:+ h) |}.

Definition example_config : Config :=
  {| environment := "development"; apiKey := "key" |}.

Definition example_wallet : Wallet :=
  {| w_address := "0x481B9C8D2bCd6e7d5ce6D3e6E8a8f2a8D2b1E5F3";
     w_publicKey := "pub"; w_privateKey := "priv" |}.

Definition example_info : WalletInfo :=
  {| nonce := JStr "2"; sequence := JNum 6259; ledgerCurrentIndex := JNum 5000 |}.

(** The quotation of the test suite: gas 21000, gasPrice '4000000'. *)
Definition example_quote : FeeResponse :=
  {| gas := JNum 21000; gasPrice := JStr "4000000"; chainId := JNum 44787;
     estimateValue := JUndefined |}.

Definition account_env : Env :=
  example_env (Ok example_info) (Ok example_quote) unavailable
    (λ _, unavailable) unavailable.

Definition example_transfer (fee : option Fee)
  : EthereumTransferTransactionInput :=
  {| eti_wallet := example_wallet; eti_tokenSymbol := JStr "ETH";
     eti_amount := JStr "0.1";
     eti_destination := JStr "0x3f2f3D45196D7B99D0a615e8f530165eCb93e772";
     eti_fee := fee; eti_testnet := Some true;
     eti_contractAddress := JUndefined |}.

(** ** The Ripple constructions as one family *)

Inductive RippleIntent : Type :=
| RippleTransfer (i : RippleTransferTransactionInput)
| RippleTrustline (i : RippleTrustlineTransactionInput).

Definition ripple_construct (env : Env) (config : Config) (x : RippleIntent)
  : M SignedTransaction :=
  match x with
  | RippleTransfer i => createRippleTransferTransaction env config i
  | RippleTrustline i => createRippleTrustlineTransaction env config i
  end.

Definition ripple_wallet (x : RippleIntent) : Wallet :=
  match x with
  | RippleTransfer i => rti_wallet i
  | RippleTrustline i => rli_wallet i
  end.

(** The [maxLedgerVersion] a Ripple builder is called with. *)
Definition max_ledger_version (call : BuildCall) : option JsVal :=
  match call with
  | buildRippleTransferTransaction o => Some (rt_maxLedgerVersion o)
  | buildRippleTrustlineTransaction o => Some (rl_maxLedgerVersion o)
  | _ => None
  end.

Definition ripple_env : Env :=
  example_env (Ok example_info)
    (Ok {| gas := JUndefined; gasPrice := JUndefined; chainId := JUndefined;
           estimateValue := JStr "0.00001" |})
    unavailable (λ _, unavailable) unavailable.

Definition example_ripple_transfer : RippleTransferTransactionInput :=
  {| rti_wallet := example_wallet; rti_assetSymbol := JStr "XRP";
     rti_issuer := JUndefined; rti_amount := JStr "1";
     rti_destination := JStr "rPT1Sjq2YGrBMTttX4GZHjKu9dyfzbpAYe";
     rti_memo := JUndefined; rti_fee := JUndefined;
     rti_testnet := Some true |}.

Definition example_solana_input : SolanaTransferTransactionInput :=
  {| sti_wallet := example_wallet; sti_destination := JStr "dest";
     sti_token := JStr "mint"; sti_amount := JNum 5 |}.

Definition example_deploy (p : Protocol) : SmartContractDeployTransactionInput :=
  {| sdi_wallet := example_wallet; sdi_fee := None; sdi_testnet := Some true;
     sdi_params := Some []; sdi_protocol := p; sdi_feeCurrency := JUndefined;
     sdi_source := JStr "contract C {}"; sdi_contractName := JStr "C" |}.

(** The first test of the suite: 0.1 CELO with a memo, nonce '2'. *)
Definition example_celo_transfer (memo : JsVal) : CeloTransferTransactionInput :=
  {| cti_wallet := example_wallet; cti_tokenSymbol := JStr "CELO";
     cti_amount := JStr "0.1";
     cti_destination := JStr "0x3f2f3D45196D7B99D0a615e8f530165eCb93e772";
     cti_memo := memo; cti_fee := None; cti_testnet := Some true;
     cti_contractAddress := JUndefined; cti_feeCurrency := JUndefined |}.

(** ** Hathor and Bitcoin examples *)

(** The remote API answers the output discovery with an error object. *)
Definition no_array_env : Env :=
  example_env unavailable unavailable
    (Ok (BodyOther (JObject "{ message: 'Too many requests' }")))
    (λ _, unavailable) unavailable.

Definition example_hathor_transfer : HathorTransferTransactionInput :=
  {| hti_wallet := example_wallet;
     hti_outputs := [{| os_address := JStr "WmpvgigZ4pNVLRPW2Ce4Xx1gmVTrcbBUnL";
                        os_amount := JNum 1; os_token := JStr "HTR" |}];
     hti_testnet := Some true |}.

Definition example_hathor_token (t : TransactionType) (amount : Z)
  : HathorTokenTransactionFromWalletInput :=
  {| hki_wallet := example_wallet; hki_tokenName := JUndefined;
     hki_tokenSymbol := JUndefined; hki_type := t;
     hki_tokenUid := JStr "0000441258c8ce0a";
     hki_mintAuthorityAddress := JUndefined;
     hki_meltAuthorityAddress := JUndefined; hki_amount := JNum amount;
     hki_address := JUndefined; hki_changeAddress := JUndefined;
     hki_testnet := Some true |}.

Definition example_bitcoin_from_wallet : BitcoinTransferTransactionInput :=
  {| bti_wallet := Some example_wallet; bti_inputs := None;
     bti_outputs := JObject "[{ address: 'tb1q', amount: 1000 }]";
     bti_fee := JNum 300; bti_testnet := Some true |}.

(** ** Explicit Bitcoin inputs *)

(** What [tx.vout[inputs[i].index]] reads for an explicit input: nothing
    ([None]) when its transaction does not resolve to one with a [vout],
    [Some None] when the index is not in the output list. *)
Definition referenced_output (env : Env) (i : Input) : option (option JsVal) :=
  match transaction_api env (in_txHash i) BITCOIN with
  | Ok t => match vout t with
            | Some outs => Some (js_nth outs (in_index i))
            | None => None
            end
  | Throw _ => None
  end.

Definition is_transaction_request (ev : Event) : bool :=
  match ev with ReqTransactionByHash _ _ => true | _ => false end.

Definition example_transaction : TransactionData :=
  {| hex := JStr "0200000001"; blockhash := JStr "000000000000";
     vout := Some [JObject "{ value: 0.5, n: 0 }"; JObject "{ value: 1, n: 1 }"];
     tx := None |}.

Definition bitcoin_env : Env :=
  example_env unavailable unavailable unavailable
    (λ _, Ok example_transaction) unavailable.

Definition example_input (i : Z) : Input :=
  {| in_txHash := "9b5d0f0fdd22c4b4"; in_index := i; in_value := JUndefined;
     in_privateKey := "cQd"; in_hex := JUndefined;
     in_blockhash := JUndefined |}.

(** Two explicit inputs; the second points at output 7 of a transaction
    with two outputs. *)
Definition example_bitcoin_from_inputs : BitcoinTransferTransactionInput :=
  {| bti_wallet := None;
     bti_inputs := Some [example_input 1; example_input 7];
     bti_outputs := JObject "[{ address: 'tb1q', amount: 1000 }]";
     bti_fee := JUndefined; bti_testnet := Some true |}.

(** ** The Hathor constructions from a wallet as one family *)

Inductive HathorIntent : Type :=
| HathorTransfer (i : HathorTransferTransactionInput)
| HathorToken (i : HathorTokenTransactionFromWalletInput).

Definition hathor_construct (env : Env) (config : Config) (x : HathorIntent)
  : M SignedTransaction :=
  match x with
  | HathorTransfer i => createHathorTransferTransactionFromWallet env config i
  | HathorToken i => createHathorTokenTransactionFromWallet env config i
  end.

Definition hathor_wallet (x : HathorIntent) : Wallet :=
  match x with
  | HathorTransfer i => hti_wallet i
  | HathorToken i => hki_wallet i
  end.

Definition hathor_validation (env : Env) (x : HathorIntent) : option Exn :=
  match x with
  | HathorTransfer i => validateHathorTransferTransactionFromWallet env i
  | HathorToken i => validateHathorTokenTransactionFromWallet env i
  end.

(** The list whose emptiness each construction tests: the discovered
    outputs as they are for a transfer, those that pass [token_filter] for
    a token operation. *)
Definition tested_outputs (x : HathorIntent) (items : list UTXO) : list UTXO :=
  match x with
  | HathorTransfer _ => items
  | HathorToken i =>
      token_filter (bool_decide (hki_type i = HATHOR_TOKEN_MELT))
        (hki_tokenUid i) items
  end.

Definition no_available_utxos (x : HathorIntent) : Exn :=
  match x with
  | HathorTransfer _ => no_available_utxos_generic
  | HathorToken _ => no_available_utxos_hathor
  end.

(** ** Melting: the outputs behind the candidates *)

(** The output [tx.tx.outputs[index]] behind an unspent output, when its
    transaction resolves and has it. *)
Definition output_at (env : Env) (hash : string) (i : Z) : option HathorOutput :=
  match transaction_api env hash HATHOR with
  | Ok t => match tx t with
            | Some body => js_nth (outputs body) i
            | None => None
            end
  | Throw _ => None
  end.

Definition hathor_output_of (env : Env) (u : UTXO) : option HathorOutput :=
  output_at env (txHash u) (index u).

(** When melting: an ordinary value output ([token_data] neither 0 nor 129)
    and a melt authority ([token_data] 129 with the value 2). *)
Definition ordinary (o : HathorOutput) : bool := negb (native_or_authority o).

Definition melt_authority (o : HathorOutput) : bool :=
  (token_data o =? 129) && (ho_value o =? 2).

Definition ordinary_of (l : list (UTXO * HathorOutput))
  : list (UTXO * HathorOutput) :=
  List.filter (λ uo, ordinary uo.2) l.

Definition sum_values (l : list (UTXO * HathorOutput)) : Z :=
  foldr (λ uo s, ho_value uo.2 + s) 0 l.

(** A wallet with a value output of 500 and a melt authority of the token,
    both in the transaction "00a1". *)
Definition token_uid : JsVal := JStr "0000441258c8ce0a".

Definition melt_transaction : TransactionData :=
  {| hex := JUndefined; blockhash := JUndefined; vout := None;
     tx := Some {| outputs := [{| token_data := 1; ho_value := 500 |};
                               {| token_data := 129; ho_value := 2 |}];
                   tokens := ["0000441258c8ce0a"] |} |}.

Definition melt_utxos : list UTXO :=
  [{| txHash := "00a1"; index := 0; value := 500; token := token_uid |};
   {| txHash := "00a1"; index := 1; value := 2; token := token_uid |}].

Definition melt_env : Env :=
  example_env unavailable unavailable (Ok (BodyArray melt_utxos))
    (λ _, Ok melt_transaction) unavailable.

(** A wallet whose only output carries a token that the transfer does not
    ask for. *)
Definition other_token_env : Env :=
  example_env unavailable unavailable
    (Ok (BodyArray [{| txHash := "00a1"; index := 0; value := 500;
                       token := token_uid |}]))
    (λ _, Ok melt_transaction) unavailable.

Definition empty_wallet_env : Env :=
  example_env unavailable unavailable (Ok (BodyArray []))
    (λ _, unavailable) unavailable.

(** ** The Cardano constructions as one family *)

Inductive CardanoIntent : Type :=
| CardanoFromWallet (i : CardanoFromWalletInput)
| CardanoFromUTXO (i : CardanoFromUTXOInput).

Definition cardano_construct (env : Env) (x : CardanoIntent)
  : M SignedTransaction :=
  match x with
  | CardanoFromWallet i => createCardanoTransferTransactionFromWallet env i
  | CardanoFromUTXO i => createCardanoTransferTransactionFromUTXO env i
  end.

(** The keys the caller hands over, each with the address it belongs to:
    the spending key of the wallet, or the private key of every input. *)
Definition held_keys (x : CardanoIntent) : list (string * string) :=
  match x with
  | CardanoFromWallet i =>
      [(cw_address (cwi_wallet i), spendingPrivateKey (cwi_wallet i))]
  | CardanoFromUTXO i =>
      map (λ c, (ci_address c, ci_privateKey c)) (cui_inputs i)
  end.

(** The signature [s] answers the payload [p] with a key held for the
    address in [p]: it carries [p], the public part of that key, and what
    the signing primitive makes of the payload with the parsed key. *)
Definition signed_with_held_key (env : Env) (x : CardanoIntent)
    (p : SigningPayload) (s : Signature) : Prop :=
  signing_payload s = p ∧
  ∃ text key,
    (account_identifier_address p, text) ∈ held_keys x ∧
    from_128_xprv env text = Ok key ∧
    make_vkey_witness env key (sp_hex_bytes p) = Ok (hex_bytes s) ∧
    pk_hex_bytes (public_key s) = public_slice text.

Definition example_key : string :=
  "a1a1a1a1a1a1a1a1a1a1a1a1a1a1a1a1a1a1a1a1a1a1a1a1a1a1a1a1a1a1a1a1a1a1a1a1a1a1a1a1a1a1a1a1a1a1a1a1a1a1a1a1a1a1a1a1a1a1a1a1a1a1a1a1b2b2b2b2b2b2b2b2b2b2b2b2b2b2b2b2b2b2b2b2b2b2b2b2b2b2b2b2b2b2b2b2".

Definition other_key : string :=
  "c3c3c3c3c3c3c3c3c3c3c3c3c3c3c3c3c3c3c3c3c3c3c3c3c3c3c3c3c3c3c3c3c3c3c3c3c3c3c3c3c3c3c3c3c3c3c3c3c3c3c3c3c3c3c3c3c3c3c3c3c3c3c3c3d4d4d4d4d4d4d4d4d4d4d4d4d4d4d4d4d4d4d4d4d4d4d4d4d4d4d4d4d4d4d4d4".

Definition example_payloads (addresses : list string) : PayloadsResponse :=
  {| unsigned_transaction := "unsigned";
     payloads := map (λ a, {| account_identifier_address := a;
                              sp_hex_bytes := "f00d" |}) addresses |}.

Definition example_cardano_wallet : CardanoFromWalletInput :=
  {| cwi_wallet := {| cw_address := "addr_test1vq"; spendingPrivateKey := example_key |};
     cwi_outputs := JObject "[{ address: 'addr_test1vz', amount: '1000000' }]" |}.

Definition example_cardano_inputs : CardanoFromUTXOInput :=
  {| cui_outputs := JObject "[{ address: 'addr_test1vz', amount: '1000000' }]";
     cui_inputs :=
       [{| ci_address := "addr_test1vq"; ci_privateKey := example_key;
           ci_txHash := "00a1"; ci_index := "0" |};
        {| ci_address := "addr_test1vp"; ci_privateKey := other_key;
           ci_txHash := "00a1"; ci_index := "1" |}] |}.

(** The addresses that the payloads of the answer name, and the unspent
    outputs of every address. *)
Definition cardano_env (addresses : list string) : Env :=
  example_env unavailable unavailable (Ok (BodyArray melt_utxos))
    (λ _, unavailable) (Ok (example_payloads addresses)).

(** No key is held for the address a payload names. *)
Definition no_key_held (x : CardanoIntent) (p : SigningPayload) : Prop :=
  ∀ text, (account_identifier_address p, text) ∉ held_keys x.

(** What the function mapped over the payloads must do for the mapping to
    sign with held keys: a signature it returns is made with a key held for
    the address of its payload, it throws the TypeError of the missing
    entry when no key is held, and it throws nothing else but what the
    signing primitive throws. *)
Record signs_with_held_keys (env : Env) (x : CardanoIntent)
    (f : SigningPayload → result Signature) : Prop :=
  { signs_ok : ∀ p s, f p = Ok s → signed_with_held_key env x p s;
    signs_no_key : ∀ p, no_key_held x p →
                        f p = Throw (undefined_property "publicKey");
    signs_throw : ∀ p e, f p = Throw e →
                         e = undefined_property "publicKey" ∨
                         ∃ key, make_vkey_witness env key (sp_hex_bytes p)
                                = Throw e }.

Definition is_utxos_request (ev : Event) : bool :=
  match ev with ReqUTXOs _ _ => true | _ => false end.

(** ** The rest of the transaction controller

    The constructions from the caller's own outputs on Hathor, the Stellar
    constructions, the endpoints that pass one request through, and the
    Uniswap controller, which signs what the remote API prepares and sends
    it with [sendTransaction]. *)

Record HathorTransferTransactionFromUTXOInput : Type :=
  { hui_inputs : list HathorInput; hui_outputs : list HathorOutputSpec;
    hui_testnet : option bool }.

Record HathorTokenTransactionFromUTXOInput : Type :=
  { hxi_inputs : list HathorTokenInput; hxi_tokenName : JsVal;
    hxi_tokenSymbol : JsVal; hxi_address : JsVal; hxi_changeAddress : JsVal;
    hxi_mintAuthorityAddress : JsVal; hxi_meltAuthorityAddress : JsVal;
    hxi_amount : JsVal; hxi_tokenUid : JsVal; hxi_type : TransactionType;
    hxi_testnet : option bool }.

Record StellarTrustlineTransactionInput : Type :=
  { xli_wallet : Wallet; xli_assetSymbol : JsVal; xli_issuer : JsVal;
    xli_fee : JsVal; xli_limit : JsVal; xli_memo : JsVal;
    xli_testnet : option bool }.

Record StellarTransferTransactionInput : Type :=
  { xti_wallet : Wallet; xti_assetSymbol : JsVal; xti_issuer : JsVal;
    xti_amount : JsVal; xti_destination : JsVal; xti_memo : JsVal;
    xti_fee : JsVal; xti_testnet : option bool; xti_createAccount : JsVal }.

Record StellarTrustlineOptions : Type :=
  { xl_fromPublicKey : string; xl_fromPrivateKey : string;
    xl_assetSymbol : JsVal; xl_issuer : JsVal; xl_limit : JsVal;
    xl_memo : JsVal; xl_fee : JsVal; xl_sequence : JsVal;
    xl_testnet : bool }.

Record StellarTransferOptions : Type :=
  { xt_fromPublicKey : string; xt_fromPrivateKey : string;
    xt_assetSymbol : JsVal; xt_issuer : JsVal; xt_amount : JsVal;
    xt_destination : JsVal; xt_memo : JsVal; xt_fee : JsVal;
    xt_sequence : JsVal; xt_testnet : bool; xt_createAccount : JsVal }.

Inductive StellarCall : Type :=
| buildStellarTransferTransaction (o : StellarTransferOptions)
| buildStellarTrustlineTransaction (o : StellarTrustlineOptions).

Record SmartContractCallMethodInput : Type :=
  { cmi_from : JsVal; cmi_contractAddress : JsVal; cmi_contractAbi : JsVal;
    cmi_method : JsVal; cmi_params : option (list JsVal);
    cmi_protocol : Protocol }.

(** What these methods require besides [Env]: their validators, the
    Stellar builders, and the answers of three more endpoints of the
    remote API. *)
Record TransactionServices : Type :=
  { validateHathorTransferTransactionFromUTXO :
      HathorTransferTransactionFromUTXOInput → option Exn;
    validateHathorTokenTransactionFromUTXO :
      HathorTokenTransactionFromUTXOInput → option Exn;
    validateStellarTransferTransactionParams :
      StellarTransferTransactionInput → option Exn;
    validateStellarTrustlineTransactionParams :
      StellarTrustlineTransactionInput → option Exn;
    validateSignedTransaction : SignedTransaction → option Exn;
    validateSmartContractCallParams :
      SmartContractCallMethodInput → option Exn;
    stellar_builder : StellarCall → result JsVal;
    send_api : JsVal → TransactionType → Protocol → result JsVal;
    block_api : JsVal → Protocol → result JsVal;
    call_api : SmartContractCallMethodInput → result JsVal }.

(** *** Hathor from the caller's own outputs *)

Section FromUTXO.
Context (env : Env) (config : Config) (services : TransactionServices).

(** [tx.tx.outputs[inputs[i].index]], of which [value] is read first. *)
Definition spent_output (t : TransactionData) (i : Z)
  : M (HathorTx * HathorOutput) :=
  match tx t with
  | None => throw (undefined_property "outputs")
  | Some body =>
      match js_nth (outputs body) i with
      | None => throw (undefined_property "value")
      | Some o => mret (body, o)
      end
  end.

(** [utxo.token_data === 0 ? '00' : tx.tx.tokens[utxo.token_data - 1].uid] *)
Definition token_of_output (body : HathorTx) (o : HathorOutput) : M JsVal :=
  if token_data o =? 0 then mret (JStr "00")
  else match js_nth (tokens body) (token_data o - 1) with
       | None => throw (undefined_property "uid")
       | Some uid => mret (JStr uid)
       end.

(** One turn of the loop over [inputs]: the value and the token of the
    input are written from the output it spends. *)
Definition spent_input (i : HathorInput) : M HathorInput :=
  t ← getTransactionByHash env (hi_txHash i) HATHOR;
  '(body, o) ← spent_output t (hi_index i);
  token ← token_of_output body o;
  mret {| hi_txHash := hi_txHash i; hi_index := hi_index i;
          hi_value := JNum (ho_value o); hi_token := token;
          hi_privateKey := hi_privateKey i |}.

Definition createHathorTransferTransactionFromUTXO
    (input : HathorTransferTransactionFromUTXOInput) : M SignedTransaction :=
  validated (validateHathorTransferTransactionFromUTXO services input) ;;
  let protocol := HATHOR in
  let outputs := map normalize_token (hui_outputs input) in
  let tokens := transfer_tokens outputs in
  inputs ← for_each spent_input (hui_inputs input);
  signedTx ←
    build env (buildHathorTransferTransaction
                 {| ht_inputs := inputs; ht_outputs := outputs;
                    ht_tokens := tokens; ht_changeAddress := JUndefined;
                    ht_testnet := testnet_or_env config (hui_testnet input) |});
  mret {| signedTx := signedTx; protocol := protocol; type := TRANSFER |}.

(** One turn of the loop of the token flow over [inputs]: what the output
    of the input adds to [inputSum]. *)
Definition add_input_value (melt : bool) (inputSum : Z) (o : HathorOutput)
  : Z :=
  if melt && negb (native_or_authority o)
  then inputSum + ho_value o
  else if token_data o =? 0 then inputSum + ho_value o else inputSum.

Definition input_value (melt : bool) (inputSum : Z) (i : HathorTokenInput)
  : M Z :=
  t ← getTransactionByHash env (ti_txHash i) HATHOR;
  o ← hathor_output t (ti_index i);
  mret (add_input_value melt inputSum o).

Definition createHathorTokenTransactionFromUTXO
    (input : HathorTokenTransactionFromUTXOInput) : M SignedTransaction :=
  validated (validateHathorTokenTransactionFromUTXO services input) ;;
  let type := hxi_type input in
  let melt := bool_decide (type = HATHOR_TOKEN_MELT) in
  let protocol := HATHOR in
  inputSum ← for_fold (input_value melt) 0 (hxi_inputs input);
  signedTx ←
    build env (buildHathorTokenTransaction
                 {| hk_type := type; hk_inputs := hxi_inputs input;
                    hk_tokenUid := hxi_tokenUid input;
                    hk_tokenName := hxi_tokenName input;
                    hk_tokenSymbol := hxi_tokenSymbol input;
                    hk_address := hxi_address input;
                    hk_changeAddress := hxi_changeAddress input;
                    hk_mintAuthorityAddress := hxi_mintAuthorityAddress input;
                    hk_meltAuthorityAddress := hxi_meltAuthorityAddress input;
                    hk_amount := hxi_amount input;
                    hk_testnet := testnet_or_env config (hxi_testnet input);
                    hk_inputSum := inputSum |});
  mret {| signedTx := signedTx; protocol := protocol; type := type |}.

End FromUTXO.

(** *** A log with more events

    The methods below reach endpoints and builders that [Event] has no
    name for, and the Uniswap controller throws an exception of its own.
    The same monad, over any type of events and of exceptions: an [async]
    function leaves a log and a promise that is fulfilled or rejected. *)

Inductive settled (X A : Type) : Type :=
| Fulfilled (a : A)
| Rejected (x : X).
Arguments Fulfilled {X A} a.
Arguments Rejected {X A} x.

Definition Async (E X A : Type) : Type := (list E * settled X A)%type.

Definition events {E X A} (m : Async E X A) : list E := m.1.
Definition settlement {E X A} (m : Async E X A) : settled X A := m.2.

#[global] Instance Async_ret {E X} : MRet (Async E X) :=
  λ A a, ([], Fulfilled a).

#[global] Instance Async_bind {E X} : MBind (Async E X) := λ A B f m,
  match m.2 with
  | Fulfilled a => (m.1 ++ (f a).1, (f a).2)
  | Rejected x => (m.1, Rejected x)
  end.

Definition reject {E X A} (x : X) : Async E X A := ([], Rejected x).

(** [await f(...)] of a service or of the remote API: the call, then what
    it settles to. *)
Definition await {E X A} (ev : E) (answer : settled X A) : Async E X A :=
  ([ev], answer).

Definition checked {E X} (v : option X) : Async E X unit :=
  match v with
  | Some x => reject x
  | None => mret tt
  end.

(** [try { m } catch (error) { h(error) }], as [try_catch]. *)
Definition caught {E X A} (m : Async E X A) (h : X → X) : Async E X A :=
  match m.2 with
  | Fulfilled _ => m
  | Rejected x => (m.1, Rejected (h x))
  end.

Definition settled_of {A} (r : result A) : settled Exn A :=
  match r with
  | Ok a => Fulfilled a
  | Throw e => Rejected e
  end.

(** The body of a request of the Uniswap controller; the endpoint is
    [/contract/uniswap/<name>?protocol=<protocol>]. *)
Inductive UniswapRequest : Type :=
| createPool_body
    (from : string) (tokenA tokenB fee priceNumerator priceDenominator : JsVal)
| mintPosition_body
    (from : string)
    (amountTokenA amountTokenB minPriceDelta maxPriceDelta slippage pool
       recipient : JsVal)
| removePosition_body
    (from : string) (slippage pool tokenId percentageToRemove recipient : JsVal)
| getPools_body (tokenA tokenB poolFee : JsVal)
| getSwapQuotation_body (tokenIn tokenOut amount tradeType : JsVal)
| getTokenIds_body (p : Protocol) (ownerAddress poolAddress : JsVal)
| readPosition_body (p : Protocol) (tokenId : JsVal)
| collectFees_body (from : string) (tokenId : JsVal)
| increaseLiquidity_body (from : string) (tokenId token0amount token1amount : JsVal)
| decreaseLiquidity_body (from : string) (tokenId percentageToDecrease : JsVal).

Inductive EventX : Type :=
| Core (ev : Event)
| ReqSendTransaction (signed : JsVal) (t : TransactionType) (p : Protocol)
| ReqBlock (block : JsVal) (p : Protocol)
| ReqCallSmartContractMethod (body : SmartContractCallMethodInput)
| BuildStellar (call : StellarCall)
| MakeRequest (body : UniswapRequest) (p : Protocol)
| SignCeloTx (rawTransaction : JsVal) (privateKey : string)
| SignEthereumTx (rawTransaction : JsVal) (p : Protocol)
    (privateKey : string) (environment : string).

(** A method of the part above, run in the wider log. *)
Definition core {A} (m : M A) : Async EventX Exn A :=
  (map Core (trace m), settled_of (outcome m)).

(** *** Endpoints that pass one request through, and Stellar *)

Section Endpoints.
Context (env : Env) (config : Config) (services : TransactionServices).

Definition sendTransaction (transaction : SignedTransaction)
  : Async EventX Exn JsVal :=
  caught
    (checked (validateSignedTransaction services transaction) ;;
     await (ReqSendTransaction (signedTx transaction) (type transaction)
              (protocol transaction))
       (settled_of (send_api services (signedTx transaction)
                      (type transaction) (protocol transaction))))
    (handleRequestError env).

Definition getBlock (block : JsVal) (p : Protocol) : Async EventX Exn JsVal :=
  caught
    (await (ReqBlock block p) (settled_of (block_api services block p)))
    (handleRequestError env).

Definition callSmartContractMethod (input : SmartContractCallMethodInput)
  : Async EventX Exn JsVal :=
  checked (validateSmartContractCallParams services input) ;;
  caught
    (await (ReqCallSmartContractMethod input)
       (settled_of (call_api services input)))
    (handleRequestError env).

Definition build_stellar (call : StellarCall) : Async EventX Exn JsVal :=
  await (BuildStellar call) (settled_of (stellar_builder services call)).

Definition createStellarTrustlineTransaction
    (input : StellarTrustlineTransactionInput)
  : Async EventX Exn SignedTransaction :=
  checked (validateStellarTrustlineTransactionParams services input) ;;
  let wallet := xli_wallet input in
  let protocol := STELLAR in
  info ← core (getWalletInfo env (w_publicKey wallet) protocol);
  networkFee ← core (flat_fee env (xli_fee input) CHANGE_TRUST protocol);
  signedTx ←
    build_stellar
      (buildStellarTrustlineTransaction
         {| xl_fromPublicKey := w_publicKey wallet;
            xl_fromPrivateKey := w_privateKey wallet;
            xl_assetSymbol := xli_assetSymbol input;
            xl_issuer := xli_issuer input;
            xl_limit := xli_limit input;
            xl_memo := xli_memo input;
            xl_fee := networkFee;
            xl_sequence := sequence info;
            xl_testnet := testnet_or_env config (xli_testnet input) |});
  mret {| signedTx := signedTx; protocol := protocol; type := CHANGE_TRUST |}.

Definition createStellarTransferTransaction
    (input : StellarTransferTransactionInput)
  : Async EventX Exn SignedTransaction :=
  checked (validateStellarTransferTransactionParams services input) ;;
  let wallet := xti_wallet input in
  let protocol := STELLAR in
  info ← core (getWalletInfo env (w_publicKey wallet) protocol);
  networkFee ← core (flat_fee env (xti_fee input) TRANSFER protocol);
  signedTx ←
    build_stellar
      (buildStellarTransferTransaction
         {| xt_fromPublicKey := w_publicKey wallet;
            xt_fromPrivateKey := w_privateKey wallet;
            xt_assetSymbol := xti_assetSymbol input;
            xt_issuer := xti_issuer input;
            xt_amount := xti_amount input;
            xt_destination := xti_destination input;
            xt_memo := xti_memo input;
            xt_fee := networkFee;
            xt_sequence := sequence info;
            xt_testnet := testnet_or_env config (xti_testnet input);
            xt_createAccount := xti_createAccount input |});
  mret {| signedTx := signedTx; protocol := protocol; type := TRANSFER |}.

End Endpoints.

(** *** The Uniswap controller (features/uniswap/controller) *)

Inductive UExn : Type :=
| InvalidException (message : string)
| Raised (e : Exn).

Record UniswapResponse : Type :=
  { rawTransaction : JsVal; pool : JsVal; initialized : JsVal }.

Record CreatePoolInput : Type :=
  { cpi_protocol : Protocol; cpi_wallet : Wallet; cpi_fee : JsVal;
    cpi_tokenA : JsVal; cpi_tokenB : JsVal; cpi_priceNumerator : JsVal;
    cpi_priceDenominator : JsVal }.

Record MintPositionInput : Type :=
  { mpi_protocol : Protocol; mpi_wallet : Wallet; mpi_amountTokenA : JsVal;
    mpi_amountTokenB : JsVal; mpi_slippage : JsVal; mpi_pool : JsVal;
    mpi_recipient : JsVal; mpi_minPriceDelta : JsVal;
    mpi_maxPriceDelta : JsVal }.

Record RemovePositionInput : Type :=
  { rpi_protocol : Protocol; rpi_wallet : Wallet; rpi_slippage : JsVal;
    rpi_pool : JsVal; rpi_recipient : JsVal; rpi_tokenId : JsVal;
    rpi_percentageToRemove : JsVal }.

Record GetPoolsInput : Type :=
  { gpi_protocol : Protocol; gpi_tokenA : JsVal; gpi_tokenB : JsVal;
    gpi_poolFee : JsVal }.

Record GetSwapQuotationInput : Type :=
  { gqi_protocol : Protocol; gqi_tokenIn : JsVal; gqi_tokenOut : JsVal;
    gqi_amount : JsVal; gqi_tradeType : JsVal }.

Record GetTokenIdsInput : Type :=
  { gti_protocol : Protocol; gti_ownerAddress : JsVal;
    gti_poolAddress : JsVal }.

Record ReadPositionInput : Type :=
  { rdi_protocol : Protocol; rdi_tokenId : JsVal }.

Record CollectFeesInput : Type :=
  { cfi_protocol : Protocol; cfi_wallet : Wallet; cfi_tokenId : JsVal }.

Record IncreaseLiquidityInput : Type :=
  { ili_protocol : Protocol; ili_wallet : Wallet; ili_tokenId : JsVal;
    ili_token0amount : JsVal; ili_token1amount : JsVal }.

Record DecreaseLiquidityInput : Type :=
  { dli_protocol : Protocol; dli_wallet : Wallet; dli_tokenId : JsVal;
    dli_percentageToDecrease : JsVal }.

(** [createPool] returns [{ transaction, pool }], where [transaction] is
    null when nothing was sent. *)
Record CreatePoolResponse : Type :=
  { cp_transaction : option JsVal; cp_pool : JsVal }.

(** The validators of services/validations/uniswap, the answers of the
    remote API behind [makeRequest], the two signers of
    services/blockchain, and the three tags of the entity module that only
    this controller names. *)
Record UniswapServices : Type :=
  { validateUniswapCreatePool : CreatePoolInput → option UExn;
    validateUniswapMintPosition : MintPositionInput → option UExn;
    validateUniswapRemovePosition : RemovePositionInput → option UExn;
    validateUniswapGetPools : GetPoolsInput → option UExn;
    validateUniswapGetSwapQuotation : GetSwapQuotationInput → option UExn;
    validateGetTokenIds : GetTokenIdsInput → option UExn;
    validateReadPosition : ReadPositionInput → option UExn;
    validateCollectFees : CollectFeesInput → option UExn;
    validateIncreaseLiquidity : IncreaseLiquidityInput → option UExn;
    validateDecreaseLiquidity : DecreaseLiquidityInput → option UExn;
    uniswap_api : UniswapRequest → Protocol → settled UExn UniswapResponse;
    signCeloTx : JsVal → string → settled UExn JsVal;
    signEthereumTx : JsVal → Protocol → string → string → settled UExn JsVal;
    CREATE_POOL : TransactionType;
    MINT_POSITION : TransactionType;
    REMOVE_POSITION : TransactionType }.

Section Uniswap.
Context (env : Env) (config : Config) (services : TransactionServices)
  (uniswap : UniswapServices).

Definition makeRequest (body : UniswapRequest) (p : Protocol)
  : Async EventX UExn UniswapResponse :=
  await (MakeRequest body p) (uniswap_api uniswap body p).

Definition unsupported_protocol : UExn :=
  InvalidException "Unsupported protocol".

(** The [switch (protocol)] that every operation which sends repeats. *)
Definition sign_by_protocol (p : Protocol) (wallet : Wallet)
    (raw : JsVal) : Async EventX UExn JsVal :=
  match p with
  | CELO =>
      await (SignCeloTx raw (w_privateKey wallet))
        (signCeloTx uniswap raw (w_privateKey wallet))
  | ETHEREUM | POLYGON =>
      await (SignEthereumTx raw p (w_privateKey wallet) (environment config))
        (signEthereumTx uniswap raw p (w_privateKey wallet)
           (environment config))
  | _ => reject unsupported_protocol
  end.

(** [tc.sendTransaction(new SignedTransaction({ signedTx, protocol, type }))]
    with [sendTransaction] of the transaction controller. *)
Definition send (signed : JsVal) (p : Protocol) (t : TransactionType)
  : Async EventX UExn JsVal :=
  let m := sendTransaction env services
             {| signedTx := signed; protocol := p; type := t |} in
  (events m,
   match settlement m with
   | Fulfilled a => Fulfilled a
   | Rejected e => Rejected (Raised e)
   end).

(** [recipient ? recipient : wallet.address] *)
Definition recipient_or (recipient : JsVal) (wallet : Wallet) : JsVal :=
  if truthy recipient then recipient else JStr (w_address wallet).

Definition createPool (input : CreatePoolInput)
  : Async EventX UExn CreatePoolResponse :=
  checked (validateUniswapCreatePool uniswap input) ;;
  let p := cpi_protocol input in
  let wallet := cpi_wallet input in
  r ← makeRequest
        (createPool_body (w_address wallet) (cpi_tokenA input)
           (cpi_tokenB input) (cpi_fee input) (cpi_priceNumerator input)
           (cpi_priceDenominator input)) p;
  if truthy (initialized r)
  then mret {| cp_transaction := None; cp_pool := pool r |}
  else
    signed ← sign_by_protocol p wallet (rawTransaction r);
    transaction ← send signed p (CREATE_POOL uniswap);
    mret {| cp_transaction := Some transaction; cp_pool := pool r |}.

Definition mintPosition (input : MintPositionInput)
  : Async EventX UExn JsVal :=
  checked (validateUniswapMintPosition uniswap input) ;;
  let p := mpi_protocol input in
  let wallet := mpi_wallet input in
  r ← makeRequest
        (mintPosition_body (w_address wallet) (mpi_amountTokenA input)
           (mpi_amountTokenB input) (mpi_minPriceDelta input)
           (mpi_maxPriceDelta input) (mpi_slippage input) (mpi_pool input)
           (recipient_or (mpi_recipient input) wallet)) p;
  signed ← sign_by_protocol p wallet (rawTransaction r);
  send signed p (MINT_POSITION uniswap).

Definition removePosition (input : RemovePositionInput)
  : Async EventX UExn JsVal :=
  checked (validateUniswapRemovePosition uniswap input) ;;
  let p := rpi_protocol input in
  let wallet := rpi_wallet input in
  r ← makeRequest
        (removePosition_body (w_address wallet) (rpi_slippage input)
           (rpi_pool input) (rpi_tokenId input)
           (rpi_percentageToRemove input)
           (recipient_or (rpi_recipient input) wallet)) p;
  signed ← sign_by_protocol p wallet (rawTransaction r);
  send signed p (REMOVE_POSITION uniswap).

Definition getPools (input : GetPoolsInput)
  : Async EventX UExn UniswapResponse :=
  checked (validateUniswapGetPools uniswap input) ;;
  makeRequest
    (getPools_body (gpi_tokenA input) (gpi_tokenB input) (gpi_poolFee input))
    (gpi_protocol input).

Definition getSwapQuotation (input : GetSwapQuotationInput)
  : Async EventX UExn UniswapResponse :=
  checked (validateUniswapGetSwapQuotation uniswap input) ;;
  makeRequest
    (getSwapQuotation_body (gqi_tokenIn input) (gqi_tokenOut input)
       (gqi_amount input) (gqi_tradeType input))
    (gqi_protocol input).

Definition getTokenIds (input : GetTokenIdsInput)
  : Async EventX UExn UniswapResponse :=
  checked (validateGetTokenIds uniswap input) ;;
  makeRequest
    (getTokenIds_body (gti_protocol input) (gti_ownerAddress input)
       (gti_poolAddress input))
    (gti_protocol input).

Definition readPosition (input : ReadPositionInput)
  : Async EventX UExn UniswapResponse :=
  checked (validateReadPosition uniswap input) ;;
  makeRequest (readPosition_body (rdi_protocol input) (rdi_tokenId input))
    (rdi_protocol input).

Definition collectFees (input : CollectFeesInput)
  : Async EventX UExn JsVal :=
  checked (validateCollectFees uniswap input) ;;
  let p := cfi_protocol input in
  let wallet := cfi_wallet input in
  r ← makeRequest (collectFees_body (w_address wallet) (cfi_tokenId input)) p;
  signed ← sign_by_protocol p wallet (rawTransaction r);
  send signed p (MINT_POSITION uniswap).

Definition increaseLiquidity (input : IncreaseLiquidityInput)
  : Async EventX UExn JsVal :=
  checked (validateIncreaseLiquidity uniswap input) ;;
  let p := ili_protocol input in
  let wallet := ili_wallet input in
  r ← makeRequest
        (increaseLiquidity_body (w_address wallet) (ili_tokenId input)
           (ili_token0amount input) (ili_token1amount input)) p;
  signed ← sign_by_protocol p wallet (rawTransaction r);
  send signed p (MINT_POSITION uniswap).

Definition decreaseLiquidity (input : DecreaseLiquidityInput)
  : Async EventX UExn JsVal :=
  checked (validateDecreaseLiquidity uniswap input) ;;
  let p := dli_protocol input in
  let wallet := dli_wallet input in
  r ← makeRequest
        (decreaseLiquidity_body (w_address wallet) (dli_tokenId input)
           (dli_percentageToDecrease input)) p;
  signed ← sign_by_protocol p wallet (rawTransaction r);
  send signed p (MINT_POSITION uniswap).

End Uniswap.

(** ** The constructions that validate, then ask, then call a builder *)

Inductive Construction : Type :=
| OnAccountChain (x : AccountChainIntent)
| OnRipple (x : RippleIntent)
| BitcoinTransfer (i : BitcoinTransferTransactionInput)
| HathorFromWallet (x : HathorIntent)
| HathorTransferFromUTXO (i : HathorTransferTransactionFromUTXOInput)
| HathorTokenFromUTXO (i : HathorTokenTransactionFromUTXOInput)
| SolanaTokenBurn (i : SolanaTransferTransactionInput)
| SolanaTokenMint (i : SolanaTransferTransactionInput).

Definition run (env : Env) (config : Config) (services : TransactionServices)
    (c : Construction) : M SignedTransaction :=
  match c with
  | OnAccountChain x => construct env config x
  | OnRipple x => ripple_construct env config x
  | BitcoinTransfer i => createBitcoinTransferTransaction env config i
  | HathorFromWallet x => hathor_construct env config x
  | HathorTransferFromUTXO i =>
      createHathorTransferTransactionFromUTXO env config services i
  | HathorTokenFromUTXO i =>
      createHathorTokenTransactionFromUTXO env config services i
  | SolanaTokenBurn i => createSolanaTokenBurnTransaction env i
  | SolanaTokenMint i => createSolanaTokenMintTransaction env i
  end.

(** What the validator that a construction calls first says of its input. *)
Definition account_chain_validation (env : Env) (x : AccountChainIntent)
  : option Exn :=
  match x with
  | CeloTransfer i => validateCeloTransferTransactionParams env i
  | EthereumTransfer i | BscTransfer i | AvaxCChainTransfer i =>
      validateEthereumTransferTransactionParams env i
  | SmartContractCall i => validateSmartContractTransactionParams env i
  | SmartContractDeploy i =>
      validateSmartContractDeployTransactionParams env i
  | TokenDeploy i => validateTokenDeployTransactionParams env i
  end.

Definition ripple_validation (env : Env) (x : RippleIntent) : option Exn :=
  match x with
  | RippleTransfer i => validateRippleTransferTransactionParams env i
  | RippleTrustline i => validateRippleTrustlineTransactionParams env i
  end.

Definition validation (env : Env) (services : TransactionServices)
    (c : Construction) : option Exn :=
  match c with
  | OnAccountChain x => account_chain_validation env x
  | OnRipple x => ripple_validation env x
  | BitcoinTransfer i => validateBitcoinTransferTransactionParams env i
  | HathorFromWallet x => hathor_validation env x
  | HathorTransferFromUTXO i =>
      validateHathorTransferTransactionFromUTXO services i
  | HathorTokenFromUTXO i =>
      validateHathorTokenTransactionFromUTXO services i
  | SolanaTokenBurn i | SolanaTokenMint i =>
      validateSolanaTransferTransaction env i
  end.

(** The builder call that a log ends with, when every event before it is
    a request to the remote API. *)
Fixpoint signing_call (l : list Event) : option BuildCall :=
  match l with
  | [] => None
  | [Build call] => Some call
  | ev :: l => if is_request ev then signing_call l else None
  end.

(** *** The flat fee of Ripple and Bitcoin *)

(** The caller's fee, and the type and protocol that the quotation is
    asked with, in the constructions that take a flat fee. *)
Definition flat_fee_of (c : Construction)
  : option (JsVal * TransactionType * Protocol) :=
  match c with
  | OnRipple (RippleTransfer i) => Some (rti_fee i, TRANSFER, RIPPLE)
  | OnRipple (RippleTrustline i) => Some (rli_fee i, CHANGE_TRUST, RIPPLE)
  | BitcoinTransfer i => Some (bti_fee i, TRANSFER, BITCOIN)
  | _ => None
  end.

(** The [fee] their builders are called with. *)
Definition built_flat_fee (call : BuildCall) : option JsVal :=
  match call with
  | buildRippleTransferTransaction o => Some (rt_fee o)
  | buildRippleTrustlineTransaction o => Some (rl_fee o)
  | buildBitcoinTransferTransaction o => Some (bt_fee o)
  | _ => None
  end.

(** The data of a fee request that names a type and nothing else. *)
Definition only_type (t : TransactionType) : FeeData :=
  {| fd_type := Some t; fd_from := JUndefined; fd_amount := JUndefined;
     fd_destination := JUndefined; fd_contractAddress := JUndefined;
     fd_contractAbi := JUndefined; fd_method := JUndefined;
     fd_params := None; fd_contractName := JUndefined;
     fd_source := JUndefined; fd_feeCurrency := JUndefined;
     fd_tokenType := JUndefined |}.

Definition is_fee_request (ev : Event) : bool :=
  match ev with ReqFee _ _ => true | _ => false end.

(** Validators that accept, builders that sign, endpoints that answer. *)
Definition example_services : TransactionServices :=
  {| validateHathorTransferTransactionFromUTXO := λ _, None;
     validateHathorTokenTransactionFromUTXO := λ _, None;
     validateStellarTransferTransactionParams := λ _, None;
     validateStellarTrustlineTransactionParams := λ _, None;
     validateSignedTransaction := λ _, None;
     validateSmartContractCallParams := λ _, None;
     stellar_builder := λ _, Ok (JStr "AAAAAgAAAAC");
     send_api := λ _ _ _, Ok (JObject "{ hash: '0x9a1c' }");
     block_api := λ _ _, Ok (JObject "{ number: 1 }");
     call_api := λ _, Ok (JObject "{ result: '1' }") |}.

(** An environment whose validators refuse every input. *)
Definition invalid_params : Exn :=
  GenericException "Invalid params" (Some "InvalidTypeException").

Definition refusing_env : Env :=
  {| wallet_info_api := wallet_info_api account_env;
     fee_api := fee_api account_env;
     utxos_api := utxos_api account_env;
     transaction_api := transaction_api account_env;
     latest_block_api := latest_block_api account_env;
     preprocess_api := preprocess_api account_env;
     metadata_api := metadata_api account_env;
     payloads_api := payloads_api account_env;
     combine_api := combine_api account_env;
     race := race account_env;
     handleRequestError := handleRequestError account_env;
     builder := builder account_env;
     toWei := toWei account_env;
     toHTRUnit := toHTRUnit account_env;
     getTokenAddress := getTokenAddress account_env;
     TRANSFER_METHOD_ABI := TRANSFER_METHOD_ABI account_env;
     TRANSFER_COMMENT_METHOD_ABI := TRANSFER_COMMENT_METHOD_ABI account_env;
     CUSD_CONTRACT_ADDRESS := CUSD_CONTRACT_ADDRESS account_env;
     CEUR_CONTRACT_ADDRESS := CEUR_CONTRACT_ADDRESS account_env;
     validateRippleTransferTransactionParams := λ _, Some invalid_params;
     validateRippleTrustlineTransactionParams := λ _, Some invalid_params;
     validateCeloTransferTransactionParams := λ _, Some invalid_params;
     validateEthereumTransferTransactionParams := λ _, Some invalid_params;
     validateSmartContractTransactionParams := λ _, Some invalid_params;
     validateSmartContractDeployTransactionParams := λ _, Some invalid_params;
     validateTokenDeployTransactionParams := λ _, Some invalid_params;
     validateBitcoinTransferTransactionParams := λ _, Some invalid_params;
     validateHathorTransferTransactionFromWallet := λ _, Some invalid_params;
     validateHathorTokenTransactionFromWallet := λ _, Some invalid_params;
     validateSolanaTransferTransaction := λ _, Some invalid_params;
     buildOperation := buildOperation account_env;
     buildOperationFromInputs := buildOperationFromInputs account_env;
     from_128_xprv := from_128_xprv account_env;
     make_vkey_witness := make_vkey_witness account_env |}.

(** *** Account chains *)

(** The second test of the suite: 0.01 cUSD, the fee paid in cUSD. *)
Definition example_cusd_transfer : CeloTransferTransactionInput :=
  {| cti_wallet := example_wallet; cti_tokenSymbol := JStr "cUSD";
     cti_amount := JStr "0.01";
     cti_destination := JStr "0x3f2f3D45196D7B99D0a615e8f530165eCb93e772";
     cti_memo := JUndefined; cti_fee := None; cti_testnet := Some true;
     cti_contractAddress := JUndefined; cti_feeCurrency := JStr "cUSD" |}.

(** The three transfers of the Ethereum family, each with its protocol
    and the symbol of its native asset. *)
Definition ethereum_family_transfers
  : list ((Env → Config → EthereumTransferTransactionInput
           → M SignedTransaction) * Protocol * string) :=
  [(createEthereumTransferTransaction, ETHEREUM, "ETH");
   (createBscTransferTransaction, BSC, "BNB");
   (createAvaxCChainTransferTransaction, AVAXCCHAIN, "AVAX")].

(** The constructions that choose their builder by the protocol of the
    input, with that protocol and the address asked about. *)
Definition dispatched (x : AccountChainIntent) : option (Protocol * string) :=
  match x with
  | SmartContractCall i => Some (sci_protocol i, w_address (sci_wallet i))
  | SmartContractDeploy i => Some (sdi_protocol i, w_address (sdi_wallet i))
  | TokenDeploy i => Some (tdi_protocol i, w_address (tdi_wallet i))
  | _ => None
  end.

(** The builders of smart-contract transactions: Celo's, and those of
    the Ethereum family with the protocol they are told. *)
Definition celo_contract_builder (call : BuildCall) : bool :=
  match call with
  | buildCeloSmartContractTransaction _
  | buildCeloSmartContractDeployTransaction _ => true
  | _ => false
  end.

Definition ethereum_contract_builder (call : BuildCall) : option Protocol :=
  match call with
  | buildEthereumSmartContractTransaction _ p
  | buildEthereumSmartContractDeployTransaction _ p => Some p
  | _ => None
  end.

Definition example_contract_call (p : Protocol)
  : SmartContractCallTransactionInput :=
  {| sci_wallet := example_wallet; sci_fee := None; sci_testnet := Some true;
     sci_value := JUndefined;
     sci_contractAddress := JStr "0x07274039422F722076863ADa0b4dB77ad6c163dc";
     sci_contractAbi := JObject "[{ name: 'mint' }]";
     sci_method := JStr "mint"; sci_params := Some [JStr "1"];
     sci_protocol := p; sci_feeCurrency := JUndefined |}.


(** *** Bitcoin examples *)

(** A wallet with one unspent output, of the transaction of the examples. *)
Definition bitcoin_wallet_env : Env :=
  example_env unavailable unavailable
    (Ok (BodyArray [{| txHash := "9b5d0f0fdd22c4b4"; index := 1;
                       value := 100000; token := JUndefined |}]))
    (λ _, Ok example_transaction) unavailable.

(** A transfer that names a wallet and, besides, an input that is not in
    its transaction. *)
Definition example_bitcoin_wallet_and_inputs
  : BitcoinTransferTransactionInput :=
  {| bti_wallet := Some example_wallet;
     bti_inputs := Some [example_input 7];
     bti_outputs := JObject "[{ address: 'tb1q', amount: 1000 }]";
     bti_fee := JNum 300; bti_testnet := Some true |}.

Definition example_bitcoin_two_inputs : BitcoinTransferTransactionInput :=
  {| bti_wallet := None;
     bti_inputs := Some [example_input 1; example_input 0];
     bti_outputs := JObject "[{ address: 'tb1q', amount: 1000 }]";
     bti_fee := JNum 300; bti_testnet := Some true |}.

(** *** Hathor transfers *)

(** The outputs that the caller of a Hathor transfer asks for. *)
Definition requested_outputs (c : Construction)
  : option (list HathorOutputSpec) :=
  match c with
  | HathorFromWallet (HathorTransfer i) => Some (hti_outputs i)
  | HathorTransferFromUTXO i => Some (hui_outputs i)
  | _ => None
  end.

(** The ways a requested output names the native token. *)
Definition names_native (v : JsVal) : Prop :=
  v = JStr "HTR" ∨ v = JNull ∨ v = JUndefined.

(** The input a transfer from a wallet makes of an unspent output. *)
Definition hathor_input_of (wallet : Wallet) (u : UTXO) : HathorInput :=
  {| hi_txHash := txHash u; hi_index := index u; hi_value := JNum (value u);
     hi_token := token u; hi_privateKey := w_privateKey wallet |}.

(** An unspent output that a transfer of [tokens] spends: its token is
    one of them, and it is of the native token or it is an ordinary
    output, not an authority. *)
Definition spendable (env : Env) (tokens : list JsVal) (u : UTXO) : bool :=
  includes tokens (token u) &&
  (strict_eq (token u) (JStr "00") ||
   match hathor_output_of env u with
   | Some o => ordinary o
   | None => false
   end).

(** A wallet with 500 of a token, a melt authority of it, and 1000 of the
    native token, all in the transaction "00a1". *)
Definition hathor_transaction : TransactionData :=
  {| hex := JUndefined; blockhash := JUndefined; vout := None;
     tx := Some {| outputs := [{| token_data := 1; ho_value := 500 |};
                               {| token_data := 129; ho_value := 2 |};
                               {| token_data := 0; ho_value := 1000 |};
                               {| token_data := 129; ho_value := 1 |}];
                   tokens := ["0000441258c8ce0a"] |} |}.

Definition hathor_utxos : list UTXO :=
  [{| txHash := "00a1"; index := 0; value := 500; token := token_uid |};
   {| txHash := "00a1"; index := 1; value := 2; token := token_uid |};
   {| txHash := "00a1"; index := 2; value := 1000; token := JStr "00" |};
   {| txHash := "00a1"; index := 3; value := 1; token := token_uid |}].

Definition hathor_env : Env :=
  example_env unavailable unavailable (Ok (BodyArray hathor_utxos))
    (λ _, Ok hathor_transaction) unavailable.

(** A transfer of the token and of the native token, named 'HTR'. *)
Definition example_hathor_two_tokens : HathorTransferTransactionInput :=
  {| hti_wallet := example_wallet;
     hti_outputs :=
       [{| os_address := JStr "WmpvgigZ4pNVLRPW2Ce4Xx1gmVTrcbBUnL";
           os_amount := JNum 3; os_token := token_uid |};
        {| os_address := JStr "WmpvgigZ4pNVLRPW2Ce4Xx1gmVTrcbBUnL";
           os_amount := JNum 1; os_token := JStr "HTR" |};
        {| os_address := JStr "WYBwT3xLpDnHNtYZiU52oanupVeDKhAvNp";
           os_amount := JNum 2; os_token := token_uid |}];
     hti_testnet := Some true |}.

(** *** Hathor tokens: minting and creating *)

(** Outside of a melt: a deposit output ([token_data] 0, the native
    token) and a mint authority ([token_data] 129 with the value 1). *)
Definition deposit (o : HathorOutput) : bool := token_data o =? 0.

Definition mint_authority (o : HathorOutput) : bool :=
  (token_data o =? 129) && (ho_value o =? 1).

Definition deposits_of (l : list (UTXO * HathorOutput))
  : list (UTXO * HathorOutput) :=
  List.filter (λ uo, deposit uo.2) l.

(** *** Hathor from the caller's own outputs *)

(** The output that an input of a transfer spends, with the body of its
    transaction, when the transaction resolves and has that output. *)
Definition spent_by (env : Env) (i : HathorInput)
  : option (HathorTx * HathorOutput) :=
  match transaction_api env (hi_txHash i) HATHOR with
  | Ok t =>
      match tx t with
      | Some body =>
          match js_nth (outputs body) (hi_index i) with
          | Some o => Some (body, o)
          | None => None
          end
      | None => None
      end
  | Throw _ => None
  end.

(** The token of the output is the native one, or [token_data - 1] is an
    index of the token list of its transaction. *)
Definition token_listed (bo : HathorTx * HathorOutput) : bool :=
  (token_data bo.2 =? 0)
  || bool_decide (is_Some (js_nth (tokens bo.1) (token_data bo.2 - 1))).

(** The outputs whose value a token operation from inputs counts: all but
    the authorities when melting, those of the native token otherwise. *)
Definition counted (melt : bool) (o : HathorOutput) : bool :=
  if melt then negb (token_data o =? 129) else token_data o =? 0.

Definition total_value (l : list HathorOutput) : Z :=
  foldr (λ o s, ho_value o + s) 0 l.

Definition example_hathor_input (i : Z) : HathorInput :=
  {| hi_txHash := "00a1"; hi_index := i; hi_value := JUndefined;
     hi_token := JUndefined; hi_privateKey := "priv" |}.

(** A transfer that spends the value output of the token and the output
    of the native token, or with [authority], the melt authority. *)
Definition example_hathor_from_utxo (authority : bool)
  : HathorTransferTransactionFromUTXOInput :=
  {| hui_inputs :=
       if authority
       then [example_hathor_input 2; example_hathor_input 1]
       else [example_hathor_input 0; example_hathor_input 2];
     hui_outputs := hti_outputs example_hathor_two_tokens;
     hui_testnet := Some true |}.

(** A melt whose inputs are the value output of the token, its melt
    authority and the output of the native token. *)
Definition example_hathor_melt_from_utxo
  : HathorTokenTransactionFromUTXOInput :=
  {| hxi_inputs :=
       [{| ti_txHash := "00a1"; ti_index := 0; ti_privateKey := "priv" |};
        {| ti_txHash := "00a1"; ti_index := 1; ti_privateKey := "priv" |};
        {| ti_txHash := "00a1"; ti_index := 2; ti_privateKey := "priv" |}];
     hxi_tokenName := JUndefined; hxi_tokenSymbol := JUndefined;
     hxi_address := JStr "WmpvgigZ4pNVLRPW2Ce4Xx1gmVTrcbBUnL";
     hxi_changeAddress := JStr "WmpvgigZ4pNVLRPW2Ce4Xx1gmVTrcbBUnL";
     hxi_mintAuthorityAddress := JUndefined;
     hxi_meltAuthorityAddress := JUndefined; hxi_amount := JNum 3;
     hxi_tokenUid := token_uid; hxi_type := HATHOR_TOKEN_MELT;
     hxi_testnet := Some true |}.

(** *** Cardano *)

(** The unspent outputs of its address that an explicit input names, when
    its key parses and the discovery is answered with an array. *)
Definition found_for (env : Env) (c : CardanoInput) : option (list UTXO) :=
  match from_128_xprv env (ci_privateKey c),
        utxos_api env (ci_address c) CARDANO with
  | Ok _, Ok (BodyArray items) =>
      Some (List.filter
              (λ u, String.eqb (txHash u) (ci_txHash c)
                    && String.eqb (pretty (index u)) (ci_index c))
              items)
  | _, _ => None
  end.

(** Two inputs, of which the second names an output that its address
    does not hold. *)
Definition example_cardano_missing_input : CardanoFromUTXOInput :=
  {| cui_outputs := JObject "[{ address: 'addr_test1vz', amount: '1000000' }]";
     cui_inputs :=
       [{| ci_address := "addr_test1vq"; ci_privateKey := example_key;
           ci_txHash := "00a1"; ci_index := "0" |};
        {| ci_address := "addr_test1vp"; ci_privateKey := other_key;
           ci_txHash := "00a1"; ci_index := "7" |}] |}.

(** *** The Stellar constructions as one family *)

Inductive StellarIntent : Type :=
| StellarTransfer (i : StellarTransferTransactionInput)
| StellarTrustline (i : StellarTrustlineTransactionInput).

Definition stellar_construct (env : Env) (config : Config)
    (services : TransactionServices) (x : StellarIntent)
  : Async EventX Exn SignedTransaction :=
  match x with
  | StellarTransfer i => createStellarTransferTransaction env config services i
  | StellarTrustline i =>
      createStellarTrustlineTransaction env config services i
  end.

Definition stellar_wallet (x : StellarIntent) : Wallet :=
  match x with
  | StellarTransfer i => xti_wallet i
  | StellarTrustline i => xli_wallet i
  end.

(** The caller's fee and the type that the quotation is asked with. *)
Definition stellar_fee (x : StellarIntent) : JsVal * TransactionType :=
  match x with
  | StellarTransfer i => (xti_fee i, TRANSFER)
  | StellarTrustline i => (xli_fee i, CHANGE_TRUST)
  end.

(** The account, the sequence number and the fee a Stellar builder is
    called with. *)
Definition stellar_account (call : StellarCall) : string * JsVal * JsVal :=
  match call with
  | buildStellarTransferTransaction o =>
      (xt_fromPublicKey o, xt_sequence o, xt_fee o)
  | buildStellarTrustlineTransaction o =>
      (xl_fromPublicKey o, xl_sequence o, xl_fee o)
  end.

Definition is_core_fee_request (ev : EventX) : bool :=
  match ev with Core (ReqFee _ _) => true | _ => false end.

Definition stellar_wallet_example : Wallet :=
  {| w_address := "";
     w_publicKey := "GDLCRMXZ66NFDIALVOTCOB6SMRNNK6U7YYXVTSVYVZBVTBVXTBFKFV2U";
     w_privateKey := "SBLSQRYZ" |}.

Definition example_stellar_transfer : StellarTransferTransactionInput :=
  {| xti_wallet := stellar_wallet_example; xti_assetSymbol := JStr "XLM";
     xti_issuer := JUndefined; xti_amount := JStr "1";
     xti_destination :=
       JStr "GDCA2FZ6MQ4CL4N4BEAAGUJXHEUYBEBFRKXPXKHPJBLIJ2TFLD5TZGBK";
     xti_memo := JUndefined; xti_fee := JUndefined;
     xti_testnet := Some true; xti_createAccount := JUndefined |}.

(** Services whose validators refuse and whose endpoints are down. *)
Definition refusing_services : TransactionServices :=
  {| validateHathorTransferTransactionFromUTXO := λ _, Some invalid_params;
     validateHathorTokenTransactionFromUTXO := λ _, Some invalid_params;
     validateStellarTransferTransactionParams := λ _, Some invalid_params;
     validateStellarTrustlineTransactionParams := λ _, Some invalid_params;
     validateSignedTransaction := λ _, Some invalid_params;
     validateSmartContractCallParams := λ _, Some invalid_params;
     stellar_builder := λ _, unavailable;
     send_api := λ _ _ _, unavailable;
     block_api := λ _ _, unavailable;
     call_api := λ _, unavailable |}.

Definition example_signed : SignedTransaction :=
  {| signedTx := JStr "0xf86b"; protocol := ETHEREUM; type := TRANSFER |}.

Definition example_call_method : SmartContractCallMethodInput :=
  {| cmi_from := JUndefined;
     cmi_contractAddress := JStr "0x07274039422F722076863ADa0b4dB77ad6c163dc";
     cmi_contractAbi := JObject "[{ name: 'balanceOf' }]";
     cmi_method := JStr "balanceOf"; cmi_params := Some [];
     cmi_protocol := ETHEREUM |}.

(** *** The Uniswap operations as one family *)

(** The operations that have a transaction signed and sent. *)
Inductive PoolOperation : Type :=
| CreatePool (i : CreatePoolInput)
| MintPosition (i : MintPositionInput)
| RemovePosition (i : RemovePositionInput)
| CollectFees (i : CollectFeesInput)
| IncreaseLiquidity (i : IncreaseLiquidityInput)
| DecreaseLiquidity (i : DecreaseLiquidityInput).

(** The operations that only ask. *)
Inductive PoolQuery : Type :=
| GetPools (i : GetPoolsInput)
| GetSwapQuotation (i : GetSwapQuotationInput)
| GetTokenIds (i : GetTokenIdsInput)
| ReadPosition (i : ReadPositionInput).

Section UniswapFamily.
Context (env : Env) (config : Config) (services : TransactionServices)
  (uniswap : UniswapServices).

(** The log of an operation and the exception it ends with, if any. *)
Definition operation_events (x : PoolOperation) : list EventX :=
  match x with
  | CreatePool i => events (createPool env config services uniswap i)
  | MintPosition i => events (mintPosition env config services uniswap i)
  | RemovePosition i => events (removePosition env config services uniswap i)
  | CollectFees i => events (collectFees env config services uniswap i)
  | IncreaseLiquidity i =>
      events (increaseLiquidity env config services uniswap i)
  | DecreaseLiquidity i =>
      events (decreaseLiquidity env config services uniswap i)
  end.

Definition rejection {A} (m : Async EventX UExn A) : option UExn :=
  match settlement m with
  | Fulfilled _ => None
  | Rejected e => Some e
  end.

Definition operation_rejection (x : PoolOperation) : option UExn :=
  match x with
  | CreatePool i => rejection (createPool env config services uniswap i)
  | MintPosition i => rejection (mintPosition env config services uniswap i)
  | RemovePosition i =>
      rejection (removePosition env config services uniswap i)
  | CollectFees i => rejection (collectFees env config services uniswap i)
  | IncreaseLiquidity i =>
      rejection (increaseLiquidity env config services uniswap i)
  | DecreaseLiquidity i =>
      rejection (decreaseLiquidity env config services uniswap i)
  end.

Definition query (x : PoolQuery) : Async EventX UExn UniswapResponse :=
  match x with
  | GetPools i => getPools uniswap i
  | GetSwapQuotation i => getSwapQuotation uniswap i
  | GetTokenIds i => getTokenIds uniswap i
  | ReadPosition i => readPosition uniswap i
  end.

Definition operation_validation (x : PoolOperation) : option UExn :=
  match x with
  | CreatePool i => validateUniswapCreatePool uniswap i
  | MintPosition i => validateUniswapMintPosition uniswap i
  | RemovePosition i => validateUniswapRemovePosition uniswap i
  | CollectFees i => validateCollectFees uniswap i
  | IncreaseLiquidity i => validateIncreaseLiquidity uniswap i
  | DecreaseLiquidity i => validateDecreaseLiquidity uniswap i
  end.

Definition query_validation (x : PoolQuery) : option UExn :=
  match x with
  | GetPools i => validateUniswapGetPools uniswap i
  | GetSwapQuotation i => validateUniswapGetSwapQuotation uniswap i
  | GetTokenIds i => validateGetTokenIds uniswap i
  | ReadPosition i => validateReadPosition uniswap i
  end.

End UniswapFamily.

Definition operation_protocol (x : PoolOperation) : Protocol :=
  match x with
  | CreatePool i => cpi_protocol i
  | MintPosition i => mpi_protocol i
  | RemovePosition i => rpi_protocol i
  | CollectFees i => cfi_protocol i
  | IncreaseLiquidity i => ili_protocol i
  | DecreaseLiquidity i => dli_protocol i
  end.

Definition operation_wallet (x : PoolOperation) : Wallet :=
  match x with
  | CreatePool i => cpi_wallet i
  | MintPosition i => mpi_wallet i
  | RemovePosition i => rpi_wallet i
  | CollectFees i => cfi_wallet i
  | IncreaseLiquidity i => ili_wallet i
  | DecreaseLiquidity i => dli_wallet i
  end.

(** What the signer of a protocol makes of a raw transaction. *)
Definition signed_by (config : Config) (uniswap : UniswapServices)
    (p : Protocol) (wallet : Wallet) (raw : JsVal) : settled UExn JsVal :=
  if bool_decide (p = CELO)
  then signCeloTx uniswap raw (w_privateKey wallet)
  else signEthereumTx uniswap raw p (w_privateKey wallet)
         (environment config).

(** Services for the examples: the pool is, or is not, there already. *)
Definition example_uniswap (pool_exists : bool) : UniswapServices :=
  {| validateUniswapCreatePool := λ _, None;
     validateUniswapMintPosition := λ _, None;
     validateUniswapRemovePosition := λ _, None;
     validateUniswapGetPools := λ _, None;
     validateUniswapGetSwapQuotation := λ _, None;
     validateGetTokenIds := λ _, None;
     validateReadPosition := λ _, None;
     validateCollectFees := λ _, None;
     validateIncreaseLiquidity := λ _, None;
     validateDecreaseLiquidity := λ _, None;
     uniswap_api := λ _ _,
       Fulfilled {| rawTransaction := JObject "{ to: '0x1F98', data: '0x13ead562' }";
                    pool := JStr "0x8ad599c3A0ff1De082011EFDDc58f1908eb6e6D8";
                    initialized := JBool pool_exists |};
     signCeloTx := λ _ _, Fulfilled (JStr "0xcelo");
     signEthereumTx := λ _ _ _ _, Fulfilled (JStr "0xf86b");
     CREATE_POOL := TypeTag "CREATE_POOL";
     MINT_POSITION := TypeTag "MINT_POSITION";
     REMOVE_POSITION := TypeTag "REMOVE_POSITION" |}.

Definition example_create_pool (p : Protocol) : CreatePoolInput :=
  {| cpi_protocol := p; cpi_wallet := example_wallet; cpi_fee := JNum 3000;
     cpi_tokenA := JStr "0xA0b8"; cpi_tokenB := JStr "0xC02a";
     cpi_priceNumerator := JNum 1; cpi_priceDenominator := JNum 2 |}.

Definition example_collect_fees (p : Protocol) : CollectFeesInput :=
  {| cfi_protocol := p; cfi_wallet := example_wallet;
     cfi_tokenId := JStr "1234" |}.

(** The [data] object an operation posts. *)
Definition operation_body (x : PoolOperation) : UniswapRequest :=
  match x with
  | CreatePool i =>
      createPool_body (w_address (cpi_wallet i)) (cpi_tokenA i)
        (cpi_tokenB i) (cpi_fee i) (cpi_priceNumerator i)
        (cpi_priceDenominator i)
  | MintPosition i =>
      mintPosition_body (w_address (mpi_wallet i)) (mpi_amountTokenA i)
        (mpi_amountTokenB i) (mpi_minPriceDelta i) (mpi_maxPriceDelta i)
        (mpi_slippage i) (mpi_pool i)
        (recipient_or (mpi_recipient i) (mpi_wallet i))
  | RemovePosition i =>
      removePosition_body (w_address (rpi_wallet i)) (rpi_slippage i)
        (rpi_pool i) (rpi_tokenId i) (rpi_percentageToRemove i)
        (recipient_or (rpi_recipient i) (rpi_wallet i))
  | CollectFees i =>
      collectFees_body (w_address (cfi_wallet i)) (cfi_tokenId i)
  | IncreaseLiquidity i =>
      increaseLiquidity_body (w_address (ili_wallet i)) (ili_tokenId i)
        (ili_token0amount i) (ili_token1amount i)
  | DecreaseLiquidity i =>
      decreaseLiquidity_body (w_address (dli_wallet i)) (dli_tokenId i)
        (dli_percentageToDecrease i)
  end.

Definition query_body (x : PoolQuery) : UniswapRequest :=
  match x with
  | GetPools i => getPools_body (gpi_tokenA i) (gpi_tokenB i) (gpi_poolFee i)
  | GetSwapQuotation i =>
      getSwapQuotation_body (gqi_tokenIn i) (gqi_tokenOut i) (gqi_amount i)
        (gqi_tradeType i)
  | GetTokenIds i =>
      getTokenIds_body (gti_protocol i) (gti_ownerAddress i)
        (gti_poolAddress i)
  | ReadPosition i => readPosition_body (rdi_protocol i) (rdi_tokenId i)
  end.

Definition query_protocol (x : PoolQuery) : Protocol :=
  match x with
  | GetPools i => gpi_protocol i
  | GetSwapQuotation i => gqi_protocol i
  | GetTokenIds i => gti_protocol i
  | ReadPosition i => rdi_protocol i
  end.

(** The [type] an operation gives the transaction it sends. *)
Definition operation_tag (uniswap : UniswapServices) (x : PoolOperation)
  : TransactionType :=
  match x with
  | CreatePool _ => CREATE_POOL uniswap
  | RemovePosition _ => REMOVE_POSITION uniswap
  | MintPosition _ | CollectFees _ | IncreaseLiquidity _
  | DecreaseLiquidity _ => MINT_POSITION uniswap
  end.

(** The pool of a [createPool] turned out to be there. *)
Definition found_initialized (x : PoolOperation) (r : UniswapResponse)
  : bool :=
  match x with
  | CreatePool _ => truthy (initialized r)
  | _ => false
  end.

(** The call of the signer, as the log has it. *)
Definition sign_event (config : Config) (p : Protocol) (wallet : Wallet)
    (raw : JsVal) : EventX :=
  if bool_decide (p = CELO)
  then SignCeloTx raw (w_privateKey wallet)
  else SignEthereumTx raw p (w_privateKey wallet) (environment config).

Definition supported (p : Protocol) : bool :=
  bool_decide (p = CELO) || bool_decide (p = ETHEREUM)
  || bool_decide (p = POLYGON).

Definition refusing_uniswap (e : UExn) : UniswapServices :=
  {| validateUniswapCreatePool := λ _, Some e;
     validateUniswapMintPosition := λ _, Some e;
     validateUniswapRemovePosition := λ _, Some e;
     validateUniswapGetPools := λ _, Some e;
     validateUniswapGetSwapQuotation := λ _, Some e;
     validateGetTokenIds := λ _, Some e;
     validateReadPosition := λ _, Some e;
     validateCollectFees := λ _, Some e;
     validateIncreaseLiquidity := λ _, Some e;
     validateDecreaseLiquidity := λ _, Some e;
     uniswap_api := uniswap_api (example_uniswap false);
     signCeloTx := signCeloTx (example_uniswap false);
     signEthereumTx := signEthereumTx (example_uniswap false);
     CREATE_POOL := CREATE_POOL (example_uniswap false);
     MINT_POSITION := MINT_POSITION (example_uniswap false);
     REMOVE_POSITION := REMOVE_POSITION (example_uniswap false) |}.

Definition unreachable_uniswap (e : UExn) : UniswapServices :=
  {| validateUniswapCreatePool := λ _, None;
     validateUniswapMintPosition := λ _, None;
     validateUniswapRemovePosition := λ _, None;
     validateUniswapGetPools := λ _, None;
     validateUniswapGetSwapQuotation := λ _, None;
     validateGetTokenIds := λ _, None;
     validateReadPosition := λ _, None;
     validateCollectFees := λ _, None;
     validateIncreaseLiquidity := λ _, None;
     validateDecreaseLiquidity := λ _, None;
     uniswap_api := λ _ _, Rejected e;
     signCeloTx := signCeloTx (example_uniswap false);
     signEthereumTx := signEthereumTx (example_uniswap false);
     CREATE_POOL := CREATE_POOL (example_uniswap false);
     MINT_POSITION := MINT_POSITION (example_uniswap false);
     REMOVE_POSITION := REMOVE_POSITION (example_uniswap false) |}.

Definition example_read_position : ReadPositionInput :=
  {| rdi_protocol := POLYGON; rdi_tokenId := JStr "1234" |}.

(** ** Reasoning about logs *)

Lemma trace_bind {A B} (m : M A) (f : A → M B) :
  trace (m ≫= f) =
  match outcome m with
  | Ok a => trace m ++ trace (f a)
  | Throw _ => trace m
  end.
Proof. destruct m as [t [a|e]]; reflexivity. Qed.

Lemma outcome_bind {A B} (m : M A) (f : A → M B) :
  outcome (m ≫= f) =
  match outcome m with
  | Ok a => outcome (f a)
  | Throw e => Throw e
  end.
Proof. destruct m as [t [a|e]]; reflexivity. Qed.

Lemma trace_try_catch {A} (m : M A) h : trace (try_catch m h) = trace m.
Proof. destruct m as [t [a|e]]; reflexivity. Qed.

Lemma outcome_try_catch {A} (m : M A) h :
  outcome (try_catch m h) =
  match outcome m with Ok a => Ok a | Throw e => Throw (h e) end.
Proof. destruct m as [t [a|e]]; reflexivity. Qed.

Lemma trace_request {A} ev (r : result A) : trace (request ev r) = [ev].
Proof. destruct r; reflexivity. Qed.

Lemma outcome_request {A} ev (r : result A) : outcome (request ev r) = r.
Proof. destruct r; reflexivity. Qed.

Lemma trace_validated v : trace (validated v) = [].
Proof. destruct v; reflexivity. Qed.

Lemma outcome_validated v :
  outcome (validated v) =
  match v with Some e => Throw e | None => Ok tt end.
Proof. destruct v; reflexivity. Qed.

Lemma trace_lift {A} (r : result A) : trace (lift r) = [].
Proof. reflexivity. Qed.

Lemma outcome_lift {A} (r : result A) : outcome (lift r) = r.
Proof. reflexivity. Qed.

Lemma trace_throw {A} e : trace (@throw A e) = [].
Proof. reflexivity. Qed.

Lemma outcome_throw {A} e : outcome (@throw A e) = Throw e.
Proof. reflexivity. Qed.

Lemma trace_mret {A} (a : A) : trace (mret a : M A) = [].
Proof. reflexivity. Qed.

Lemma outcome_mret {A} (a : A) : outcome (mret a : M A) = Ok a.
Proof. reflexivity. Qed.

Lemma trace_pair {A} t (r : result A) : trace (t, r) = t.
Proof. reflexivity. Qed.

Lemma outcome_pair {A} t (r : result A) : outcome (t, r) = r.
Proof. reflexivity. Qed.

Lemma trace_build env call : trace (build env call) = [Build call].
Proof. apply trace_request. Qed.

Lemma outcome_build env call : outcome (build env call) = builder env call.
Proof. apply outcome_request. Qed.

Lemma trace_getWalletInfo env a p :
  trace (getWalletInfo env a p) = [ReqWalletInfo a p].
Proof. apply trace_request. Qed.

Lemma outcome_getWalletInfo env a p :
  outcome (getWalletInfo env a p) = wallet_info_api env a p.
Proof. apply outcome_request. Qed.

Section FeeInfo.
Context (env : Env).

Lemma trace_getFee a p : trace (getFee env a p) = [ReqFee (fee_data a) p].
Proof. unfold getFee. by rewrite trace_try_catch, trace_request. Qed.

Lemma outcome_getFee a p :
  outcome (getFee env a p) =
  match fee_api env (fee_data a) p with
  | Ok q => Ok q
  | Throw e => Throw (handleRequestError env e)
  end.
Proof. unfold getFee. by rewrite outcome_try_catch, outcome_request. Qed.

(** The two requests of [_getFeeInfo] are in its log whatever happens. *)
Lemma trace__getFeeInfo a :
  trace (_getFeeInfo env a) =
  [ReqWalletInfo (w_address (fi_wallet a)) (fi_protocol a);
   ReqFee (fee_data (fee_info_request a)) (fi_protocol a)].
Proof.
  unfold _getFeeInfo. rewrite trace_bind.
  unfold promise_all2, getWalletInfo, outcome, trace; cbn [fst snd].
  fold (trace (getFee env (fee_info_request a) (fi_protocol a))).
  fold (outcome (getFee env (fee_info_request a) (fi_protocol a))).
  rewrite trace_getFee, outcome_getFee.
  destruct (wallet_info_api env _ _), (fee_api env _ _); cbn;
    repeat case_match; reflexivity.
Qed.

(** When [_getFeeInfo] returns, both answers arrived and the fee is the
    quotation with the truthy fields of the override written over it. *)
Lemma outcome__getFeeInfo a info f :
  outcome (_getFeeInfo env a) = Ok (info, f) →
  wallet_info_api env (w_address (fi_wallet a)) (fi_protocol a) = Ok info ∧
  ∃ quote,
    fee_api env (fee_data (fee_info_request a)) (fi_protocol a) = Ok quote ∧
    gas f = (if truthy (fee_and_gas (fi_fee a))
             then fee_and_gas (fi_fee a) else gas quote) ∧
    gasPrice f = (if truthy (fee_and_gasPrice (fi_fee a))
                  then fee_and_gasPrice (fi_fee a) else gasPrice quote) ∧
    chainId f = chainId quote ∧
    estimateValue f = estimateValue quote.
Proof.
  unfold _getFeeInfo. rewrite outcome_bind.
  unfold promise_all2, getWalletInfo, outcome; cbn [fst snd].
  fold (outcome (getFee env (fee_info_request a) (fi_protocol a))).
  rewrite outcome_getFee.
  destruct (wallet_info_api env _ _) as [i|?], (fee_api env _ _) as [q|?];
    cbn; try (repeat case_match; discriminate).
  intros [= <- <-]. split; [done|]. exists q. split; [done|].
  destruct (truthy (fee_and_gas (fi_fee a))),
           (truthy (fee_and_gasPrice (fi_fee a))); done.
Qed.

(** And it does return as soon as both requests are answered. *)
Lemma _getFeeInfo_returns a info quote :
  wallet_info_api env (w_address (fi_wallet a)) (fi_protocol a) = Ok info →
  fee_api env (fee_data (fee_info_request a)) (fi_protocol a) = Ok quote →
  ∃ f, outcome (_getFeeInfo env a) = Ok (info, f).
Proof.
  intros Hi Hq. unfold _getFeeInfo. rewrite outcome_bind.
  unfold promise_all2, getWalletInfo, outcome; cbn [fst snd].
  fold (outcome (getFee env (fee_info_request a) (fi_protocol a))).
  rewrite outcome_getFee, Hi, Hq. cbn. eauto.
Qed.
End FeeInfo.

Create Rewrite HintDb log.
#[export] Hint Rewrite @trace_bind @outcome_bind trace_validated
  outcome_validated @trace_lift @outcome_lift @trace_throw @outcome_throw
  @trace_mret @outcome_mret trace_build outcome_build trace_getWalletInfo
  outcome_getWalletInfo trace_getFee outcome_getFee trace__getFeeInfo
  @trace_request @outcome_request @trace_try_catch @outcome_try_catch
  @trace_pair @outcome_pair : log.

(** Run a construction on paper: split the log at each bind and take the
    two outcomes of what ran first. *)
Ltac log_simpl :=
  repeat progress (autorewrite with log;
                   cbn [app negb loop_items for_fold for_each length_is_zero]).

Ltac log_cases :=
  repeat (log_simpl;
          match goal with
          | |- context [match ?v with Some _ => Throw _ | None => _ end] =>
              destruct v
          | |- context [match outcome ?m with Ok _ => _ | Throw _ => _ end] =>
              destruct (outcome m) eqn:?
          | |- context [match ?r with Ok _ => _ | Throw _ => _ end] =>
              destruct r eqn:?
          | |- context [if negb (truthy ?v) then _ else _] =>
              destruct (negb (truthy v))
          | |- context [match ?p with (_, _) => _ end] => destruct p
          end);
  log_simpl.

(** Membership of an event in a log that is written out. *)
Ltac in_log H :=
  apply list_elem_of_In in H; cbn [In app] in H;
  repeat (destruct H as [H|H]; [try discriminate H|]);
  try contradiction.

(** ** Account chains: the fee override *)

(** A builder call in the log of an account-chain construction comes after
    [_getFeeInfo] returned and carries its fee. *)
Lemma account_chain_build env config x call :
  Build call ∈ trace (construct env config x) →
  ∃ a info f,
    fi_fee a = fee_override x ∧
    outcome (_getFeeInfo env a) = Ok (info, f) ∧
    ReqFee (fee_data (fee_info_request a)) (fi_protocol a)
      ∈ trace (construct env config x) ∧
    built_fee call = Some f.
Proof.
  destruct x as [i|i|i|i|i|i|i]; cbn [construct fee_override];
    unfold createCeloTransferTransaction, createEthereumTransferTransaction,
      createBscTransferTransaction, createAvaxCChainTransferTransaction,
      ethereum_family_transfer, createSmartContractTransaction,
      createSmartContractDeployTransaction, createTokenDeployTransaction;
    autorewrite with log;
    (match goal with
     | |- context [match ?v with Some _ => Throw _ | None => _ end] =>
         destruct v
     end);
    cbn [app]; try (intros Hin; in_log Hin; fail);
    (match goal with
     | |- context [outcome (_getFeeInfo ?e ?a)] =>
         destruct (outcome (_getFeeInfo e a)) as [[info f]|?] eqn:E;
         [|intros Hin; in_log Hin; fail];
         intros Hin; exists a, info, f
     end);
    (split; [reflexivity|]); (split; [exact E|]);
    (split; [cbn [app]; repeat constructor|]);
    revert Hin;
    try (destruct (bool_decide (_ = CELO)); [|destruct (ethereum_family _)]);
    log_cases; intros Hin; in_log Hin; by simplify_eq.
Qed.




(** ** Ripple: the validity window *)



(** ** Solana: the envelope of a mint *)

(** C9.  An envelope returned by the Solana token mint construction has the
    type tag [SOLANA_TOKEN_BURN], the tag of every envelope the token burn
    construction returns: the tag does not tell a mint from a burn. *)
Theorem solana_mint_tagged_as_burn env input tx :
  outcome (createSolanaTokenMintTransaction env input) = Ok tx →
  type tx = SOLANA_TOKEN_BURN ∧
  protocol tx = SOLANA ∧
  ∀ input' tx',
    outcome (createSolanaTokenBurnTransaction env input') = Ok tx' →
    type tx' = type tx.
Proof.
  unfold createSolanaTokenMintTransaction, createSolanaTokenBurnTransaction,
    latest_blockhash.
  log_cases; intros [= <-]. split; [done|]. split; [done|].
  intros input' tx'. log_cases; by intros [= <-].
Qed.

(** The mint construction does return: a validated input, a latest block
    and a builder that signs give the envelope. *)
Lemma solana_mint_returns env input blockhash signed :
  validateSolanaTransferTransaction env input = None →
  latest_block_api env SOLANA = Ok blockhash →
  builder env (mintSolanaToken
                 {| sm_from := sti_wallet input; sm_token := sti_token input;
                    sm_to := sti_destination input;
                    sm_amount := sti_amount input;
                    sm_latestBlock := blockhash |}) = Ok signed →
  createSolanaTokenMintTransaction env input =
  ([ReqLatestBlock SOLANA;
    Build (mintSolanaToken
             {| sm_from := sti_wallet input; sm_token := sti_token input;
                sm_to := sti_destination input;
                sm_amount := sti_amount input;
                sm_latestBlock := blockhash |})],
   Ok {| signedTx := signed; protocol := SOLANA; type := SOLANA_TOKEN_BURN |}).
Proof.
  intros Hv Hb Hs. unfold createSolanaTokenMintTransaction, latest_blockhash,
    build, request, validated, emit, lift.
  rewrite Hv. cbn. rewrite Hb. cbn. rewrite Hs. reflexivity.
Qed.

Lemma solana_mint_tagged_as_burn_witness :
  ∃ tx,
    outcome (createSolanaTokenMintTransaction account_env
               example_solana_input) = Ok tx ∧
    type tx = SOLANA_TOKEN_BURN ∧
    protocol tx = SOLANA ∧
    ∀ input' tx',
      outcome (createSolanaTokenBurnTransaction account_env input') = Ok tx' →
      type tx' = type tx.
Proof.
  eexists. split; [vm_compute; reflexivity|].
  apply (solana_mint_tagged_as_burn account_env example_solana_input).
  vm_compute; reflexivity.
Defined.

(** ** Smart-contract deploy on a protocol that has no builder *)




(** ** Celo: what a memo does to a native transfer *)



(** ** Output discovery that is not answered with an array *)




(** ** Bitcoin: an explicit input that is not in its transaction *)

Lemma trace_getTransactionByHash env h p :
  trace (getTransactionByHash env h p) = [ReqTransactionByHash h p].
Proof.
  unfold getTransactionByHash. by rewrite trace_try_catch, trace_request.
Qed.

Lemma outcome_getTransactionByHash env h p :
  outcome (getTransactionByHash env h p) =
  match transaction_api env h p with
  | Ok t => Ok t
  | Throw e => Throw (handleRequestError env e)
  end.
Proof.
  unfold getTransactionByHash. by rewrite outcome_try_catch, outcome_request.
Qed.

#[export] Hint Rewrite trace_getTransactionByHash
  outcome_getTransactionByHash : log.

(** Resolving an explicit input is one transaction lookup. *)
Lemma trace_resolve_input env i :
  trace (resolve_input env i) = [ReqTransactionByHash (in_txHash i) BITCOIN].
Proof.
  unfold resolve_input. log_cases; repeat case_match; log_cases; reflexivity.
Qed.

Lemma resolve_inputs_only_looks_up env l :
  Forall (λ ev, is_transaction_request ev = true)
    (trace (for_each (resolve_input env) l)).
Proof.
  induction l as [|i l IH]; [constructor|].
  cbn [for_each]. rewrite trace_bind, trace_resolve_input.
  destruct (outcome (resolve_input env i)); [|by repeat constructor].
  rewrite trace_bind.
  destruct (outcome (for_each (resolve_input env) l));
    rewrite ?trace_mret, ?app_nil_r; by constructor.
Qed.

(** With every transaction resolved, an input whose index is not in the
    output list of its transaction makes the loop throw. *)
Lemma resolve_inputs_invalid env l :
  Forall (λ i, is_Some (referenced_output env i)) l →
  Exists (λ i, referenced_output env i = Some None) l →
  ∃ i, i ∈ l ∧
       outcome (for_each (resolve_input env) l)
         = Throw (invalid_utxo_hash (in_txHash i)).
Proof.
  induction l as [|i l IH]; intros Hall Hex; [by apply Exists_nil in Hex|].
  apply Forall_cons in Hall as [[out Hi] Hall].
  cbn [for_each]. rewrite outcome_bind. unfold resolve_input at 1.
  unfold referenced_output in Hi, Hex.
  rewrite outcome_bind, outcome_getTransactionByHash.
  destruct (transaction_api env (in_txHash i) BITCOIN) as [t|] eqn:Ht;
    [|done].
  destruct (vout t) as [outs|] eqn:Hvout; [|done].
  destruct (negb (truthy (default JUndefined (js_nth outs (in_index i)))))
    eqn:Hfalsy.
  - exists i. split; [left|reflexivity].
  - apply Exists_cons in Hex as [Hbad|Hex].
    + rewrite Ht, Hvout in Hbad. injection Hbad as Hbad.
      by rewrite Hbad in Hfalsy.
    + destruct (IH Hall Hex) as (j & Hj & Hout).
      exists j. split; [by right|].
      log_simpl. rewrite Hout. reflexivity.
Qed.



(** ** Hathor: nothing to spend *)

Lemma trace_getUTXOs env a p : trace (getUTXOs env a p) = [ReqUTXOs a p].
Proof.
  unfold getUTXOs. rewrite trace_try_catch, trace_bind, trace_request.
  rewrite outcome_request. by destruct (utxos_api env a p).
Qed.

Lemma outcome_getUTXOs env a p :
  outcome (getUTXOs env a p) =
  match utxos_api env a p with
  | Ok (BodyArray items) => Ok (UtxoArray items)
  | Ok (BodyOther _) => Ok UtxoFalse
  | Throw e => Throw (handleRequestError env e)
  end.
Proof.
  unfold getUTXOs. rewrite outcome_try_catch, outcome_bind, outcome_request.
  by destruct (utxos_api env a p) as [[]|].
Qed.

#[export] Hint Rewrite trace_getUTXOs outcome_getUTXOs : log.




(** ** Hathor: the selection of a melt *)

(** One turn of the loop of the token flow on a candidate whose output is
    known, and the whole loop on such candidates. *)
Lemma token_input_resolved env melt amount wallet s u o :
  hathor_output_of env u = Some o →
  token_input env melt amount wallet s u =
  ([ReqTransactionByHash (txHash u) HATHOR],
   Ok (select_output melt amount wallet s u o)).
Proof.
  unfold hathor_output_of, output_at, token_input, getTransactionByHash,
    request, hathor_output.
  destruct (transaction_api env (txHash u) HATHOR) as [t|]; [|done].
  cbn. destruct (tx t) as [body|]; [|done].
  cbn. intros ->. reflexivity.
Qed.

Lemma token_loop_resolved env melt amount wallet us os s :
  Forall2 (λ u o, hathor_output_of env u = Some o) us os →
  for_fold (token_input env melt amount wallet) s us =
  (map (λ u, ReqTransactionByHash (txHash u) HATHOR) us,
   Ok (foldl (λ s uo, select_output melt amount wallet s uo.1 uo.2) s
         (zip us os))).
Proof.
  intros Hall. revert s.
  induction Hall as [|u o us os Hu Hall IH]; intros s; [reflexivity|].
  cbn [for_fold zip zip_with foldl map].
  rewrite (token_input_resolved _ _ _ _ _ _ _ Hu). cbn. rewrite IH.
  reflexivity.
Qed.

(** One turn of a melt, by the kind of the output. *)
Lemma select_melt_cases amount wallet s u o :
  select_output true amount wallet s u o =
  if ordinary o
  then (if inputSum s <? amount
        then push wallet u (add_value (ho_value o) s) else s)
  else if melt_authority o then push wallet u s else s.
Proof. reflexivity. Qed.

Lemma melt_authority_not_ordinary o :
  melt_authority o = true → ordinary o = false.
Proof.
  unfold melt_authority, ordinary, native_or_authority.
  intros [-> _]%andb_true_iff. by rewrite orb_true_r.
Qed.

(** What a melt selects among candidates with known outputs, starting from
    the selection [s]: the picked candidates are a sub-sequence of the
    candidates; each is an ordinary value output or a melt authority; every
    melt authority is picked; the ordinary ones are picked as long as the
    sum before them is below the amount, and their values are what is added
    to the sum. *)
Lemma melt_selection amount wallet cs s :
  ∃ picked,
    picked `sublist_of` cs ∧
    inputs (foldl (λ s uo, select_output true amount wallet s uo.1 uo.2) s cs)
      = inputs s ++ map (λ uo, token_input_of wallet uo.1) picked ∧
    inputSum (foldl (λ s uo, select_output true amount wallet s uo.1 uo.2) s cs)
      = inputSum s + sum_values (ordinary_of picked) ∧
    (∀ uo, uo ∈ picked → ordinary uo.2 = true ∨ melt_authority uo.2 = true) ∧
    (∀ uo, uo ∈ cs → melt_authority uo.2 = true → uo ∈ picked) ∧
    (∀ pre uo post,
       ordinary_of picked = pre ++ uo :: post →
       inputSum s + sum_values pre < amount) ∧
    (amount ≤ inputSum s + sum_values (ordinary_of picked) ∨
     ∀ uo, uo ∈ cs → ordinary uo.2 = true → uo ∈ picked).
Proof.
  revert s. induction cs as [|[u o] cs IH]; intros s.
  { exists []. cbn. rewrite app_nil_r, Z.add_0_r.
    split; [done|]. split; [done|]. split; [done|].
    split; [by intros uo Hin%elem_of_nil|].
    split; [by intros uo Hin%elem_of_nil|].
    split; [intros pre uo post Heq; by destruct pre|].
    right. by intros uo Hin%elem_of_nil. }
  cbn [foldl fst snd].
  destruct (IH (select_output true amount wallet s u o))
    as (picked & Hsub & Hin & Hsum & Hkind & Hauth & Hgreedy & Hstop).
  rewrite Hin, Hsum. clear Hin Hsum IH.
  rewrite select_melt_cases in *.
  destruct (ordinary o) eqn:Hord;
    [destruct (inputSum s <? amount) eqn:Hlt
    |destruct (melt_authority o) eqn:Hma].
  - (* an ordinary output, taken *)
    apply Z.ltb_lt in Hlt. exists ((u, o) :: picked).
    unfold ordinary_of in *. cbn [List.filter map fst snd push add_value inputs inputSum] in *.
    rewrite Hord. cbn [sum_values foldr snd].
    fold (sum_values (List.filter (λ uo, ordinary uo.2) picked)).
    split; [by apply sublist_skip|].
    split; [by rewrite <- app_assoc|].
    split; [lia|].
    split; [intros uo [->|Hel]%elem_of_cons; [by left|by apply Hkind]|].
    split; [intros uo [->|Hel]%elem_of_cons Ha; [by left|right; by apply Hauth]|].
    split.
    + intros pre uo post Heq. destruct pre as [|x pre].
      * cbn. lia.
      * injection Heq as <- Heq. specialize (Hgreedy _ _ _ Heq).
        cbn [sum_values foldr snd]. fold (sum_values pre). lia.
    + destruct Hstop as [Hge|Hall]; [left; lia|].
      right. intros uo [->|Hel]%elem_of_cons Ho; [by left|].
      right. by apply Hall.
  - (* an ordinary output, not needed any more *)
    apply Z.ltb_ge in Hlt. exists picked.
    assert (ordinary_of picked = []) as Hnone.
    { destruct (ordinary_of picked) as [|x l] eqn:Hp; [done|].
      specialize (Hgreedy [] x l eq_refl). cbn in Hgreedy. lia. }
    split; [by apply sublist_cons|].
    split; [done|]. split; [done|]. split; [exact Hkind|].
    split.
    { intros uo [->|Hel]%elem_of_cons Ha; [|by apply Hauth].
      apply melt_authority_not_ordinary in Ha. cbn in Ha. congruence. }
    split; [exact Hgreedy|].
    left. rewrite Hnone. cbn. lia.
  - (* a melt authority *)
    exists ((u, o) :: picked).
    unfold ordinary_of in *. cbn [List.filter map fst snd push add_value inputs inputSum] in *.
    rewrite Hord.
    split; [by apply sublist_skip|].
    split; [by rewrite <- app_assoc|].
    split; [lia|].
    split; [intros uo [->|Hel]%elem_of_cons; [by right|by apply Hkind]|].
    split; [intros uo [->|Hel]%elem_of_cons Ha; [by left|right; by apply Hauth]|].
    split.
    + intros pre uo post Heq. specialize (Hgreedy _ _ _ Heq). lia.
    + destruct Hstop as [Hge|Hall]; [left; lia|].
      right. intros uo [->|Hel]%elem_of_cons Ho; [cbn in Ho; congruence|].
      right. by apply Hall.
  - (* any other output *)
    exists picked.
    split; [by apply sublist_cons|].
    split; [done|]. split; [done|]. split; [exact Hkind|].
    split; [intros uo [->|Hel]%elem_of_cons Ha;
            [cbn in Ha; congruence|by apply Hauth]|].
    split; [exact Hgreedy|].
    destruct Hstop as [Hge|Hall]; [by left|].
    right. intros uo [->|Hel]%elem_of_cons Ho;
      [cbn in Ho; congruence|by apply Hall].
Qed.




(** ** Cardano: one signature per signing payload *)

Lemma try_map_ok {A B} (f : A → result B) l ys :
  try_map f l = Ok ys → Forall2 (λ x y, f x = Ok y) l ys.
Proof.
  revert ys. induction l as [|x l IH]; intros ys; cbn.
  - intros [= <-]. constructor.
  - destruct (f x) as [y|] eqn:Hx; [|done].
    destruct (try_map f l) as [ys'|]; [|done].
    intros [= <-]. constructor; [done|by apply IH].
Qed.

Lemma try_map_throw {A B} (f : A → result B) l e :
  try_map f l = Throw e → ∃ x, x ∈ l ∧ f x = Throw e.
Proof.
  induction l as [|x l IH]; cbn; [done|].
  destruct (f x) as [y|e'] eqn:Hx.
  - destruct (try_map f l) as [ys'|e'']; [done|].
    intros [= <-]. destruct IH as (x' & Hin & Hx'); [done|].
    exists x'. split; [by right|done].
  - intros [= <-]. exists x. split; [by left|done].
Qed.

Lemma try_map_throws {A B} (f : A → result B) l x e :
  x ∈ l → f x = Throw e → ∃ e', try_map f l = Throw e'.
Proof.
  induction l as [|y l IH]; [by intros ?%elem_of_nil|].
  intros [->|Hin]%elem_of_cons Hx; cbn.
  - rewrite Hx. eauto.
  - destruct (f y); [|eauto].
    destruct (IH Hin Hx) as [e' ->]. eauto.
Qed.

Section Signing.
Context (env : Env) (x : CardanoIntent).

Lemma signatures_ok f l sigs :
  signs_with_held_keys env x f →
  try_map f l = Ok sigs →
  length sigs = length l ∧ Forall2 (signed_with_held_key env x) l sigs.
Proof.
  intros Hf Hmap%try_map_ok. split; [by erewrite <- Forall2_length|].
  eapply Forall2_impl; [exact Hmap|]. intros p s. apply (signs_ok env x f Hf).
Qed.

Lemma signatures_no_key f l p :
  signs_with_held_keys env x f →
  p ∈ l → no_key_held x p →
  ∃ e, try_map f l = Throw e ∧
       (e = undefined_property "publicKey" ∨
        ∃ q key, q ∈ l ∧
                 make_vkey_witness env key (sp_hex_bytes q) = Throw e).
Proof.
  intros Hf Hin Hno.
  destruct (try_map_throws f l p _ Hin (signs_no_key env x f Hf p Hno))
    as [e He].
  exists e. split; [exact He|].
  apply try_map_throw in He as (q & Hq & Hthrow).
  destruct (signs_throw env x f Hf q e Hthrow) as [->|[key Hkey]]; [by left|].
  right. eauto.
Qed.
End Signing.

(** The wallet flow signs every payload with the one key it holds. *)
Lemma wallet_signature_signs env i key :
  from_128_xprv env (spendingPrivateKey (cwi_wallet i)) = Ok key →
  signs_with_held_keys env (CardanoFromWallet i)
    (wallet_signature env
       {[ cw_address (cwi_wallet i) :=
            {| wk_secretKey := secret_slice (spendingPrivateKey (cwi_wallet i));
               wk_publicKey := public_slice (spendingPrivateKey (cwi_wallet i)) |} ]}
       key).
Proof.
  intros Hkey. split; unfold wallet_signature, signature_of.
  - intros p s.
    destruct (decide (cw_address (cwi_wallet i) = account_identifier_address p))
      as [Heq|Hne].
    + rewrite <- Heq, lookup_singleton_eq. cbn [wk_publicKey].
      destruct (make_vkey_witness env key (sp_hex_bytes p)) as [h|] eqn:Hh;
        [|done].
      intros [= <-]. split; [done|].
      exists (spendingPrivateKey (cwi_wallet i)), key.
      rewrite <- Heq. repeat split; try done. by left.
    + by rewrite lookup_singleton_ne.
  - intros p Hno. rewrite lookup_singleton_ne; [done|].
    intros Heq. apply (Hno (spendingPrivateKey (cwi_wallet i))).
    rewrite <- Heq. by left.
  - intros p e.
    destruct (_ !! account_identifier_address p) as [entry|]; [|by left; congruence].
    destruct (make_vkey_witness env key (sp_hex_bytes p)) eqn:Hh; [done|].
    intros [= <-]. right. eauto.
Qed.

Lemma trace_suggested_fee_value m : trace (suggested_fee_value m) = [].
Proof. unfold suggested_fee_value. by destruct (suggested_fee m). Qed.

#[export] Hint Rewrite trace_suggested_fee_value : log.

Lemma cardano_from_wallet_signatures env i operations metadata response :
  ReqPayloads operations metadata
    ∈ trace (createCardanoTransferTransactionFromWallet env i) →
  payloads_api env operations metadata = Ok response →
  (∀ unsigned sigs,
     ReqCombine unsigned sigs
       ∈ trace (createCardanoTransferTransactionFromWallet env i) →
     unsigned = unsigned_transaction response ∧
     length sigs = length (payloads response) ∧
     Forall2 (signed_with_held_key env (CardanoFromWallet i))
       (payloads response) sigs) ∧
  (∀ p,
     p ∈ payloads response →
     no_key_held (CardanoFromWallet i) p →
     ∃ e,
       outcome (createCardanoTransferTransactionFromWallet env i)
         = Throw (handleRequestError env e) ∧
       (∀ unsigned sigs,
          ReqCombine unsigned sigs
            ∉ trace (createCardanoTransferTransactionFromWallet env i)) ∧
       (e = undefined_property "publicKey" ∨
        ∃ q key, q ∈ payloads response ∧
                 make_vkey_witness env key (sp_hex_bytes q) = Throw e)).
Proof.
  unfold createCardanoTransferTransactionFromWallet.
  log_simpl.
  destruct (from_128_xprv env (spendingPrivateKey (cwi_wallet i)))
    as [key|] eqn:Hkey; log_simpl; [|intros Hin; in_log Hin].
  pose proof (wallet_signature_signs env i key Hkey) as Hsigns.
  revert Hsigns.
  generalize (wallet_signature env
       {[ cw_address (cwi_wallet i) :=
            {| wk_secretKey := secret_slice (spendingPrivateKey (cwi_wallet i));
               wk_publicKey := public_slice (spendingPrivateKey (cwi_wallet i)) |} ]}
       key) as f.
  intros f Hsigns.
  log_cases.
  all: try (intros Hin; in_log Hin; fail).
  all: intros Hin Hresp; in_log Hin; simplify_eq.
  all: try congruence.
  all: match goal with
       | H : payloads_api _ _ _ = Ok ?r |- _ =>
           tryif constr_eq r response then fail
           else (assert (r = response) as -> by congruence)
       end.
  all: split;
    [ intros unsigned sigs Hc; in_log Hc; simplify_eq;
      try (split; [reflexivity|]; by apply (signatures_ok env _ f))
    | intros p Hp Hno;
      destruct (signatures_no_key env _ f _ p Hsigns Hp Hno)
        as (err & He & Hwhy);
      try congruence ].
  exists err. split; [congruence|].
  split; [intros unsigned sigs Hc; in_log Hc|exact Hwhy].
Qed.

(** *** The flow from explicit inputs *)

Lemma promise_all_ok {A} race (ms : list (M A)) found :
  outcome (promise_all race ms) = Ok found →
  Forall2 (λ m r, outcome m = Ok r) ms found.
Proof.
  unfold promise_all, outcome. cbn [snd].
  destruct (rejections ms) as [|e es] eqn:Hrej; [|done].
  intros [= <-]. induction ms as [|m ms IH]; [constructor|].
  cbn in Hrej |- *. destruct (m.2) as [a|] eqn:Hm; [|done].
  constructor; [done|by apply IH].
Qed.

Lemma trace_promise_all {A} race (ms : list (M A)) :
  trace (promise_all race ms) = concat (map trace ms).
Proof. reflexivity. Qed.

Lemma input_callback_only_discovers env c ev :
  ev ∈ trace (input_callback env c) → is_utxos_request ev = true.
Proof.
  unfold input_callback. log_cases; repeat case_match; log_simpl;
    intros Hin; in_log Hin; by subst.
Qed.

Lemma input_callbacks_only_discover env race l ev :
  ev ∈ trace (promise_all race (map (input_callback env) l)) →
  is_utxos_request ev = true.
Proof.
  rewrite trace_promise_all.
  induction l as [|c l IH]; cbn; [by intros ?%elem_of_nil|].
  intros [Hin|Hin]%elem_of_app; [|by apply IH].
  by eapply input_callback_only_discovers.
Qed.

Lemma input_callback_ok env c r :
  outcome (input_callback env c) = Ok r →
  from_128_xprv env (ci_privateKey c) = Ok (ik_secretKey r.1) ∧
  ik_publicKey r.1 = public_slice (ci_privateKey c).
Proof.
  unfold input_callback. log_cases; repeat case_match; log_simpl;
    try discriminate.
  by intros [= <-].
Qed.

Lemma mapper_of_lookup entries a e :
  mapper_of entries !! a = Some e → (a, e) ∈ entries.
Proof.
  unfold mapper_of.
  assert (∀ m : gmap string InputKey,
            foldl (λ m e, <[e.1 := e.2]> m) m entries !! a = Some e →
            (a, e) ∈ entries ∨ m !! a = Some e) as Hgen.
  { induction entries as [|[a' e'] entries IH]; intros m; cbn [foldl];
      [by right|].
    intros [Hin|Hm]%IH; [left; by right|].
    cbn in Hm. rewrite lookup_insert in Hm.
    case_decide; [left; simplify_eq; by left|by right]. }
  intros [Hin|Hm]%Hgen; [done|]. by rewrite lookup_empty in Hm.
Qed.

Lemma elem_of_zip_callbacks env l found a e :
  Forall2 (λ c r, outcome (input_callback env c) = Ok r) l found →
  (a, e) ∈ zip (map ci_address l) (map fst found) →
  ∃ c, c ∈ l ∧ a = ci_address c ∧
       from_128_xprv env (ci_privateKey c) = Ok (ik_secretKey e) ∧
       ik_publicKey e = public_slice (ci_privateKey c).
Proof.
  induction 1 as [|c r l found Hc Hall IH]; cbn;
    [by intros ?%elem_of_nil|].
  intros [Heq|Hin]%elem_of_cons.
  - injection Heq as -> ->. exists c. split; [by left|]. split; [done|].
    by apply input_callback_ok.
  - destruct (IH Hin) as (c' & Hc' & Hrest). exists c'. split; [by right|done].
Qed.

(** The UTXO flow signs every payload with the key of an input of the
    address the payload names. *)
Lemma input_signature_signs env i found :
  Forall2 (λ c r, outcome (input_callback env c) = Ok r) (cui_inputs i) found →
  signs_with_held_keys env (CardanoFromUTXO i)
    (input_signature env
       (mapper_of (zip (map ci_address (cui_inputs i)) (map fst found)))).
Proof.
  intros Hall. split; unfold input_signature, signature_of.
  - intros p s.
    destruct (mapper_of _ !! account_identifier_address p) as [entry|] eqn:He;
      [|done].
    apply mapper_of_lookup in He.
    destruct (elem_of_zip_callbacks _ _ _ _ _ Hall He)
      as (c & Hc & Haddr & Hkey & Hpub).
    destruct (make_vkey_witness env (ik_secretKey entry) (sp_hex_bytes p))
      as [h|] eqn:Hh; [|done].
    intros [= <-]. split; [done|].
    exists (ci_privateKey c), (ik_secretKey entry).
    split; [|done]. cbn [held_keys]. rewrite Haddr.
    apply (list_elem_of_fmap_2 (λ c, (ci_address c, ci_privateKey c))), Hc.
  - intros p Hno.
    destruct (mapper_of _ !! account_identifier_address p) as [entry|] eqn:He;
      [|done].
    apply mapper_of_lookup in He.
    destruct (elem_of_zip_callbacks _ _ _ _ _ Hall He)
      as (c & Hc & Haddr & _).
    exfalso. apply (Hno (ci_privateKey c)). cbn [held_keys]. rewrite Haddr.
    apply (list_elem_of_fmap_2 (λ c, (ci_address c, ci_privateKey c))), Hc.
  - intros p e.
    destruct (_ !! account_identifier_address p) as [entry|];
      [|by left; congruence].
    destruct (make_vkey_witness env (ik_secretKey entry) (sp_hex_bytes p))
      eqn:Hh; [done|].
    intros [= <-]. right. eauto.
Qed.

Lemma cardano_from_utxo_signatures env i operations metadata response :
  ReqPayloads operations metadata
    ∈ trace (createCardanoTransferTransactionFromUTXO env i) →
  payloads_api env operations metadata = Ok response →
  (∀ unsigned sigs,
     ReqCombine unsigned sigs
       ∈ trace (createCardanoTransferTransactionFromUTXO env i) →
     unsigned = unsigned_transaction response ∧
     length sigs = length (payloads response) ∧
     Forall2 (signed_with_held_key env (CardanoFromUTXO i))
       (payloads response) sigs) ∧
  (∀ p,
     p ∈ payloads response →
     no_key_held (CardanoFromUTXO i) p →
     ∃ e,
       outcome (createCardanoTransferTransactionFromUTXO env i)
         = Throw (handleRequestError env e) ∧
       (∀ unsigned sigs,
          ReqCombine unsigned sigs
            ∉ trace (createCardanoTransferTransactionFromUTXO env i)) ∧
       (e = undefined_property "publicKey" ∨
        ∃ q key, q ∈ payloads response ∧
                 make_vkey_witness env key (sp_hex_bytes q) = Throw e)).
Proof.
  unfold createCardanoTransferTransactionFromUTXO.
  log_simpl.
  pose proof (input_callbacks_only_discover env (race env) (cui_inputs i))
    as Hdiscover.
  destruct (outcome (promise_all (race env)
                       (map (input_callback env) (cui_inputs i))))
    as [found|] eqn:Hfound;
    [|intros Hin%Hdiscover; discriminate Hin].
  apply promise_all_ok, Forall2_fmap_l in Hfound.
  pose proof (input_signature_signs env i found Hfound) as Hsigns.
  revert Hsigns.
  generalize (input_signature env
       (mapper_of (zip (map ci_address (cui_inputs i)) (map fst found)))) as f.
  intros f Hsigns.
  generalize dependent (trace (promise_all (race env)
                                 (map (input_callback env) (cui_inputs i)))).
  intros discovery Hdiscover.
  assert (∀ ev l, ev ∈ discovery ++ l → is_utxos_request ev = false → ev ∈ l)
    as Hrest.
  { intros ev l [Hd%Hdiscover|Hl]%elem_of_app Hev; [congruence|done]. }
  destruct (negb (length (concat (map snd found)) =? length (cui_inputs i))%nat);
    log_cases.
  all: intros Hin Hresp; apply Hrest in Hin; [|reflexivity].
  all: try (in_log Hin; fail).
  all: in_log Hin; simplify_eq.
  all: try congruence.
  all: match goal with
       | H : payloads_api _ _ _ = Ok ?r |- _ =>
           tryif constr_eq r response then fail
           else (assert (r = response) as -> by congruence)
       end.
  all: split;
    [ intros unsigned sigs Hc; apply Hrest in Hc; [|reflexivity];
      in_log Hc; simplify_eq;
      try (split; [reflexivity|]; by apply (signatures_ok env _ f))
    | intros p Hp Hno;
      destruct (signatures_no_key env _ f _ p Hsigns Hp Hno)
        as (err & He & Hwhy);
      try congruence ].
  exists err. split; [congruence|].
  split; [|exact Hwhy].
  intros unsigned sigs Hc. apply Hrest in Hc; [|reflexivity]. in_log Hc.
Qed.



(** ** Every construction: validation first, the builder last *)

(** X1.  A construction whose validator refuses the input throws the
    validator's exception as it is, with nothing logged: no request has gone
    out and no builder has been called.  This holds for the account-chain and
    Ripple constructions, the Bitcoin transfer, the four Hathor constructions
    and the Solana token burn and mint. *)
Theorem rejected_input_reaches_nothing env config services c e :
  validation env services c = Some e →
  run env config services c = ([], Throw e).
Proof.
  destruct c as [[]|[]| |[]| | | |]; cbn [validation run construct
    ripple_construct hathor_construct hathor_validation
    account_chain_validation ripple_validation]; intros Hv;
    unfold createCeloTransferTransaction, createEthereumTransferTransaction,
      createBscTransferTransaction, createAvaxCChainTransferTransaction,
      ethereum_family_transfer, createSmartContractTransaction,
      createSmartContractDeployTransaction, createTokenDeployTransaction,
      createRippleTransferTransaction, createRippleTrustlineTransaction,
      createBitcoinTransferTransaction,
      createHathorTransferTransactionFromWallet,
      createHathorTokenTransactionFromWallet,
      createHathorTransferTransactionFromUTXO,
      createHathorTokenTransactionFromUTXO,
      createSolanaTokenBurnTransaction, createSolanaTokenMintTransaction;
    rewrite Hv; reflexivity.
Qed.

Lemma signing_call_app l l' :
  Forall (λ ev, is_request ev = true) l →
  signing_call (l ++ l') = signing_call l'.
Proof.
  induction 1 as [|ev l Hev Hl IH]; [reflexivity|].
  destruct ev; try discriminate Hev; cbn [app signing_call is_request is_build negb];
    exact IH.
Qed.

Lemma signing_call_Some l call :
  signing_call l = Some call →
  ∃ requests, l = requests ++ [Build call] ∧
              Forall (λ ev, is_request ev = true) requests.
Proof.
  induction l as [|ev l IH]; [discriminate|].
  destruct (is_request ev) eqn:Hev.
  - destruct ev; try discriminate Hev; cbn [signing_call is_request is_build negb];
      intros (requests & -> & Hall)%IH;
      eexists (_ :: requests); (split; [reflexivity|by constructor]).
  - destruct ev; try discriminate Hev. destruct l as [|ev' l].
    + intros [= ->]. exists []. split; [reflexivity|constructor].
    + cbn. discriminate.
Qed.

(** What a loop logs is what its turns log. *)
Lemma trace_for_each_Forall {A B} (P : Event → Prop) (f : A → M B) l :
  (∀ x, Forall P (trace (f x))) → Forall P (trace (for_each f l)).
Proof.
  intros Hf. induction l as [|x l IH]; [constructor|].
  cbn [for_each]. rewrite trace_bind.
  destruct (outcome (f x)); [|apply Hf].
  apply Forall_app. split; [apply Hf|].
  rewrite trace_bind. destruct (outcome (for_each f l)); [|exact IH].
  rewrite trace_mret, app_nil_r. exact IH.
Qed.

Lemma trace_for_fold_Forall {A S} (P : Event → Prop) (f : S → A → M S) s l :
  (∀ s x, Forall P (trace (f s x))) → Forall P (trace (for_fold f s l)).
Proof.
  intros Hf. revert s. induction l as [|x l IH]; intros s; [constructor|].
  cbn [for_fold]. rewrite trace_bind.
  destruct (outcome (f s x)); [|apply Hf].
  apply Forall_app. split; [apply Hf|apply IH].
Qed.

(** The turns of the loops over unspent outputs and inputs look a
    transaction up, and do nothing else that is logged. *)
Lemma trace_input_of_utxo env w u :
  trace (input_of_utxo env w u) = [ReqTransactionByHash (txHash u) BITCOIN].
Proof. unfold input_of_utxo. log_cases; reflexivity. Qed.

Lemma trace_transfer_input env w tokens inputs u :
  trace (transfer_input env w tokens inputs u) =
  if includes tokens (token u)
  then [ReqTransactionByHash (txHash u) HATHOR] else [].
Proof.
  unfold transfer_input, hathor_output.
  destruct (includes tokens (token u)); [|reflexivity].
  log_cases; repeat case_match; log_cases; reflexivity.
Qed.

Lemma trace_token_input env melt amount w s u :
  trace (token_input env melt amount w s u) =
  [ReqTransactionByHash (txHash u) HATHOR].
Proof.
  unfold token_input, hathor_output.
  log_cases; repeat case_match; log_cases; reflexivity.
Qed.

Lemma trace_spent_input env i :
  trace (spent_input env i) = [ReqTransactionByHash (hi_txHash i) HATHOR].
Proof.
  unfold spent_input, spent_output, token_of_output.
  log_cases; repeat case_match; log_cases; repeat case_match; log_cases;
    reflexivity.
Qed.

Lemma trace_input_value env melt s i :
  trace (input_value env melt s i) = [ReqTransactionByHash (ti_txHash i) HATHOR].
Proof.
  unfold input_value, hathor_output.
  log_cases; repeat case_match; log_cases; reflexivity.
Qed.

Lemma loops_only_look_up env :
  (∀ w l, Forall (λ ev, is_transaction_request ev = true)
            (trace (for_each (input_of_utxo env w) l))) ∧
  (∀ l, Forall (λ ev, is_transaction_request ev = true)
          (trace (for_each (resolve_input env) l))) ∧
  (∀ w tokens s l, Forall (λ ev, is_transaction_request ev = true)
                     (trace (for_fold (transfer_input env w tokens) s l))) ∧
  (∀ melt amount w s l, Forall (λ ev, is_transaction_request ev = true)
      (trace (for_fold (token_input env melt amount w) s l))) ∧
  (∀ l, Forall (λ ev, is_transaction_request ev = true)
          (trace (for_each (spent_input env) l))) ∧
  (∀ melt s l, Forall (λ ev, is_transaction_request ev = true)
                 (trace (for_fold (input_value env melt) s l))).
Proof.
  repeat split; intros.
  - apply trace_for_each_Forall. intros u. rewrite trace_input_of_utxo.
    by repeat constructor.
  - apply resolve_inputs_only_looks_up.
  - apply trace_for_fold_Forall. intros s' u. rewrite trace_transfer_input.
    case_match; by repeat constructor.
  - apply trace_for_fold_Forall. intros s' u. rewrite trace_token_input.
    by repeat constructor.
  - apply trace_for_each_Forall. intros u. rewrite trace_spent_input.
    by repeat constructor.
  - apply trace_for_fold_Forall. intros s' u. rewrite trace_input_value.
    by repeat constructor.
Qed.

Lemma transaction_requests_are_requests l :
  Forall (λ ev, is_transaction_request ev = true) l →
  Forall (λ ev, is_request ev = true) l.
Proof. intros H. eapply Forall_impl; [exact H|]. by intros []. Qed.

Ltac unfold_constructions :=
  unfold createCeloTransferTransaction, createEthereumTransferTransaction,
    createBscTransferTransaction, createAvaxCChainTransferTransaction,
    ethereum_family_transfer, createSmartContractTransaction,
    createSmartContractDeployTransaction, createTokenDeployTransaction,
    createRippleTransferTransaction, createRippleTrustlineTransaction,
    createBitcoinTransferTransaction,
    createHathorTransferTransactionFromWallet,
    createHathorTokenTransactionFromWallet,
    createHathorTransferTransactionFromUTXO,
    createHathorTokenTransactionFromUTXO,
    createSolanaTokenBurnTransaction, createSolanaTokenMintTransaction,
    flat_fee, latest_blockhash.

Lemma run_signing_call env config services c tx :
  outcome (run env config services c) = Ok tx →
  ∃ call,
    signing_call (trace (run env config services c)) = Some call ∧
    builder env call = Ok (signedTx tx).
Proof.
  destruct (loops_only_look_up env) as (L1 & L2 & L3 & L4 & L5 & L6).
  destruct c as [[]|[]|i|[]| | | |];
    cbn [run construct ripple_construct hathor_construct];
    unfold_constructions.
  all: try (destruct (bool_decide (_ = CELO)); [|destruct (ethereum_family _)]).
  all: try destruct (bti_wallet i) as [w|]; try destruct (bti_inputs i) as [l|].
  all: log_cases; try discriminate.
  all: try (intros [= <-]; eexists; split; [cbn; reflexivity|eassumption]).
  all: intros [= <-]; eexists; (split; [|eassumption]);
    rewrite ?app_nil_r; cbn [signing_call is_request is_build negb];
    try (rewrite signing_call_app
           by (apply transaction_requests_are_requests; auto);
         reflexivity).
  all: repeat match goal with
       | |- context [trace (if ?b then _ else _)] => destruct b
       | |- context [trace (match ?a with UtxoArray _ => _ | UtxoFalse => _ end)] =>
           destruct a
       end; log_simpl;
    rewrite signing_call_app
      by (apply transaction_requests_are_requests; auto);
    reflexivity.
Qed.

(** X2.  A construction that returns has called exactly one builder, as the
    last thing it did and after every remote request it made, and the
    [signedTx] of the envelope it returns is what that builder returned. *)
Theorem construction_returns_what_its_builder_signed
    env config services c tx :
  outcome (run env config services c) = Ok tx →
  ∃ requests call,
    trace (run env config services c) = requests ++ [Build call] ∧
    Forall (λ ev, is_request ev = true) requests ∧
    builder env call = Ok (signedTx tx).
Proof.
  intros (call & (requests & Hlog & Hreq)%signing_call_Some & Hsigned)
    %run_signing_call.
  by exists requests, call.
Qed.

(** An Ethereum transfer that the validator refuses. *)
Lemma rejected_input_reaches_nothing_witness :
  validation refusing_env example_services
    (OnAccountChain (EthereumTransfer (example_transfer None)))
    = Some invalid_params ∧
  run refusing_env example_config example_services
    (OnAccountChain (EthereumTransfer (example_transfer None)))
    = ([], Throw invalid_params).
Proof.
  split; [reflexivity|].
  apply rejected_input_reaches_nothing. reflexivity.
Defined.

(** The Ripple transfer of the examples: wallet info, fee quotation, then
    the builder, whose payload is returned. *)
Lemma construction_returns_what_its_builder_signed_witness :
  ∃ tx requests call,
    outcome (run ripple_env example_config example_services
               (OnRipple (RippleTransfer example_ripple_transfer))) = Ok tx ∧
    trace (run ripple_env example_config example_services
             (OnRipple (RippleTransfer example_ripple_transfer)))
      = requests ++ [Build call] ∧
    Forall (λ ev, is_request ev = true) requests ∧
    builder ripple_env call = Ok (signedTx tx).
Proof.
  eexists.
  destruct (construction_returns_what_its_builder_signed ripple_env
              example_config example_services
              (OnRipple (RippleTransfer example_ripple_transfer)) _ eq_refl)
    as (requests & call & H).
  exists requests, call. split; [reflexivity|exact H].
Defined.

(** ** The flat fee *)

Lemma fee_data_fee_of_type t : fee_data (fee_of_type t) = only_type t.
Proof. reflexivity. Qed.

Lemma build_not_in_lookups l call :
  Forall (λ ev, is_transaction_request ev = true) l → Build call ∈ l → False.
Proof.
  intros Hall Hin. rewrite Forall_forall in Hall.
  specialize (Hall _ Hin). discriminate Hall.
Qed.

Lemma lookups_are_not_fee_requests l :
  Forall (λ ev, is_transaction_request ev = true) l →
  Forall (λ ev, is_fee_request ev = false) l.
Proof. intros H. eapply Forall_impl; [exact H|]. by intros []. Qed.

(** Membership of an event in a log with loops in it: one case for each
    event that is written out, none for the lookups of a loop. *)
Ltac split_log H :=
  repeat (rewrite ?elem_of_cons, ?elem_of_app, ?elem_of_nil in H);
  try contradiction; decompose [or] H;
  try contradiction; try discriminate;
  try (exfalso; eapply build_not_in_lookups; [|eassumption]; auto; fail).

(** X3.  The Ripple transfer, the Ripple trustline and the Bitcoin transfer
    give their builder the fee of the caller when that fee is truthy, and then
    ask for no quotation; otherwise they ask [getFee] for the type of the
    operation and the builder gets the [estimateValue] of the answer. *)
Theorem flat_fee_is_the_callers_or_the_quoted
    env config services c fee t p call :
  flat_fee_of c = Some (fee, t, p) →
  Build call ∈ trace (run env config services c) →
  if truthy fee
  then built_flat_fee call = Some fee ∧
       Forall (λ ev, is_fee_request ev = false)
         (trace (run env config services c))
  else ∃ quote,
         ReqFee (only_type t) p ∈ trace (run env config services c) ∧
         fee_api env (only_type t) p = Ok quote ∧
         built_flat_fee call = Some (estimateValue quote).
Proof.
  destruct (loops_only_look_up env) as (L1 & L2 & _).
  destruct c as [|[i|i]|i| | | | |]; try discriminate;
    intros [= <- <- <-]; cbn [run ripple_construct]; unfold_constructions;
    rewrite ?fee_data_fee_of_type.
  3: destruct (bti_wallet i) as [w|]; [|destruct (bti_inputs i) as [l|]].
  all: match goal with |- context [truthy ?f] => destruct (truthy f) eqn:Hfee end;
    cbn [negb].
  all: log_cases; intros Hin; split_log Hin; simplify_eq.
  all: try (split; [reflexivity|];
            rewrite ?app_nil_r;
            repeat first [ apply Forall_nil_2
                         | apply Forall_cons; split; [reflexivity|]
                         | apply Forall_app; split
                         | apply lookups_are_not_fee_requests; auto ]; fail).
  all: repeat match goal with
       | H : context [match fee_api ?e ?d ?p with _ => _ end] |- _ =>
           destruct (fee_api e d p) eqn:?
       | H : outcome (mret _) = _ |- _ => rewrite outcome_mret in H
       end; simplify_eq; rewrite fee_data_fee_of_type in *.
  all: eexists; (split; [|split; [eassumption|reflexivity]]).
  all: rewrite ?app_nil_r, ?elem_of_cons, ?elem_of_app, ?elem_of_cons; eauto 10.
Qed.

(** The Ripple transfer of the examples names no fee: the quoted estimate
    is what the builder gets. *)
Lemma flat_fee_is_the_callers_or_the_quoted_witness :
  ∃ call quote,
    Build call
      ∈ trace (run ripple_env example_config example_services
                 (OnRipple (RippleTransfer example_ripple_transfer))) ∧
    ReqFee (only_type TRANSFER) RIPPLE
      ∈ trace (run ripple_env example_config example_services
                 (OnRipple (RippleTransfer example_ripple_transfer))) ∧
    fee_api ripple_env (only_type TRANSFER) RIPPLE = Ok quote ∧
    built_flat_fee call = Some (estimateValue quote).
Proof.
  assert (∃ call, Build call
            ∈ trace (run ripple_env example_config example_services
                       (OnRipple (RippleTransfer example_ripple_transfer))))
    as [call Hcall] by (eexists; vm_compute; repeat constructor).
  destruct (flat_fee_is_the_callers_or_the_quoted ripple_env example_config
              example_services
              (OnRipple (RippleTransfer example_ripple_transfer))
              _ _ _ call eq_refl Hcall) as (quote & H).
  exists call, quote. split; [exact Hcall|exact H].
Defined.

(** ** Celo: the currency of the fee, and token transfers *)

(** X4.  When the Celo transfer calls its builder, the fee currency the
    builder gets is the one the fee quotation was asked with.  It is the cUSD
    or the cEUR contract address of the network (testnet or mainnet, by the
    [testnet] of the input or else by the environment) when the caller names
    'cUSD' or 'cEUR', and whatever the caller passed otherwise. *)
Theorem celo_fee_currency_resolved env config input call :
  let network :=
    if testnet_or_env config (cti_testnet input) then "testnet" else "mainnet" in
  Build call ∈ trace (createCeloTransferTransaction env config input) →
  ∃ o data,
    call = buildCeloTransferTransaction o ∧
    ReqFee data CELO ∈ trace (createCeloTransferTransaction env config input) ∧
    fd_feeCurrency data = transmitted (ct_feeCurrency o) ∧
    (cti_feeCurrency input = JStr "cUSD" →
       ct_feeCurrency o = CUSD_CONTRACT_ADDRESS env network) ∧
    (cti_feeCurrency input = JStr "cEUR" →
       ct_feeCurrency o = CEUR_CONTRACT_ADDRESS env network) ∧
    (cti_feeCurrency input ≠ JStr "cUSD" →
     cti_feeCurrency input ≠ JStr "cEUR" →
       ct_feeCurrency o = cti_feeCurrency input).
Proof.
  intros network. unfold createCeloTransferTransaction.
  log_cases; intros Hin; in_log Hin; simplify_eq.
  all: eexists _, _; (split; [reflexivity|]);
    (split; [cbn [app]; repeat constructor|]); (split; [reflexivity|]);
    cbn [ct_feeCurrency]; fold network; unfold is_str.
  all: repeat split.
  all: try (intros ->; reflexivity).
  all: intros Hu He; rewrite !bool_decide_eq_false_2 by done.
  all: destruct (truthy (cti_feeCurrency input)); reflexivity.
Qed.

Lemma celo_fee_currency_resolved_witness :
  ∃ call o,
    Build call
      ∈ trace (createCeloTransferTransaction account_env example_config
                 example_cusd_transfer) ∧
    call = buildCeloTransferTransaction o ∧
    ct_feeCurrency o = JStr "0x874069Fa1Eb16D44d622F2e0Ca25eeA172369bC1".
Proof.
  assert (∃ call, Build call
            ∈ trace (createCeloTransferTransaction account_env example_config
                       example_cusd_transfer))
    as [call Hcall] by (eexists; vm_compute; repeat constructor).
  destruct (celo_fee_currency_resolved account_env example_config
              example_cusd_transfer call Hcall)
    as (o & data & Hcall' & _ & _ & Hcusd & _).
  exists call, o. split; [exact Hcall|]. split; [exact Hcall'|].
  exact (Hcusd eq_refl).
Defined.



(** ** The Ethereum family: native and token transfers *)



(** ** Smart contracts: the builder follows the protocol *)



(** ** Bitcoin: where the inputs of the builder come from *)

(** What the outcomes that were taken say of the answers behind them. *)
Ltac answered :=
  repeat match goal with
  | H : match ?r with Ok _ => _ | Throw _ => _ end = _ |- _ =>
      destruct r eqn:?; try discriminate H
  | H : match ?b with BodyArray _ => _ | BodyOther _ => _ end = _ |- _ =>
      destruct b; try discriminate H
  | H : outcome _ = _ |- _ => progress autorewrite with log in H
  end; simplify_eq.

(** A loop that went through gave one result for each element. *)
Lemma for_each_ok {A B} (f : A → M B) l ys :
  outcome (for_each f l) = Ok ys →
  Forall2 (λ x y, outcome (f x) = Ok y) l ys.
Proof.
  revert ys. induction l as [|x l IH]; intros ys; cbn [for_each].
  - rewrite outcome_mret. intros [= <-]. constructor.
  - rewrite outcome_bind. destruct (outcome (f x)) as [y|] eqn:Hx; [|done].
    rewrite outcome_bind.
    destruct (outcome (for_each f l)) as [ys'|]; [|done].
    rewrite outcome_mret. intros [= <-]. constructor; [done|by apply IH].
Qed.

Lemma input_of_utxo_ok env w u i :
  outcome (input_of_utxo env w u) = Ok i →
  ∃ t, transaction_api env (txHash u) BITCOIN = Ok t ∧
       i = {| in_txHash := txHash u; in_index := index u;
              in_value := JNum (value u); in_privateKey := w_privateKey w;
              in_hex := hex t; in_blockhash := blockhash t |}.
Proof.
  unfold input_of_utxo. log_cases; intros [= <-]. answered.
  by eexists.
Qed.

Lemma resolve_input_ok env i i' :
  outcome (resolve_input env i) = Ok i' →
  ∃ t outs out,
    transaction_api env (in_txHash i) BITCOIN = Ok t ∧
    vout t = Some outs ∧
    js_nth outs (in_index i) = Some out ∧ truthy out = true ∧
    i' = {| in_txHash := in_txHash i; in_index := in_index i;
            in_value := in_value i; in_privateKey := in_privateKey i;
            in_hex := hex t; in_blockhash := blockhash t |}.
Proof.
  unfold resolve_input. rewrite outcome_bind, outcome_getTransactionByHash.
  destruct (transaction_api env (in_txHash i) BITCOIN) as [t|] eqn:Hlookup;
    [|done].
  destruct (vout t) as [outs|] eqn:Hvout; [|done].
  destruct (js_nth outs (in_index i)) as [out|] eqn:Hout; [|done].
  change (default JUndefined (Some out)) with out.
  destruct (truthy out) eqn:Ht; [|done].
  intros [= <-]. by exists t, outs, out.
Qed.

(** X8.  A Bitcoin transfer from a wallet hands its builder one input for each
    unspent output that [getUTXOs] answered for the address of the wallet, in
    that order: the hash, index and value of the output, the private key of
    the wallet, and the [hex] and [blockhash] of the transaction looked up by
    the hash.  Inputs that the caller passes besides are not used. *)
Theorem bitcoin_inputs_from_wallet env config input w call :
  bti_wallet input = Some w →
  Build call ∈ trace (createBitcoinTransferTransaction env config input) →
  ∃ o body l,
    call = buildBitcoinTransferTransaction o ∧
    utxos_api env (w_address w) BITCOIN = Ok body ∧
    bt_wallet o = Some w ∧
    bt_inputs o = Some l ∧
    Forall2
      (λ u i,
         ∃ t, transaction_api env (txHash u) BITCOIN = Ok t ∧
              i = {| in_txHash := txHash u; in_index := index u;
                     in_value := JNum (value u);
                     in_privateKey := w_privateKey w;
                     in_hex := hex t; in_blockhash := blockhash t |})
      (match body with BodyArray items => items | BodyOther _ => [] end) l.
Proof.
  destruct (loops_only_look_up env) as (L1 & L2 & _).
  intros Hw. unfold createBitcoinTransferTransaction, flat_fee. rewrite Hw.
  log_cases; intros Hin; split_log Hin; answered.
  all: cbn [loop_items for_each] in *; answered.
  all: try match goal with
       | H : outcome (for_each _ _) = Ok _ |- _ =>
           apply for_each_ok in H;
           eapply Forall2_impl in H; [|apply input_of_utxo_ok]
       end.
  all: eexists _, _, _; (split; [reflexivity|]); (split; [reflexivity|]);
    (split; [reflexivity|]); (split; [reflexivity|]);
    first [assumption|constructor].
Qed.

(** X9.  A Bitcoin transfer without a wallet hands its builder the caller's
    inputs in their order, each with its own hash, index, value and private
    key, and with the [hex] and [blockhash] of the transaction looked up by
    its hash; each index has an output in that transaction. *)
Theorem bitcoin_explicit_inputs_resolved env config input l call :
  bti_wallet input = None →
  bti_inputs input = Some l →
  Build call ∈ trace (createBitcoinTransferTransaction env config input) →
  ∃ o l',
    call = buildBitcoinTransferTransaction o ∧
    bt_wallet o = None ∧
    bt_inputs o = Some l' ∧
    Forall2
      (λ i i',
         ∃ t outs out,
           transaction_api env (in_txHash i) BITCOIN = Ok t ∧
           vout t = Some outs ∧
           js_nth outs (in_index i) = Some out ∧ truthy out = true ∧
           i' = {| in_txHash := in_txHash i; in_index := in_index i;
                   in_value := in_value i; in_privateKey := in_privateKey i;
                   in_hex := hex t; in_blockhash := blockhash t |})
      l l'.
Proof.
  destruct (loops_only_look_up env) as (L1 & L2 & _).
  intros Hw Hl. unfold createBitcoinTransferTransaction, flat_fee.
  rewrite Hw, Hl.
  log_cases; intros Hin; split_log Hin; answered.
  all: match goal with
       | H : outcome (for_each _ _) = Ok _ |- _ =>
           apply for_each_ok in H;
           eapply Forall2_impl in H; [|apply resolve_input_ok]
       end.
  all: eexists _, _; (split; [reflexivity|]); (split; [reflexivity|]);
    (split; [reflexivity|]); assumption.
Qed.

(** The wallet has one output; the input that the caller names besides,
    which is in no transaction, is not looked at. *)
Lemma bitcoin_inputs_from_wallet_witness :
  ∃ call o,
    Build call
      ∈ trace (createBitcoinTransferTransaction bitcoin_wallet_env
                 example_config example_bitcoin_wallet_and_inputs) ∧
    call = buildBitcoinTransferTransaction o ∧
    bt_inputs o =
      Some [{| in_txHash := "9b5d0f0fdd22c4b4"; in_index := 1;
               in_value := JNum 100000; in_privateKey := "priv";
               in_hex := JStr "0200000001";
               in_blockhash := JStr "000000000000" |}].
Proof.
  assert (∃ call, Build call
            ∈ trace (createBitcoinTransferTransaction bitcoin_wallet_env
                       example_config example_bitcoin_wallet_and_inputs))
    as [call Hcall] by (eexists; vm_compute; repeat constructor).
  destruct (bitcoin_inputs_from_wallet bitcoin_wallet_env example_config
              example_bitcoin_wallet_and_inputs example_wallet call
              eq_refl Hcall)
    as (o & body & l & Hcall' & Hbody & _ & Hinputs & Hall).
  exists call, o. split; [exact Hcall|]. split; [exact Hcall'|].
  rewrite Hinputs. injection Hbody as <-.
  apply Forall2_cons_inv_l in Hall as (i & l' & (t & Ht & ->) & Hnil & ->).
  apply Forall2_nil_inv_l in Hnil as ->.
  injection Ht as <-. reflexivity.
Defined.

Lemma bitcoin_explicit_inputs_resolved_witness :
  ∃ call o l,
    Build call
      ∈ trace (createBitcoinTransferTransaction bitcoin_env example_config
                 example_bitcoin_two_inputs) ∧
    call = buildBitcoinTransferTransaction o ∧
    bt_inputs o = Some l ∧
    Forall (λ i, in_hex i = JStr "0200000001") l.
Proof.
  assert (∃ call, Build call
            ∈ trace (createBitcoinTransferTransaction bitcoin_env
                       example_config example_bitcoin_two_inputs))
    as [call Hcall] by (eexists; vm_compute; repeat constructor).
  destruct (bitcoin_explicit_inputs_resolved bitcoin_env example_config
              example_bitcoin_two_inputs _ call eq_refl eq_refl Hcall)
    as (o & l & Hcall' & _ & Hinputs & Hall).
  exists call, o, l. split; [exact Hcall|]. split; [exact Hcall'|].
  split; [exact Hinputs|].
  eapply Forall2_Forall_r; [exact Hall|].
  apply Forall_forall. intros i _ i' (t & outs & out & Ht & _ & _ & _ & ->).
  injection Ht as <-. reflexivity.
Defined.

(** ** Hathor transfers: the tokens and the inputs *)

Lemma strict_eq_string a s : strict_eq a (JStr s) = bool_decide (a = JStr s).
Proof. by destruct a. Qed.

Lemma normalize_token_spec o :
  os_address (normalize_token o) = os_address o ∧
  os_amount (normalize_token o) = os_amount o ∧
  (names_native (os_token o) → os_token (normalize_token o) = JStr "00") ∧
  (¬ names_native (os_token o) →
   os_token (normalize_token o) = os_token o).
Proof.
  unfold normalize_token, names_native. rewrite strict_eq_string.
  destruct (decide (os_token o = JStr "HTR")) as [H1|H1];
    [rewrite (bool_decide_eq_true_2 _ H1)
    |rewrite (bool_decide_eq_false_2 _ H1);
     destruct (decide (os_token o = JNull)) as [H2|H2];
     [rewrite (bool_decide_eq_true_2 _ H2)
     |rewrite (bool_decide_eq_false_2 _ H2);
      destruct (decide (os_token o = JUndefined)) as [H3|H3];
      [rewrite (bool_decide_eq_true_2 _ H3)
      |rewrite (bool_decide_eq_false_2 _ H3)]]];
    cbn [orb os_address os_amount os_token]; repeat split; try tauto.
Qed.

Lemma includes_true s v : includes s v = true → v ∈ s.
Proof.
  unfold includes. intros (x & Hx & Heq)%existsb_exists.
  apply list_elem_of_In in Hx. unfold same_value_zero in Heq.
  destruct x; try discriminate; by apply bool_decide_eq_true in Heq as <-.
Qed.

Lemma includes_false s v :
  (∀ j, v ≠ JObject j) → includes s v = false → v ∉ s.
Proof.
  unfold includes. intros Hv Hnone Hin.
  apply not_true_iff_false in Hnone. apply Hnone.
  apply existsb_exists. exists v. split; [by apply list_elem_of_In|].
  unfold same_value_zero.
  destruct v; try by apply bool_decide_eq_true. by destruct (Hv json).
Qed.

Lemma elem_of_set_adds acc l v :
  v ∈ foldl set_add acc l ↔ v ∈ acc ∨ v ∈ l.
Proof.
  revert acc. induction l as [|x l IH]; intros acc; cbn [foldl].
  - rewrite elem_of_nil. tauto.
  - rewrite IH, elem_of_cons. unfold set_add.
    destruct (includes acc x) eqn:Hx.
    + apply includes_true in Hx. intuition (subst; auto).
    + rewrite elem_of_app, list_elem_of_singleton. tauto.
Qed.

Lemma NoDup_set_adds acc l :
  Forall (λ v, ∀ j, v ≠ JObject j) l →
  NoDup acc → NoDup (foldl set_add acc l).
Proof.
  intros Hl. revert acc. induction Hl as [|x l Hx Hl IH]; intros acc Hacc;
    cbn [foldl]; [done|].
  apply IH. unfold set_add. destruct (includes acc x) eqn:Hin; [done|].
  apply NoDup_app. split; [done|]. split; [|apply NoDup_singleton].
  intros y Hy ->%list_elem_of_singleton.
  by apply (includes_false acc x Hx Hin).
Qed.

Lemma transfer_tokens_spec outs :
  (∀ v, v ∈ transfer_tokens outs ↔
        truthy v = true ∧ ∃ out, out ∈ outs ∧ os_token out = v) ∧
  (Forall (λ out, ∀ j, os_token out ≠ JObject j) outs →
   NoDup (transfer_tokens outs)).
Proof.
  unfold transfer_tokens. split.
  - intros v. rewrite list_elem_of_In, filter_In, <- list_elem_of_In.
    rewrite elem_of_set_adds, elem_of_nil, list_elem_of_fmap.
    split.
    + intros [[[]|(out & -> & Hout)] Ht]. eauto.
    + intros [Ht (out & Hout & <-)]. eauto.
  - intros Hall. apply NoDup_ListNoDup, List.NoDup_filter, NoDup_ListNoDup.
    apply NoDup_set_adds; [|constructor].
    by apply Forall_fmap.
Qed.

(** X10.  In both Hathor transfers the builder gets the outputs of the caller
    in their order, with the token 'HTR', null or undefined replaced by '00'
    and any other token kept.  The token list it gets holds exactly the truthy
    tokens of these outputs, each once when no token is an object. *)
Theorem hathor_transfer_names_its_tokens env config services c specs o :
  requested_outputs c = Some specs →
  Build (buildHathorTransferTransaction o)
    ∈ trace (run env config services c) →
  Forall2
    (λ spec out,
       os_address out = os_address spec ∧
       os_amount out = os_amount spec ∧
       (names_native (os_token spec) → os_token out = JStr "00") ∧
       (¬ names_native (os_token spec) → os_token out = os_token spec))
    specs (ht_outputs o) ∧
  (∀ v, v ∈ ht_tokens o ↔
        truthy v = true ∧ ∃ out, out ∈ ht_outputs o ∧ os_token out = v) ∧
  (Forall (λ spec, ∀ j, os_token spec ≠ JObject j) specs →
   NoDup (ht_tokens o)).
Proof.
  destruct (loops_only_look_up env) as (_ & _ & L3 & _ & L5 & _).
  intros Hc Hin.
  assert (ht_outputs o = map normalize_token specs ∧
          ht_tokens o = transfer_tokens (map normalize_token specs))
    as [-> ->].
  { revert Hin.
    destruct c as [| | |[i|]|i| | |]; try discriminate;
      injection Hc as <-; cbn [run hathor_construct]; unfold_constructions;
      log_cases; intros Hin; split_log Hin.
    all: repeat match goal with
         | H : context [trace (if ?b then _ else _)] |- _ => destruct b
         end; split_log Hin; by simplify_eq. }
  destruct (transfer_tokens_spec (map normalize_token specs)) as [Hmem Hnodup].
  split; [|split; [exact Hmem|]].
  - apply Forall2_fmap_r, Forall_Forall2_diag, Forall_forall.
    intros spec _. apply normalize_token_spec.
  - intros Hall. apply Hnodup, Forall_fmap, Forall_forall.
    intros spec Hspec j. rewrite Forall_forall in Hall.
    specialize (Hall spec Hspec).
    destruct (normalize_token_spec spec) as (_ & _ & Hn & Hk).
    destruct (decide (os_token spec = JStr "HTR")) as [H1|H1];
      [rewrite Hn by (by left); done|].
    destruct (decide (os_token spec = JNull)) as [H2|H2];
      [rewrite Hn by (right; by left); done|].
    destruct (decide (os_token spec = JUndefined)) as [H3|H3];
      [rewrite Hn by (right; by right); done|].
    rewrite Hk by (by intros [?|[?|?]]). apply Hall.
Qed.

(** The transfer of the examples asks for the token twice and for the
    native token under the name 'HTR'. *)
Lemma hathor_transfer_names_its_tokens_witness :
  ∃ o,
    Build (buildHathorTransferTransaction o)
      ∈ trace (run hathor_env example_config example_services
                 (HathorFromWallet (HathorTransfer example_hathor_two_tokens))) ∧
    Forall2
      (λ spec out,
         os_address out = os_address spec ∧
         os_amount out = os_amount spec ∧
         (names_native (os_token spec) → os_token out = JStr "00") ∧
         (¬ names_native (os_token spec) → os_token out = os_token spec))
      (hti_outputs example_hathor_two_tokens) (ht_outputs o) ∧
    (∀ v, v ∈ ht_tokens o ↔
          truthy v = true ∧ ∃ out, out ∈ ht_outputs o ∧ os_token out = v) ∧
    NoDup (ht_tokens o).
Proof.
  assert (∃ o, Build (buildHathorTransferTransaction o)
            ∈ trace (run hathor_env example_config example_services
                       (HathorFromWallet
                          (HathorTransfer example_hathor_two_tokens))))
    as [o Ho] by (eexists; vm_compute; repeat constructor).
  destruct (hathor_transfer_names_its_tokens hathor_env example_config
              example_services
              (HathorFromWallet (HathorTransfer example_hathor_two_tokens))
              _ o eq_refl Ho) as (Houts & Hmem & Hnodup).
  exists o. split; [exact Ho|]. split; [exact Houts|]. split; [exact Hmem|].
  apply Hnodup. by repeat constructor.
Defined.

(** One turn of the loop of the transfer from a wallet, on an unspent
    output whose transaction resolves. *)
Lemma transfer_input_resolved env w tokens acc u :
  (includes tokens (token u) = true →
   (strict_eq (token u) (JStr "00") = true ∧
    ∃ t, transaction_api env (txHash u) HATHOR = Ok t) ∨
   is_Some (hathor_output_of env u)) →
  transfer_input env w tokens acc u =
  (if includes tokens (token u)
   then [ReqTransactionByHash (txHash u) HATHOR] else [],
   Ok (if spendable env tokens u
       then acc ++ [hathor_input_of w u] else acc)).
Proof.
  unfold transfer_input, spendable, hathor_output_of, output_at,
    getTransactionByHash, request, hathor_output.
  destruct (includes tokens (token u)); [|reflexivity].
  intros H. specialize (H eq_refl). cbn [andb].
  destruct (transaction_api env (txHash u) HATHOR) as [t|] eqn:Ht.
  - cbn. destruct (strict_eq (token u) (JStr "00")) eqn:Hnative;
      [reflexivity|].
    destruct H as [[? _]|[o Ho]]; [done|].
    destruct (tx t) as [body|]; [|done]. cbn. rewrite Ho. cbn.
    unfold ordinary. by destruct (native_or_authority o).
  - destruct H as [[_ [t [=]]]|[o [=]]].
Qed.

Lemma transfer_loop_resolved env w tokens items acc :
  (∀ u, u ∈ items → includes tokens (token u) = true →
        (strict_eq (token u) (JStr "00") = true ∧
         ∃ t, transaction_api env (txHash u) HATHOR = Ok t) ∨
        is_Some (hathor_output_of env u)) →
  for_fold (transfer_input env w tokens) acc items =
  (map (λ u, ReqTransactionByHash (txHash u) HATHOR)
     (List.filter (λ u, includes tokens (token u)) items),
   Ok (acc ++ map (hathor_input_of w)
                (List.filter (spendable env tokens) items))).
Proof.
  revert acc. induction items as [|u items IH]; intros acc Hall.
  - cbn. by rewrite app_nil_r.
  - cbn [for_fold List.filter].
    rewrite transfer_input_resolved by (apply Hall; by left).
    cbn. rewrite IH by (intros u' Hu'; apply Hall; by right).
    cbn. f_equal.
    + by destruct (includes tokens (token u)).
    + destruct (spendable env tokens u); [|reflexivity].
      cbn. by rewrite <- app_assoc.
Qed.



(** ** Hathor: the selection of a mint or of a creation *)

(** One pass over candidates with known outputs, for any two kinds of
    output of which the first is taken while the sum is below the amount
    and the second is always taken. *)
Lemma selection_in_one_pass (val auth : HathorOutput → bool)
    (step : Selection → UTXO → HathorOutput → Selection) amount wallet cs s :
  (∀ o, auth o = true → val o = false) →
  (∀ s u o,
     step s u o =
     if val o
     then (if inputSum s <? amount
           then push wallet u (add_value (ho_value o) s) else s)
     else if auth o then push wallet u s else s) →
  ∃ picked,
    picked `sublist_of` cs ∧
    inputs (foldl (λ s uo, step s uo.1 uo.2) s cs)
      = inputs s ++ map (λ uo, token_input_of wallet uo.1) picked ∧
    inputSum (foldl (λ s uo, step s uo.1 uo.2) s cs)
      = inputSum s + sum_values (List.filter (λ uo, val uo.2) picked) ∧
    (∀ uo, uo ∈ picked → val uo.2 = true ∨ auth uo.2 = true) ∧
    (∀ uo, uo ∈ cs → auth uo.2 = true → uo ∈ picked) ∧
    (∀ pre uo post,
       List.filter (λ uo, val uo.2) picked = pre ++ uo :: post →
       inputSum s + sum_values pre < amount) ∧
    (amount ≤ inputSum s + sum_values (List.filter (λ uo, val uo.2) picked) ∨
     ∀ uo, uo ∈ cs → val uo.2 = true → uo ∈ picked).
Proof.
  intros Hexcl Hstep. revert s. induction cs as [|[u o] cs IH]; intros s.
  { exists []. cbn. rewrite app_nil_r, Z.add_0_r.
    split; [done|]. split; [done|]. split; [done|].
    split; [by intros uo Hin%elem_of_nil|].
    split; [by intros uo Hin%elem_of_nil|].
    split; [intros pre uo post Heq; by destruct pre|].
    right. by intros uo Hin%elem_of_nil. }
  cbn [foldl fst snd].
  destruct (IH (step s u o))
    as (picked & Hsub & Hin & Hsum & Hkind & Hauth & Hgreedy & Hstop).
  rewrite Hin, Hsum. clear Hin Hsum IH.
  rewrite Hstep in *.
  destruct (val o) eqn:Hval;
    [destruct (inputSum s <? amount) eqn:Hlt
    |destruct (auth o) eqn:Ha].
  - (* a value output, taken *)
    apply Z.ltb_lt in Hlt. exists ((u, o) :: picked).
    cbn [List.filter map fst snd push add_value inputs inputSum] in *.
    rewrite Hval. cbn [sum_values foldr snd].
    fold (sum_values (List.filter (λ uo, val uo.2) picked)).
    split; [by apply sublist_skip|].
    split; [by rewrite <- app_assoc|].
    split; [lia|].
    split; [intros uo [->|Hel]%elem_of_cons; [by left|by apply Hkind]|].
    split; [intros uo [->|Hel]%elem_of_cons Hu; [by left|right; by apply Hauth]|].
    split.
    + intros pre uo post Heq. destruct pre as [|x pre].
      * cbn. lia.
      * injection Heq as <- Heq. specialize (Hgreedy _ _ _ Heq).
        cbn [sum_values foldr snd]. fold (sum_values pre). lia.
    + destruct Hstop as [Hge|Hall]; [left; lia|].
      right. intros uo [->|Hel]%elem_of_cons Ho; [by left|].
      right. by apply Hall.
  - (* a value output, not needed any more *)
    apply Z.ltb_ge in Hlt. exists picked.
    assert (List.filter (λ uo, val uo.2) picked = []) as Hnone.
    { destruct (List.filter (λ uo, val uo.2) picked) as [|x l] eqn:Hp; [done|].
      specialize (Hgreedy [] x l eq_refl). cbn in Hgreedy. lia. }
    split; [by apply sublist_cons|].
    split; [done|]. split; [done|]. split; [exact Hkind|].
    split.
    { intros uo [->|Hel]%elem_of_cons Hu; [|by apply Hauth].
      apply Hexcl in Hu. cbn in Hu. congruence. }
    split; [exact Hgreedy|].
    left. rewrite Hnone. cbn. lia.
  - (* an authority *)
    exists ((u, o) :: picked).
    cbn [List.filter map fst snd push add_value inputs inputSum] in *.
    rewrite Hval.
    split; [by apply sublist_skip|].
    split; [by rewrite <- app_assoc|].
    split; [lia|].
    split; [intros uo [->|Hel]%elem_of_cons; [by right|by apply Hkind]|].
    split; [intros uo [->|Hel]%elem_of_cons Hu; [by left|right; by apply Hauth]|].
    split.
    + intros pre uo post Heq. specialize (Hgreedy _ _ _ Heq). lia.
    + destruct Hstop as [Hge|Hall]; [left; lia|].
      right. intros uo [->|Hel]%elem_of_cons Ho; [cbn in Ho; congruence|].
      right. by apply Hall.
  - (* any other output *)
    exists picked.
    split; [by apply sublist_cons|].
    split; [done|]. split; [done|]. split; [exact Hkind|].
    split; [intros uo [->|Hel]%elem_of_cons Hu;
            [cbn in Hu; congruence|by apply Hauth]|].
    split; [exact Hgreedy|].
    destruct Hstop as [Hge|Hall]; [by left|].
    right. intros uo [->|Hel]%elem_of_cons Ho;
      [cbn in Ho; congruence|by apply Hall].
Qed.

Lemma mint_authority_not_deposit o :
  mint_authority o = true → deposit o = false.
Proof.
  unfold mint_authority, deposit.
  intros [->%Z.eqb_eq _]%andb_true_iff. reflexivity.
Qed.



(** ** Hathor from the caller's own outputs *)

Lemma spent_input_ok env i i' :
  outcome (spent_input env i) = Ok i' →
  ∃ body out,
    spent_by env i = Some (body, out) ∧
    hi_txHash i' = hi_txHash i ∧ hi_index i' = hi_index i ∧
    hi_privateKey i' = hi_privateKey i ∧
    hi_value i' = JNum (ho_value out) ∧
    (token_data out = 0 → hi_token i' = JStr "00") ∧
    (token_data out ≠ 0 →
     ∃ uid, js_nth (tokens body) (token_data out - 1) = Some uid ∧
            hi_token i' = JStr uid).
Proof.
  unfold spent_input, spent_by, spent_output, token_of_output.
  rewrite outcome_bind, outcome_getTransactionByHash.
  destruct (transaction_api env (hi_txHash i) HATHOR) as [t|]; [|done].
  destruct (tx t) as [body|]; [|done].
  destruct (js_nth (outputs body) (hi_index i)) as [out|]; [|done].
  log_simpl.
  destruct (token_data out =? 0) eqn:Hnative.
  - apply Z.eqb_eq in Hnative. log_simpl. intros [= <-].
    exists body, out. repeat split; try done.
  - apply Z.eqb_neq in Hnative.
    destruct (js_nth (tokens body) (token_data out - 1)) as [uid|] eqn:Huid;
      [|done].
    log_simpl. intros [= <-].
    exists body, out. repeat split; try done. intros _. by exists uid.
Qed.

(** X13.  A Hathor transfer from explicit inputs hands its builder the
    caller's inputs in their order, the value and the token of each rewritten
    from the output it spends: the value of that output, and '00' when its
    [token_data] is 0, else the uid at position [token_data - 1] of the token
    list of the transaction.  No change address is passed. *)
Theorem hathor_inputs_take_value_and_token env config services input o :
  Build (buildHathorTransferTransaction o)
    ∈ trace (createHathorTransferTransactionFromUTXO env config services
               input) →
  ht_changeAddress o = JUndefined ∧
  Forall2
    (λ i i',
       ∃ body out,
         spent_by env i = Some (body, out) ∧
         hi_txHash i' = hi_txHash i ∧ hi_index i' = hi_index i ∧
         hi_privateKey i' = hi_privateKey i ∧
         hi_value i' = JNum (ho_value out) ∧
         (token_data out = 0 → hi_token i' = JStr "00") ∧
         (token_data out ≠ 0 →
          ∃ uid, js_nth (tokens body) (token_data out - 1) = Some uid ∧
                 hi_token i' = JStr uid))
    (hui_inputs input) (ht_inputs o).
Proof.
  destruct (loops_only_look_up env) as (_ & _ & _ & _ & L5 & _).
  unfold createHathorTransferTransactionFromUTXO.
  log_cases; intros Hin; split_log Hin; answered.
  all: match goal with
       | H : outcome (for_each _ _) = Ok _ |- _ =>
           apply for_each_ok in H;
           eapply Forall2_impl in H; [|apply spent_input_ok]
       end.
  all: by split.
Qed.

Lemma hathor_inputs_take_value_and_token_witness :
  ∃ o,
    Build (buildHathorTransferTransaction o)
      ∈ trace (createHathorTransferTransactionFromUTXO hathor_env
                 example_config example_services
                 (example_hathor_from_utxo false)) ∧
    Forall2
      (λ i i', hi_txHash i' = hi_txHash i ∧ hi_index i' = hi_index i)
      (hui_inputs (example_hathor_from_utxo false)) (ht_inputs o) ∧
    ht_changeAddress o = JUndefined.
Proof.
  assert (∃ o, Build (buildHathorTransferTransaction o)
            ∈ trace (createHathorTransferTransactionFromUTXO hathor_env
                       example_config example_services
                       (example_hathor_from_utxo false)))
    as [o Ho] by (eexists; vm_compute; repeat constructor).
  destruct (hathor_inputs_take_value_and_token hathor_env example_config
              example_services (example_hathor_from_utxo false) o Ho)
    as [Hchange Hall].
  exists o. split; [exact Ho|]. split; [|exact Hchange].
  eapply Forall2_impl; [exact Hall|].
  intros i i' (body & out & _ & H1 & H2 & _). by split.
Defined.

(** An input whose token is not in the token list of its transaction. *)
Lemma spent_input_unlisted env i bo :
  spent_by env i = Some bo → token_listed bo = false →
  outcome (spent_input env i) = Throw (undefined_property "uid").
Proof.
  unfold spent_input, spent_by, spent_output, token_of_output, token_listed.
  rewrite outcome_bind, outcome_getTransactionByHash.
  destruct (transaction_api env (hi_txHash i) HATHOR) as [t|]; [|done].
  destruct (tx t) as [body|]; [|done].
  destruct (js_nth (outputs body) (hi_index i)) as [out|]; [|done].
  intros [= <-]. cbn [fst snd]. log_simpl.
  intros [-> Hnone%bool_decide_eq_false]%orb_false_iff.
  destruct (js_nth (tokens body) (token_data out - 1)); [|done].
  destruct Hnone. eauto.
Qed.

Lemma spent_input_listed env i bo :
  spent_by env i = Some bo →
  (∃ i', outcome (spent_input env i) = Ok i') ∨
  outcome (spent_input env i) = Throw (undefined_property "uid").
Proof.
  destruct (token_listed bo) eqn:Hl;
    [|right; by eapply spent_input_unlisted].
  intros Hbo. left. revert Hbo Hl.
  unfold spent_input, spent_by, spent_output, token_of_output, token_listed.
  rewrite outcome_bind, outcome_getTransactionByHash.
  destruct (transaction_api env (hi_txHash i) HATHOR) as [t|]; [|done].
  destruct (tx t) as [body|]; [|done].
  destruct (js_nth (outputs body) (hi_index i)) as [out|]; [|done].
  intros [= <-]. cbn [fst snd]. log_simpl.
  destruct (token_data out =? 0); [log_simpl; eauto|].
  cbn [orb]. intros [uid ->]%bool_decide_eq_true. log_simpl. eauto.
Qed.

Lemma spent_inputs_unlisted env l :
  Forall (λ i, is_Some (spent_by env i)) l →
  Exists (λ i, ∃ bo, spent_by env i = Some bo ∧ token_listed bo = false) l →
  outcome (for_each (spent_input env) l) = Throw (undefined_property "uid").
Proof.
  induction l as [|i l IH]; intros Hall Hex; [by apply Exists_nil in Hex|].
  apply Forall_cons in Hall as [[bo Hi] Hall].
  cbn [for_each]. rewrite outcome_bind.
  destruct (spent_input_listed env i bo Hi) as [[i' Hok]|Hthrow];
    [|by rewrite Hthrow].
  rewrite Hok, outcome_bind.
  apply Exists_cons in Hex as [(bo' & Hbo' & Hl)|Hex].
  - rewrite (spent_input_unlisted env i bo' Hbo' Hl) in Hok. discriminate.
  - by rewrite (IH Hall Hex).
Qed.



(** *** The sum of the inputs of a token operation *)

Lemma add_input_value_counted melt s o :
  add_input_value melt s o = s + (if counted melt o then ho_value o else 0).
Proof.
  unfold add_input_value, counted, native_or_authority.
  destruct melt; cbn [andb].
  - destruct (token_data o =? 0) eqn:H0, (token_data o =? 129) eqn:H1;
      cbn; lia.
  - destruct (token_data o =? 0); lia.
Qed.

Lemma input_value_ok env melt s i r :
  outcome (input_value env melt s i) = Ok r →
  ∃ out, output_at env (ti_txHash i) (ti_index i) = Some out ∧
         r = s + (if counted melt out then ho_value out else 0).
Proof.
  unfold input_value, output_at, hathor_output.
  rewrite outcome_bind, outcome_getTransactionByHash.
  destruct (transaction_api env (ti_txHash i) HATHOR) as [t|]; [|done].
  destruct (tx t) as [body|]; [|done]. log_simpl.
  destruct (js_nth (outputs body) (ti_index i)) as [out|]; [|done].
  log_simpl. intros [= <-]. exists out.
  by rewrite add_input_value_counted.
Qed.

Lemma input_values_ok env melt l s r :
  outcome (for_fold (input_value env melt) s l) = Ok r →
  ∃ outs,
    Forall2 (λ i out, output_at env (ti_txHash i) (ti_index i) = Some out)
      l outs ∧
    r = s + total_value (List.filter (counted melt) outs).
Proof.
  revert s. induction l as [|i l IH]; intros s; cbn [for_fold].
  - rewrite outcome_mret. intros [= <-]. exists []. split; [constructor|].
    cbn. lia.
  - rewrite outcome_bind.
    destruct (outcome (input_value env melt s i)) as [s'|] eqn:Hi; [|done].
    apply input_value_ok in Hi as (out & Hout & ->).
    intros (outs & Hall & ->)%IH.
    exists (out :: outs). split; [by constructor|].
    cbn [List.filter]. unfold total_value.
    destruct (counted melt out); cbn [foldr]; lia.
Qed.

(** X15.  A Hathor token operation from explicit inputs hands its builder the
    caller's inputs unchanged, and as [inputSum] the sum of the values of the
    outputs they spend that count: in a melt every output but the authority
    outputs ([token_data] 129), the native ones included; otherwise the native
    outputs only. *)
Theorem hathor_token_input_sum env config services input o :
  Build (buildHathorTokenTransaction o)
    ∈ trace (createHathorTokenTransactionFromUTXO env config services
               input) →
  hk_inputs o = hxi_inputs input ∧
  ∃ outs,
    Forall2 (λ i out, output_at env (ti_txHash i) (ti_index i) = Some out)
      (hxi_inputs input) outs ∧
    hk_inputSum o =
      total_value
        (List.filter
           (counted (bool_decide (hxi_type input = HATHOR_TOKEN_MELT)))
           outs).
Proof.
  destruct (loops_only_look_up env) as (_ & _ & _ & _ & _ & L6).
  unfold createHathorTokenTransactionFromUTXO.
  log_cases; intros Hin; split_log Hin; answered.
  all: match goal with
       | H : outcome (for_fold _ _ _) = Ok _ |- _ =>
           apply input_values_ok in H as (outs & Hall & ->)
       end.
  all: split; [reflexivity|]; exists outs; split; [exact Hall|];
    cbn [hk_inputSum]; lia.
Qed.

(** Melting with the value output of the token (500), its melt authority
    and the output of the native token (1000): the sum is 1500. *)
Lemma hathor_token_input_sum_witness :
  ∃ o,
    Build (buildHathorTokenTransaction o)
      ∈ trace (createHathorTokenTransactionFromUTXO hathor_env example_config
                 example_services example_hathor_melt_from_utxo) ∧
    hk_inputs o = hxi_inputs example_hathor_melt_from_utxo ∧
    hk_inputSum o = 1500.
Proof.
  assert (∃ o, Build (buildHathorTokenTransaction o)
            ∈ trace (createHathorTokenTransactionFromUTXO hathor_env
                       example_config example_services
                       example_hathor_melt_from_utxo))
    as [o Ho] by (eexists; vm_compute; repeat constructor).
  destruct (hathor_token_input_sum hathor_env example_config example_services
              example_hathor_melt_from_utxo o Ho)
    as (Hinputs & outs & Hall & Hsum).
  exists o. split; [exact Ho|]. split; [exact Hinputs|].
  rewrite Hsum.
  apply Forall2_cons_inv_l in Hall as (o1 & l1 & [= <-] & Hall & ->).
  apply Forall2_cons_inv_l in Hall as (o2 & l2 & [= <-] & Hall & ->).
  apply Forall2_cons_inv_l in Hall as (o3 & l3 & [= <-] & Hall & ->).
  apply Forall2_nil_inv_l in Hall as ->.
  reflexivity.
Defined.

(** ** Cardano: the inputs that are found, and the order of the requests *)

Lemma input_callback_found env c l :
  found_for env c = Some l →
  ∃ key,
    input_callback env c =
    ([ReqUTXOs (ci_address c) CARDANO],
     Ok (key, map (λ u, (u, ci_address c)) l)).
Proof.
  unfold found_for, input_callback, getUTXOs, request.
  destruct (from_128_xprv env (ci_privateKey c)) as [k|]; [|done].
  destruct (utxos_api env (ci_address c) CARDANO) as [[items|]|]; [|done..].
  intros [= <-]. eexists. reflexivity.
Qed.

Lemma input_callbacks_found env race inputs founds :
  Forall2 (λ c l, found_for env c = Some l) inputs founds →
  ∃ rs,
    promise_all race (map (input_callback env) inputs) =
      (map (λ c, ReqUTXOs (ci_address c) CARDANO) inputs, Ok rs) ∧
    length (concat (map snd rs)) = length (concat founds).
Proof.
  unfold promise_all.
  induction 1 as [|c l inputs founds Hc Hall IH]; [by exists []|].
  destruct IH as (rs & Heq & Hlen).
  destruct (input_callback_found env c l Hc) as [key Hcb].
  injection Heq as Htrace Hout.
  exists ((key, map (λ u, (u, ci_address c)) l) :: rs).
  cbn [map concat rejections fulfilled]. rewrite Hcb. cbn [fst snd].
  rewrite Htrace. split.
  - f_equal. destruct (rejections _); [|done].
    cbn. by injection Hout as ->.
  - rewrite !length_app, length_map. lia.
Qed.



(** A sequence that returned: its first part returned, then the rest. *)
Lemma bind_ok {A B} (m : M A) (f : A → M B) b :
  outcome (m ≫= f) = Ok b →
  ∃ a, outcome m = Ok a ∧ outcome (f a) = Ok b ∧
       trace (m ≫= f) = trace m ++ trace (f a).
Proof.
  rewrite outcome_bind, trace_bind.
  destruct (outcome m) as [a|]; [|done]. intros H. by exists a.
Qed.

(** X17.  A Cardano transfer from a wallet that returns has made exactly five
    remote requests, in this order: the unspent outputs of the wallet,
    preprocess of the operations built without a fee, metadata for the options
    answered, payloads of the operations built again with the first suggested
    fee, and combine of the unsigned transaction with one signature per
    payload.  The envelope holds what combine answered, for Cardano, tagged
    [TRANSFER]. *)
Theorem cardano_from_wallet_sequence env input tx :
  outcome (createCardanoTransferTransactionFromWallet env input) = Ok tx →
  ∃ utxos feeless options metadata fee built payload signatures,
    outcome (getUTXOs env (cw_address (cwi_wallet input)) CARDANO)
      = Ok utxos ∧
    buildOperation env utxos (cw_address (cwi_wallet input))
      (cwi_outputs input) None = Ok feeless ∧
    preprocess_api env feeless = Ok options ∧
    metadata_api env options = Ok metadata ∧
    head (suggested_fee metadata) = Some fee ∧
    buildOperation env utxos (cw_address (cwi_wallet input))
      (cwi_outputs input) (Some fee) = Ok built ∧
    payloads_api env built (md_metadata metadata) = Ok payload ∧
    trace (createCardanoTransferTransactionFromWallet env input) =
      [ReqUTXOs (cw_address (cwi_wallet input)) CARDANO;
       ReqPreprocess feeless; ReqMetadata options;
       ReqPayloads built (md_metadata metadata);
       ReqCombine (unsigned_transaction payload) signatures] ∧
    length signatures = length (payloads payload) ∧
    combine_api env (unsigned_transaction payload) signatures
      = Ok (signedTx tx) ∧
    protocol tx = CARDANO ∧ type tx = TRANSFER.
Proof.
  unfold createCardanoTransferTransactionFromWallet.
  rewrite outcome_try_catch, trace_try_catch.
  match goal with
  | |- context [match outcome ?m with _ => _ end] =>
      destruct (outcome m) as [tx'|] eqn:H; [|done]
  end.
  intros [= ->].
  apply bind_ok in H as (key & Hkey & H & ->).
  apply bind_ok in H as (utxos & Hutxos & H & ->).
  apply bind_ok in H as (feeless & Hfeeless & H & ->).
  apply bind_ok in H as (options & Hoptions & H & ->).
  apply bind_ok in H as (metadata & Hmetadata & H & ->).
  apply bind_ok in H as (fee & Hfee & H & ->).
  apply bind_ok in H as (built & Hbuilt & H & ->).
  apply bind_ok in H as (payload & Hpayload & H & ->).
  apply bind_ok in H as (signatures & Hsigs & H & ->).
  apply bind_ok in H as (signed & Hsigned & H & ->).
  autorewrite with log in *. injection H as <-.
  apply try_map_ok, Forall2_length in Hsigs.
  exists utxos, feeless, options, metadata, fee, built, payload, signatures.
  unfold suggested_fee_value in Hfee.
  destruct (suggested_fee metadata) as [|v l]; [done|].
  cbn in Hfee. injection Hfee as <-.
  repeat split; done.
Qed.

(** The transfer of the examples: one payload, for the address of the
    wallet. *)
Lemma cardano_from_wallet_sequence_witness :
  ∃ tx signatures,
    outcome (createCardanoTransferTransactionFromWallet
               (cardano_env ["addr_test1vq"]) example_cardano_wallet) = Ok tx ∧
    trace (createCardanoTransferTransactionFromWallet
             (cardano_env ["addr_test1vq"]) example_cardano_wallet) =
      [ReqUTXOs "addr_test1vq" CARDANO; ReqPreprocess "operations";
       ReqMetadata "options"; ReqPayloads "operations" "metadata";
       ReqCombine "unsigned" signatures] ∧
    length signatures = 1%nat ∧
    signedTx tx = JStr "signed".
Proof.
  eexists.
  destruct (cardano_from_wallet_sequence (cardano_env ["addr_test1vq"])
              example_cardano_wallet _ eq_refl)
    as (utxos & feeless & options & metadata & fee & built & payload
        & signatures & _ & Hfeeless & Hoptions & Hmetadata & _ & Hbuilt
        & Hpayload & Htrace & Hlen & _).
  injection Hfeeless as <-. injection Hoptions as <-.
  injection Hmetadata as <-. injection Hbuilt as <-.
  injection Hpayload as <-.
  exists signatures. split; [reflexivity|]. split; [exact Htrace|].
  split; [exact Hlen|reflexivity].
Defined.

(** ** The wider log *)

Lemma events_bind {E X A B} (m : Async E X A) (f : A → Async E X B) :
  events (m ≫= f) =
  match settlement m with
  | Fulfilled a => events m ++ events (f a)
  | Rejected _ => events m
  end.
Proof. destruct m as [t [a|e]]; reflexivity. Qed.

Lemma settlement_bind {E X A B} (m : Async E X A) (f : A → Async E X B) :
  settlement (m ≫= f) =
  match settlement m with
  | Fulfilled a => settlement (f a)
  | Rejected e => Rejected e
  end.
Proof. destruct m as [t [a|e]]; reflexivity. Qed.

Lemma events_caught {E X A} (m : Async E X A) h :
  events (caught m h) = events m.
Proof. destruct m as [t [a|e]]; reflexivity. Qed.

Lemma settlement_caught {E X A} (m : Async E X A) h :
  settlement (caught m h) =
  match settlement m with
  | Fulfilled a => Fulfilled a
  | Rejected e => Rejected (h e)
  end.
Proof. destruct m as [t [a|e]]; reflexivity. Qed.

Lemma events_await {E X A} ev (r : settled X A) :
  events (await (E:=E) ev r) = [ev].
Proof. reflexivity. Qed.

Lemma settlement_await {E X A} ev (r : settled X A) :
  settlement (await (E:=E) ev r) = r.
Proof. reflexivity. Qed.

Lemma events_checked {E X} (v : option X) : events (checked (E:=E) v) = [].
Proof. by destruct v. Qed.

Lemma settlement_checked {E X} (v : option X) :
  settlement (checked (E:=E) v) =
  match v with Some e => Rejected e | None => Fulfilled tt end.
Proof. by destruct v. Qed.

Lemma events_reject {E X A} (x : X) : events (reject (E:=E) (A:=A) x) = [].
Proof. reflexivity. Qed.

Lemma settlement_reject {E X A} (x : X) :
  settlement (reject (E:=E) (A:=A) x) = Rejected x.
Proof. reflexivity. Qed.

Lemma events_mret {E X A} (a : A) : events (mret a : Async E X A) = [].
Proof. reflexivity. Qed.

Lemma settlement_mret {E X A} (a : A) :
  settlement (mret a : Async E X A) = Fulfilled a.
Proof. reflexivity. Qed.

Lemma events_core {A} (m : M A) : events (core m) = map Core (trace m).
Proof. reflexivity. Qed.

Lemma settlement_core {A} (m : M A) :
  settlement (core m) = settled_of (outcome m).
Proof. reflexivity. Qed.

Lemma events_pair {E X A} t (r : settled X A) : events ((t, r) : Async E X A) = t.
Proof. reflexivity. Qed.

Lemma settlement_pair {E X A} t (r : settled X A) :
  settlement ((t, r) : Async E X A) = r.
Proof. reflexivity. Qed.

Create Rewrite HintDb wider.
#[export] Hint Rewrite @events_bind @settlement_bind @events_caught
  @settlement_caught @events_await @settlement_await @events_checked
  @settlement_checked @events_reject @settlement_reject @events_mret
  @settlement_mret @events_core @settlement_core @events_pair
  @settlement_pair : wider.

(** ** Endpoints: how a failure is reported *)



(** ** Stellar: the account, its sequence number and the fee *)

Lemma settled_of_Fulfilled {A} (r : result A) a :
  settled_of r = Fulfilled a → r = Ok a.
Proof. destruct r; [by intros [= ->]|done]. Qed.

Ltac wider_simpl :=
  repeat progress (autorewrite with wider log; cbn [app map settled_of negb]).

Ltac wider_cases :=
  repeat (wider_simpl;
          match goal with
          | |- context [match ?v with Some _ => Rejected _ | None => _ end] =>
              destruct v eqn:?
          | |- context [match ?r with Ok _ => _ | Throw _ => _ end] =>
              destruct r eqn:?
          | |- context [match ?r with Fulfilled _ => _ | Rejected _ => _ end] =>
              destruct r eqn:?
          | |- context [if negb (truthy ?v) then _ else _] =>
              destruct (negb (truthy v)) eqn:?
          end);
  wider_simpl.

(** X19.  When a Stellar construction (transfer or trustline) calls its
    builder, it has asked for the wallet info by the public key of the wallet,
    and the builder gets that public key and the [sequence] of the answer.
    The fee the builder gets is the fee of the caller when truthy, with no
    quotation asked; otherwise the [estimateValue] of a quotation asked for
    the type of the operation. *)
Theorem stellar_account_sequence_and_fee env config services x call :
  BuildStellar call ∈ events (stellar_construct env config services x) →
  ∃ info,
    Core (ReqWalletInfo (w_publicKey (stellar_wallet x)) STELLAR)
      ∈ events (stellar_construct env config services x) ∧
    wallet_info_api env (w_publicKey (stellar_wallet x)) STELLAR = Ok info ∧
    (stellar_account call).1.1 = w_publicKey (stellar_wallet x) ∧
    (stellar_account call).1.2 = sequence info ∧
    if truthy (stellar_fee x).1
    then (stellar_account call).2 = (stellar_fee x).1 ∧
         Forall (λ ev, is_core_fee_request ev = false)
           (events (stellar_construct env config services x))
    else ∃ quote,
           Core (ReqFee (only_type (stellar_fee x).2) STELLAR)
             ∈ events (stellar_construct env config services x) ∧
           fee_api env (only_type (stellar_fee x).2) STELLAR = Ok quote ∧
           (stellar_account call).2 = estimateValue quote.
Proof.
  destruct x as [i|i]; cbn [stellar_construct stellar_wallet stellar_fee fst snd];
    unfold createStellarTransferTransaction, createStellarTrustlineTransaction,
      build_stellar, flat_fee.
  all: match goal with |- context [truthy ?f] => destruct (truthy f) eqn:Hfee end;
    cbn [negb].
  all: wider_cases.
  all: intros Hin; in_log Hin; simplify_eq.
  all: repeat match goal with
       | H : settled_of _ = Fulfilled _ |- _ => apply settled_of_Fulfilled in H
       | H : context [match fee_api ?e ?d ?p with _ => _ end] |- _ =>
           destruct (fee_api e d p) eqn:?
       | H : outcome (mret _) = _ |- _ => rewrite outcome_mret in H
       end; simplify_eq; rewrite ?fee_data_fee_of_type in *.
  all: eexists; (split; [cbn [app]; repeat constructor|]).
  all: (split; [first [eassumption|reflexivity]|]); (split; [reflexivity|]);
    (split; [reflexivity|]); cbn [stellar_account fst snd xt_fee xl_fee].
  all: try (split; [reflexivity|repeat constructor]; fail).
  all: eexists; (split; [repeat constructor|]);
    (split; [first [eassumption|reflexivity]|reflexivity]).
Qed.

(** The transfer of the examples names no fee: the account is asked about
    by its public key, and the quoted estimate is the fee. *)
Lemma stellar_account_sequence_and_fee_witness :
  ∃ call info quote,
    BuildStellar call
      ∈ events (stellar_construct ripple_env example_config example_services
                  (StellarTransfer example_stellar_transfer)) ∧
    wallet_info_api ripple_env (w_publicKey stellar_wallet_example) STELLAR
      = Ok info ∧
    (stellar_account call).1.2 = sequence info ∧
    fee_api ripple_env (only_type TRANSFER) STELLAR = Ok quote ∧
    (stellar_account call).2 = estimateValue quote.
Proof.
  assert (∃ call, BuildStellar call
            ∈ events (stellar_construct ripple_env example_config
                        example_services
                        (StellarTransfer example_stellar_transfer)))
    as [call Hcall] by (eexists; vm_compute; repeat constructor).
  destruct (stellar_account_sequence_and_fee ripple_env example_config
              example_services (StellarTransfer example_stellar_transfer)
              call Hcall)
    as (info & _ & Hinfo & _ & Hseq & quote & _ & Hquote & Hfee).
  exists call, info, quote. repeat split; assumption.
Defined.

(** ** The Uniswap controller *)

Lemma events_send env services signed p t :
  events (send env services signed p t)
  = events (sendTransaction env services
              {| signedTx := signed; protocol := p; type := t |}).
Proof. reflexivity. Qed.

Lemma sign_by_protocol_supported config uniswap p wallet raw :
  supported p = true →
  sign_by_protocol config uniswap p wallet raw
  = ([sign_event config p wallet raw],
     signed_by config uniswap p wallet raw).
Proof. by destruct p. Qed.

Lemma sign_by_protocol_unsupported config uniswap p wallet raw :
  supported p = false →
  sign_by_protocol config uniswap p wallet raw
  = ([], Rejected unsupported_protocol).
Proof. by destruct p. Qed.

Ltac unfold_operations :=
  unfold operation_events, operation_rejection, operation_validation,
    query_validation, query, rejection, createPool, mintPosition,
    removePosition, collectFees, increaseLiquidity, decreaseLiquidity,
    getPools, getSwapQuotation, getTokenIds, readPosition, makeRequest.

(** X20.  Each of the ten Uniswap operations validates first: when the
    validator refuses the input, the operation rejects with the validator's
    exception as it is, and has asked, signed and sent nothing. *)
Theorem uniswap_rejected_input_asks_nothing env config services uniswap :
  (∀ x e,
     operation_validation uniswap x = Some e →
     operation_events env config services uniswap x = [] ∧
     operation_rejection env config services uniswap x = Some e) ∧
  (∀ q e,
     query_validation uniswap q = Some e →
     query uniswap q = ([], Rejected e)).
Proof.
  split.
  - intros [] e Hv; cbn in Hv; unfold_operations; rewrite Hv; done.
  - intros [] e Hv; cbn in Hv; unfold_operations; rewrite Hv; done.
Qed.

Lemma uniswap_rejected_input_asks_nothing_witness :
  operation_events account_env example_config example_services
    (refusing_uniswap (Raised invalid_params))
    (CollectFees (example_collect_fees CELO)) = [] ∧
  query (refusing_uniswap (Raised invalid_params))
    (ReadPosition example_read_position)
  = ([], Rejected (Raised invalid_params)).
Proof.
  destruct (uniswap_rejected_input_asks_nothing account_env example_config
              example_services (refusing_uniswap (Raised invalid_params)))
    as [Hoperations Hqueries].
  split.
  - by apply (Hoperations (CollectFees (example_collect_fees CELO))
                (Raised invalid_params)).
  - by apply (Hqueries (ReadPosition example_read_position)
                (Raised invalid_params)).
Defined.

(** X21.  When the remote request of a Uniswap operation fails, the operation
    rejects with that failure as it is (it is not passed through
    [handleRequestError]), after that one request; nothing is signed or sent. *)
Theorem uniswap_api_failure_passes_through env config services uniswap e :
  (∀ x,
     operation_validation uniswap x = None →
     uniswap_api uniswap (operation_body x) (operation_protocol x)
       = Rejected e →
     operation_events env config services uniswap x
       = [MakeRequest (operation_body x) (operation_protocol x)] ∧
     operation_rejection env config services uniswap x = Some e) ∧
  (∀ q,
     query_validation uniswap q = None →
     uniswap_api uniswap (query_body q) (query_protocol q) = Rejected e →
     query uniswap q
       = ([MakeRequest (query_body q) (query_protocol q)], Rejected e)).
Proof.
  split.
  - intros [] Hv Hapi; cbn in Hv, Hapi; unfold_operations; rewrite Hv;
      cbn; rewrite Hapi; done.
  - intros [] Hv Hapi; cbn in Hv, Hapi; unfold_operations; rewrite Hv;
      cbn; rewrite Hapi; done.
Qed.

Lemma uniswap_api_failure_passes_through_witness :
  operation_events account_env example_config example_services
    (unreachable_uniswap (Raised (GenericException "timeout" None)))
    (CreatePool (example_create_pool ETHEREUM))
  = [MakeRequest (operation_body (CreatePool (example_create_pool ETHEREUM)))
       ETHEREUM] ∧
  query (unreachable_uniswap (Raised (GenericException "timeout" None)))
    (ReadPosition example_read_position)
  = ([MakeRequest (readPosition_body POLYGON (JStr "1234")) POLYGON],
     Rejected (Raised (GenericException "timeout" None))).
Proof.
  destruct (uniswap_api_failure_passes_through account_env example_config
              example_services
              (unreachable_uniswap (Raised (GenericException "timeout" None)))
              (Raised (GenericException "timeout" None)))
    as [Hoperations Hqueries].
  split.
  - by apply (Hoperations (CreatePool (example_create_pool ETHEREUM))).
  - by apply (Hqueries (ReadPosition example_read_position)).
Defined.

(** X22.  A Uniswap operation on a protocol other than Celo, Ethereum and
    Polygon is refused with the InvalidException 'Unsupported protocol' only
    after its remote request has been made and answered; nothing is signed or
    sent.  The one exception is [createPool] on a pool that the answer says is
    initialized, which returns without looking at the protocol. *)
Theorem unsupported_protocol_is_refused_after_the_request
    env config services uniswap x r :
  operation_validation uniswap x = None →
  uniswap_api uniswap (operation_body x) (operation_protocol x)
    = Fulfilled r →
  supported (operation_protocol x) = false →
  operation_events env config services uniswap x
    = [MakeRequest (operation_body x) (operation_protocol x)] ∧
  operation_rejection env config services uniswap x
    = (if found_initialized x r then None else Some unsupported_protocol).
Proof.
  intros Hv Hapi Hp.
  destruct x; cbn in Hv, Hapi, Hp |- *; unfold_operations; rewrite Hv;
    cbn; rewrite Hapi; cbn;
    try destruct (truthy (initialized r)); cbn;
    rewrite ?sign_by_protocol_unsupported by done; done.
Qed.

Lemma unsupported_protocol_is_refused_after_the_request_witness :
  operation_events account_env example_config example_services
    (example_uniswap false) (CollectFees (example_collect_fees BSC))
  = [MakeRequest (collectFees_body (w_address example_wallet) (JStr "1234"))
       BSC] ∧
  operation_rejection account_env example_config example_services
    (example_uniswap false) (CollectFees (example_collect_fees BSC))
  = Some (InvalidException "Unsupported protocol").
Proof.
  by apply (unsupported_protocol_is_refused_after_the_request account_env
              example_config example_services (example_uniswap false)
              (CollectFees (example_collect_fees BSC))
              {| rawTransaction :=
                   JObject "{ to: '0x1F98', data: '0x13ead562' }";
                 pool := JStr "0x8ad599c3A0ff1De082011EFDDc58f1908eb6e6D8";
                 initialized := JBool false |}).
Defined.

(** X23.  A Uniswap operation that has to send, on Celo, Ethereum or Polygon,
    makes its request, has the raw transaction of the answer signed with the
    private key of the wallet ([signCeloTx] on Celo, [signEthereumTx] with the
    protocol and the environment otherwise), and sends what the signer
    returned through [sendTransaction], on the same protocol; a signer that
    fails ends the operation with nothing sent.  The transaction is tagged
    [CREATE_POOL] by [createPool], [REMOVE_POSITION] by [removePosition], and
    [MINT_POSITION] by [mintPosition], [collectFees], [increaseLiquidity] and
    [decreaseLiquidity] alike. *)
Theorem operations_send_what_the_signer_returned
    env config services uniswap x r :
  operation_validation uniswap x = None →
  uniswap_api uniswap (operation_body x) (operation_protocol x)
    = Fulfilled r →
  found_initialized x r = false →
  supported (operation_protocol x) = true →
  let p := operation_protocol x in
  let wallet := operation_wallet x in
  let signing := signed_by config uniswap p wallet (rawTransaction r) in
  let sending signed :=
    sendTransaction env services
      {| signedTx := signed; protocol := p; type := operation_tag uniswap x |}
  in
  operation_events env config services uniswap x
    = MakeRequest (operation_body x) p
      :: sign_event config p wallet (rawTransaction r)
      :: match signing with
         | Fulfilled signed => events (sending signed)
         | Rejected _ => []
         end ∧
  operation_rejection env config services uniswap x
    = match signing with
      | Fulfilled signed =>
          match settlement (sending signed) with
          | Fulfilled _ => None
          | Rejected e => Some (Raised e)
          end
      | Rejected e => Some e
      end.
Proof.
  intros Hv Hapi Hinit Hp.
  destruct x; cbn in Hv, Hapi, Hinit, Hp |- *; unfold_operations; rewrite Hv;
    cbn; rewrite Hapi; cbn; rewrite ?Hinit; cbn;
    rewrite sign_by_protocol_supported by done; cbn.
  all: match goal with
       | |- context [signed_by ?c ?u ?p ?w ?raw] =>
           destruct (signed_by c u p w raw) as [signed|e]
       end; cbn; [|done].
  all: rewrite ?app_nil_r;
    match goal with
    | |- context [sendTransaction ?e ?s ?t] =>
        destruct (sendTransaction e s t) as [l []]
    end; cbn; rewrite ?app_nil_r; done.
Qed.

Lemma operations_send_what_the_signer_returned_witness :
  operation_events account_env example_config example_services
    (example_uniswap false) (CollectFees (example_collect_fees CELO))
  = [MakeRequest (collectFees_body (w_address example_wallet) (JStr "1234"))
       CELO;
     SignCeloTx (JObject "{ to: '0x1F98', data: '0x13ead562' }")
       (w_privateKey example_wallet);
     ReqSendTransaction (JStr "0xcelo") (TypeTag "MINT_POSITION") CELO] ∧
  operation_rejection account_env example_config example_services
    (example_uniswap false) (CollectFees (example_collect_fees CELO)) = None.
Proof.
  by apply (operations_send_what_the_signer_returned account_env
              example_config example_services (example_uniswap false)
              (CollectFees (example_collect_fees CELO))
              {| rawTransaction :=
                   JObject "{ to: '0x1F98', data: '0x13ead562' }";
                 pool := JStr "0x8ad599c3A0ff1De082011EFDDc58f1908eb6e6D8";
                 initialized := JBool false |}).
Defined.

(** X24.  When [createPool] returns, the pool it returns is the pool of the
    remote answer, and its transaction is null exactly when the answer says
    the pool is initialized; in that case the remote request is the only thing
    it did. *)
Theorem create_pool_transaction_is_null_iff_the_pool_was_there
    env config services uniswap input response :
  settlement (createPool env config services uniswap input)
    = Fulfilled response →
  ∃ r,
    uniswap_api uniswap (operation_body (CreatePool input))
      (cpi_protocol input) = Fulfilled r ∧
    cp_pool response = pool r ∧
    (cp_transaction response = None ↔ truthy (initialized r) = true) ∧
    (truthy (initialized r) = true →
     events (createPool env config services uniswap input)
     = [MakeRequest (operation_body (CreatePool input))
          (cpi_protocol input)]).
Proof.
  unfold createPool, makeRequest.
  destruct (validateUniswapCreatePool uniswap input); [done|]. cbn.
  destruct (uniswap_api uniswap _ _) as [r|]; [|done]. cbn.
  destruct (truthy (initialized r)) eqn:Hinit; cbn.
  - intros [= <-]. exists r. by repeat split.
  - destruct (sign_by_protocol _ _ _ _ _) as [l1 [signed|]]; [|done]. cbn.
    destruct (sendTransaction _ _ _) as [l2 [tx|]]; [|done]. cbn.
    intros [= <-]. exists r. rewrite Hinit. repeat split; done.
Qed.

Lemma create_pool_transaction_is_null_iff_the_pool_was_there_witness :
  ∃ r,
    uniswap_api (example_uniswap true)
      (operation_body (CreatePool (example_create_pool BSC))) BSC
      = Fulfilled r ∧
    pool r = JStr "0x8ad599c3A0ff1De082011EFDDc58f1908eb6e6D8" ∧
    truthy (initialized r) = true.
Proof.
  destruct (create_pool_transaction_is_null_iff_the_pool_was_there
              account_env example_config example_services
              (example_uniswap true) (example_create_pool BSC)
              {| cp_transaction := None;
                 cp_pool :=
                   JStr "0x8ad599c3A0ff1De082011EFDDc58f1908eb6e6D8" |}
              eq_refl) as (r & Hr & Hpool & Hnull & _).
  exists r. split; [exact Hr|]. split; [by rewrite <- Hpool|].
  by apply Hnull.
Defined.
